(** * Verification of the Gitlab platform layer of danger-js

    Shallow embedding of
    - [source/platforms/gitlab/GitlabGit.ts]: the commit normalizer, the
      change-list normalizer and the structured-diff normalizer;
    - [source/platforms/gitlab/GitlabAPI.ts]: the API client (request
      construction, [throwIfNotOk], the memoized PR fetch, the pagination
      loop and [getFileContents]).

    JavaScript values are modelled as follows: a [number] holding an integer
    is a [Z]; a [string] is a [string]; a field that may be [undefined] is an
    [option]; an array is a [list]; [throw] is the [inl] branch of a sum (or
    the [Thrown] outcome of the client monad). *)

From Stdlib Require Import ZArith List String Ascii Bool Lia Permutation.
From Stdlib Require Import DecimalString.
Import ListNotations.
Local Open Scope string_scope.
Local Open Scope Z_scope.

(** ** JavaScript exceptions and results *)

(** The exceptions the embedded code can raise: [new Error(message)] thrown
    by the source itself, and the [TypeError] / [RangeError] the runtime
    raises on a property access on [undefined] and on [toISOString] of an
    invalid date. *)
Inductive exn : Type :=
| Error (message : string)
| TypeError (message : string)
| RangeError (message : string).

(** A computation that either throws or returns. *)
Definition result (A : Type) : Type := (exn + A)%type.

Definition ret {A : Type} (a : A) : result A := inr a.
Definition throw {A : Type} (e : exn) : result A := inl e.

Definition bind {A B : Type} (m : result A) (k : A -> result B) : result B :=
  match m with
  | inl e => inl e
  | inr a => k a
  end.

Notation "x <-- m ;; k" := (bind m (fun x => k))
  (at level 61, m at next level, right associativity).

(** [Array.prototype.reduce] with an initial value and a callback that may
    throw: the callback is applied left to right, and the first exception
    leaves the loop. *)
Fixpoint reduce {A B : Type} (f : B -> A -> result B) (l : list A) (init : B)
  : result B :=
  match l with
  | [] => ret init
  | x :: xs => bind (f init x) (reduce f xs)
  end.

(** Decimal rendering of an integer, as in a template literal. *)
Definition string_of_Z (n : Z) : string := NilZero.string_of_int (Z.to_int n).

(** ** The platform's records (GitlabDSL) and the canonical ones *)

(** A canonical commit (dsl/Commit). *)
Module GitCommitAuthor.
Record t : Type := mk { name : string; email : string; date : string }.
End GitCommitAuthor.

Module GitCommit.
Record t : Type := mk {
  sha : string;
  parents : list string;
  author : GitCommitAuthor.t;
  committer : GitCommitAuthor.t;
  message : string;
  tree : option string;
  url : string
}.
End GitCommit.

(** The JSON-level git object (dsl/GitDSL). *)
Module GitJSONDSL.
Record t : Type := mk {
  modified_files : list string;
  created_files : list string;
  deleted_files : list string;
  commits : list GitCommit.t
}.
End GitJSONDSL.

(** Modelled from the spec: the declaration of a path of the platform
    (dsl/GitlabDSL), an object whose [toString] field holds the
    repository-relative path as a string. *)
Module GitlabPath.
Record t : Type := mk { toString : string }.
End GitlabPath.

(** Modelled from the spec: the declaration of a change record
    (dsl/GitlabDSL): [{ type, path, srcPath? }], [srcPath] being present only
    for a MOVE. *)
Module GitlabChangesValue.
Record t : Type := mk {
  type : string;
  path : GitlabPath.t;
  srcPath : option GitlabPath.t
}.
End GitlabChangesValue.

(** Modelled from the spec: the declaration of a page of changes
    (dsl/GitlabDSL): [{ values, nextPageStart }], [nextPageStart = null]
    ([None]) on the last page. *)
Module GitlabChanges.
Record t : Type := mk {
  values : list GitlabChangesValue.t;
  nextPageStart : option Z
}.
End GitlabChanges.

(** ** The change-list normalizer (GitlabGit.ts) *)

(** [value.srcPath.toString]: a property access on [undefined] raises. *)
Definition srcPath_toString (value : GitlabChangesValue.t) : result string :=
  match GitlabChangesValue.srcPath value with
  | Some p => ret (GitlabPath.toString p)
  | None => throw (TypeError "Cannot read property 'toString' of undefined")
  end.

(** The callback of the [reduce] in [bitBucketServerChangesToGitJSONDSL]. *)
Definition changes_step (git : GitJSONDSL.t) (value : GitlabChangesValue.t)
  : result GitJSONDSL.t :=
  let ty := GitlabChangesValue.type value in
  let p := GitlabPath.toString (GitlabChangesValue.path value) in
  if String.eqb ty "ADD" then
    ret {| GitJSONDSL.modified_files := GitJSONDSL.modified_files git;
           GitJSONDSL.created_files := GitJSONDSL.created_files git ++ [p];
           GitJSONDSL.deleted_files := GitJSONDSL.deleted_files git;
           GitJSONDSL.commits := GitJSONDSL.commits git |}
  else if String.eqb ty "MODIFY" then
    ret {| GitJSONDSL.modified_files := GitJSONDSL.modified_files git ++ [p];
           GitJSONDSL.created_files := GitJSONDSL.created_files git;
           GitJSONDSL.deleted_files := GitJSONDSL.deleted_files git;
           GitJSONDSL.commits := GitJSONDSL.commits git |}
  else if String.eqb ty "MOVE" then
    q <-- srcPath_toString value ;;
    ret {| GitJSONDSL.modified_files := GitJSONDSL.modified_files git;
           GitJSONDSL.created_files := GitJSONDSL.created_files git ++ [p];
           GitJSONDSL.deleted_files := GitJSONDSL.deleted_files git ++ [q];
           GitJSONDSL.commits := GitJSONDSL.commits git |}
  else if String.eqb ty "DELETE" then
    ret {| GitJSONDSL.modified_files := GitJSONDSL.modified_files git;
           GitJSONDSL.created_files := GitJSONDSL.created_files git;
           GitJSONDSL.deleted_files := GitJSONDSL.deleted_files git ++ [p];
           GitJSONDSL.commits := GitJSONDSL.commits git |}
  else
    throw (Error "Unhandled change type").

(** The accumulator the fold starts from. *)
Definition empty_git (commits : list GitCommit.t) : GitJSONDSL.t :=
  {| GitJSONDSL.modified_files := [];
     GitJSONDSL.created_files := [];
     GitJSONDSL.deleted_files := [];
     GitJSONDSL.commits := commits |}.

Definition bitBucketServerChangesToGitJSONDSL
  (changes : list GitlabChangesValue.t) (commits : list GitCommit.t)
  : result GitJSONDSL.t :=
  reduce changes_step changes (empty_git commits).

(** ** Dates of the runtime: [new Date(ms).toISOString()] *)

(** The time value of a [Date]: [None] is the invalid date ([NaN]). *)
Definition time_value : Type := option Z.

(** [TimeClip]: a time value is at most 8.64e15 ms away from the epoch. *)
Definition max_time : Z := 8640000000000000.

Definition valid_time (ms : Z) : bool := Z.abs ms <=? max_time.

(** [new Date(value)] for a number, or for [undefined] ([None]). *)
Definition new_Date (value : option Z) : time_value :=
  match value with
  | Some ms => if valid_time ms then Some ms else None
  | None => None
  end.

Definition msPerDay : Z := 86400000.

(** Year, month (1..12) and day of the month (1..31) of a day number counted
    from 1970-01-01, in the proleptic Gregorian calendar. *)
Definition civil_from_days (day : Z) : Z * Z * Z :=
  let z := day + 719468 in
  let era := z / 146097 in
  let doe := z - era * 146097 in
  let yoe := (doe - doe / 1460 + doe / 36524 - doe / 146096) / 365 in
  let doy := doe - (365 * yoe + yoe / 4 - yoe / 100) in
  let mp := (5 * doy + 2) / 153 in
  let d := doy - (153 * mp + 2) / 5 + 1 in
  let m := if mp <? 10 then mp + 3 else mp - 9 in
  let y := yoe + era * 400 in
  (if m <=? 2 then y + 1 else y, m, d).

(** [DayFromYear], [InLeapYear] and the day number of a calendar date, as the
    language specification defines them; used to cross-check
    [civil_from_days]. *)
Definition DayFromYear (y : Z) : Z :=
  365 * (y - 1970) + (y - 1969) / 4 - (y - 1901) / 100 + (y - 1601) / 400.

Definition InLeapYear (y : Z) : bool :=
  ((y mod 4 =? 0) && negb (y mod 100 =? 0)) || (y mod 400 =? 0).

Definition DaysInMonth (y m : Z) : Z :=
  if m =? 2 then (if InLeapYear y then 29 else 28)
  else if (m =? 4) || (m =? 6) || (m =? 9) || (m =? 11) then 30
  else 31.

Definition days_before_month (y m : Z) : Z :=
  fold_left Z.add (map (DaysInMonth y) (map Z.of_nat (seq 1 (Z.to_nat (m - 1))))) 0.

Definition days_from_civil (ymd : Z * Z * Z) : Z :=
  let '(y, m, d) := ymd in DayFromYear y + days_before_month y m + d - 1.

Definition digit (d : Z) : ascii := ascii_of_nat (48 + Z.to_nat d).

(** The last [width] decimal digits of [n], zero-padded, in front of [acc]. *)
Fixpoint pad_digits (width : nat) (n : Z) (acc : string) : string :=
  match width with
  | O => acc
  | S w => pad_digits w (n / 10) (String (digit (n mod 10)) acc)
  end.

Definition pad (width : nat) (n : Z) : string := pad_digits width n "".

(** The year of the date-time format: four digits from 0 to 9999, otherwise a
    sign and six digits. *)
Definition year_string (y : Z) : string :=
  if (0 <=? y) && (y <=? 9999) then pad 4 y
  else if y <? 0 then "-" ++ pad 6 (- y)
  else "+" ++ pad 6 y.

Definition iso_string (ms : Z) : string :=
  let '(y, m, d) := civil_from_days (ms / msPerDay) in
  let t := ms mod msPerDay in
  year_string y ++ "-" ++ pad 2 m ++ "-" ++ pad 2 d ++ "T" ++
  pad 2 (t / 3600000) ++ ":" ++ pad 2 (t / 60000 mod 60) ++ ":" ++
  pad 2 (t / 1000 mod 60) ++ "." ++ pad 3 (t mod 1000) ++ "Z".

(** [Date.prototype.toISOString]: raises on the invalid date. *)
Definition toISOString (tv : time_value) : result string :=
  match tv with
  | Some ms => ret (iso_string ms)
  | None => throw (RangeError "Invalid time value")
  end.

(** ** The commit normalizer (GitlabGit.ts) *)

(** Modelled from the spec: the declarations of the platform's commit record
    and of the repository metadata (dsl/GitlabDSL): id, parent ids, author
    (name, email, timestamp) and an optional committer (name, email,
    timestamp). *)
Module GitlabUser.
Record t : Type := mk { name : string; emailAddress : string }.
End GitlabUser.

Module GitlabParent.
Record t : Type := mk { id : string }.
End GitlabParent.

Module GitlabCommit.
Record t : Type := mk {
  id : string;
  parents : list GitlabParent.t;
  author : GitlabUser.t;
  authorTimestamp : Z;
  committer : option GitlabUser.t;
  committerTimestamp : option Z;
  message : string
}.
End GitlabCommit.

Module RepoMetaData.
Record t : Type := mk { repoSlug : string; pullRequestID : string }.
End RepoMetaData.

Definition bitBucketServerCommitToGitCommit
  (bbsCommit : GitlabCommit.t) (repoMetadata : RepoMetaData.t) (host : string)
  : result GitCommit.t :=
  let url := host ++ "/" ++ RepoMetaData.repoSlug repoMetadata ++ "/commits/"
                  ++ GitlabCommit.id bbsCommit in
  authorDate <-- toISOString (new_Date (Some (GitlabCommit.authorTimestamp bbsCommit))) ;;
  committer <--
    match GitlabCommit.committer bbsCommit with
    | Some c =>
        date <-- toISOString (new_Date (GitlabCommit.committerTimestamp bbsCommit)) ;;
        ret {| GitCommitAuthor.email := GitlabUser.emailAddress c;
               GitCommitAuthor.name := GitlabUser.name c;
               GitCommitAuthor.date := date |}
    | None =>
        date <-- toISOString (new_Date (Some (GitlabCommit.authorTimestamp bbsCommit))) ;;
        ret {| GitCommitAuthor.email :=
                 GitlabUser.emailAddress (GitlabCommit.author bbsCommit);
               GitCommitAuthor.name := GitlabUser.name (GitlabCommit.author bbsCommit);
               GitCommitAuthor.date := date |}
    end ;;
  ret {| GitCommit.sha := GitlabCommit.id bbsCommit;
         GitCommit.parents := map GitlabParent.id (GitlabCommit.parents bbsCommit);
         GitCommit.author :=
           {| GitCommitAuthor.email :=
                GitlabUser.emailAddress (GitlabCommit.author bbsCommit);
              GitCommitAuthor.name := GitlabUser.name (GitlabCommit.author bbsCommit);
              GitCommitAuthor.date := authorDate |};
         GitCommit.committer := committer;
         GitCommit.message := GitlabCommit.message bbsCommit;
         GitCommit.tree := None;
         GitCommit.url := url |}.

(** ** The structured-diff normalizer (GitlabGit.ts) *)

(** Modelled from the spec: the declarations of the platform's diff
    (dsl/GitlabDSL): a diff has an optional source and destination path and
    hunks; a hunk has segments; a segment has a type and lines; a line has
    its text and its source and destination line numbers (each possibly
    [null], here [None]). *)
Module GitlabLine.
Record t : Type := mk {
  line : string;
  source : option Z;
  destination : option Z
}.
End GitlabLine.

Module GitlabSegment.
Record t : Type := mk { type : string; lines : list GitlabLine.t }.
End GitlabSegment.

Module GitlabHunk.
Record t : Type := mk { segments : list GitlabSegment.t }.
End GitlabHunk.

Module GitlabDiff.
Record t : Type := mk {
  source : option GitlabPath.t;
  destination : option GitlabPath.t;
  hunks : option (list GitlabHunk.t)
}.
End GitlabDiff.

(** The value of a property read [o[k]] on an object literal whose own
    properties are strings: the own property, or a member inherited from
    [Object.prototype], or [undefined]. *)
Inductive property : Type :=
| Own (value : string)
| Inherited (name : string)
| Undefined.

Definition Object_prototype : list string :=
  [ "constructor"; "__defineGetter__"; "__defineSetter__"; "hasOwnProperty";
    "__lookupGetter__"; "__lookupSetter__"; "isPrototypeOf";
    "propertyIsEnumerable"; "toString"; "valueOf"; "__proto__";
    "toLocaleString" ].

Fixpoint own_property (o : list (string * string)) (k : string) : option string :=
  match o with
  | [] => None
  | (k', v) :: rest => if String.eqb k k' then Some v else own_property rest k
  end.

Definition get_property (o : list (string * string)) (k : string) : property :=
  match own_property o k with
  | Some v => Own v
  | None => if existsb (String.eqb k) Object_prototype then Inherited k else Undefined
  end.

(** The canonical structured diff (git/gitJSONToGitDSL). *)
Module Change.
Record t : Type := mk {
  type : property;
  content : string;
  sourceLine : option Z;
  destinationLine : option Z
}.
End Change.

Module Chunk.
Record t : Type := mk { changes : list Change.t }.
End Chunk.

Module StructuredDiffEntry.
Record t : Type := mk {
  from : option string;
  to : option string;
  chunks : option (list Chunk.t)
}.
End StructuredDiffEntry.

Definition GitStructuredDiff : Type := list StructuredDiffEntry.t.

Definition segmentValues : list (string * string) :=
  [ ("ADDED", "add"); ("CONTEXT", "normal"); ("REMOVED", "del") ].

(** [a && b] on an optional object [a]: [a] itself when it is absent. *)
Definition and_then {A B : Type} (a : option A) (b : A -> B) : option B :=
  match a with
  | Some x => Some (b x)
  | None => None
  end.

(** The change entry built for one line of a segment. *)
Definition line_change (segment : GitlabSegment.t) (line : GitlabLine.t) : Change.t :=
  {| Change.type := get_property segmentValues (GitlabSegment.type segment);
     Change.content := GitlabLine.line line;
     Change.sourceLine := GitlabLine.source line;
     Change.destinationLine := GitlabLine.destination line |}.

Definition segment_changes (segment : GitlabSegment.t) : list Change.t :=
  map (line_change segment) (GitlabSegment.lines segment).

Definition hunk_chunk (hunk : GitlabHunk.t) : Chunk.t :=
  {| Chunk.changes :=
       fold_left (fun a b => (a ++ b)%list)
                 (map segment_changes (GitlabHunk.segments hunk)) [] |}.

Definition bitBucketServerDiffToGitStructuredDiff (diffs : list GitlabDiff.t)
  : GitStructuredDiff :=
  map (fun diff =>
         {| StructuredDiffEntry.from :=
              and_then (GitlabDiff.source diff) GitlabPath.toString;
            StructuredDiffEntry.to :=
              and_then (GitlabDiff.destination diff) GitlabPath.toString;
            StructuredDiffEntry.chunks :=
              and_then (GitlabDiff.hunks diff) (map hunk_chunk) |})
      diffs.

(** ** The API client (GitlabAPI.ts) *)

(** A JavaScript object used as a string-keyed map, in insertion order. *)
Definition object : Type := list (string * string).

(** [o[k] = v]: overwrite in place, or add at the end. *)
Fixpoint set_property (k v : string) (o : object) : object :=
  match o with
  | [] => [(k, v)]
  | (k', v') :: rest =>
      if String.eqb k k' then (k, v) :: rest else (k', v') :: set_property k v rest
  end.

(** [{ ...a, ...b }]. *)
Definition spread (a b : object) : object :=
  fold_left (fun o kv => set_property (fst kv) (snd kv) o) b a.

(** Truthiness of an optional string: defined and not empty. *)
Definition truthy (s : option string) : bool :=
  match s with
  | Some v => negb (String.eqb v "")
  | None => false
  end.

(** An optional string inside a template literal or a concatenation. *)
Definition interpolate (s : option string) : string :=
  match s with
  | Some v => v
  | None => "undefined"
  end.

(** [a || b] on optional strings. *)
Definition or_else (a b : option string) : option string :=
  if truthy a then a else b.

Module GitlabRepoCredentials.
Record t : Type := mk {
  host : string;
  username : option string;
  password : option string;
  token : option string
}.
End GitlabRepoCredentials.

(** What the client hands to [fetch]. *)
Module Request.
Record t : Type := mk {
  url : string;
  method : string;
  body : option string;
  headers : object;
  agent : option string
}.
End Request.

(** A response of node-fetch, as the client reads it: the status line, the
    body as text ([res.text()]) and the body deserialized ([res.json()],
    which rejects when the body is not JSON). *)
Module Response.
Record t (J : Type) : Type := mk {
  status : Z;
  statusText : string;
  text : string;
  json : result J
}.
Arguments mk {J} _ _ _ _.
Arguments status {J} _.
Arguments statusText {J} _.
Arguments text {J} _.
Arguments json {J} _.

(** [res.ok]: the status is in the range 200-299. *)
Definition ok {J : Type} (res : t J) : bool :=
  (200 <=? status res) && (status res <? 300).
End Response.

(** The collaborators of the client that live outside this code: the
    transport ([fetch], which may reject and acts on the state [World] of the
    network), the dynamically typed deserialized bodies ([JSON]) with the
    unchecked casts the client applies to them, the PR record, the base64
    encoder and the proxy settings of the process environment. *)
Class Platform : Type := {
  World : Type;
  JSON : Type;
  GitlabPRDSL : Type;
  asGitlabPRDSL : JSON -> GitlabPRDSL;
  asGitlabChanges : JSON -> GitlabChanges.t;
  fetch : Request.t -> option bool -> World -> result (Response.t JSON) * World;
  base64 : string -> string;
  env_http_proxy : option string;
  env_https_proxy : option string
}.

(** How a call of the client ends: it returns, it throws (the promise is
    rejected), or the model's loop budget is exhausted. *)
Inductive outcome (A : Type) : Type :=
| Returned (a : A)
| Thrown (e : exn)
| OutOfFuel.
Arguments Returned {A} _.
Arguments Thrown {A} _.
Arguments OutOfFuel {A}.

(** [throwIfNotOk]. *)
Definition throwIfNotOk {J : Type} (res : Response.t J) : result unit :=
  if negb (Response.ok res) then
    let message := string_of_Z (Response.status res) ++ " - " ++ Response.statusText res in
    let message :=
      if (400 <=? Response.status res) && (Response.status res <? 500) then
        message ++ " (Have you set DANGER_GITLAB_USERNAME and DANGER_GITLAB_PASSWORD or DANGER_GITLAB_TOKEN?)"
      else message in
    throw (Error message)
  else ret tt.

Section Client.
Context `{P : Platform}.

(** An instance of [GitlabAPI]: its fields, the lines written to its debug
    channel [d], and the network it talks to. *)
Record GitlabAPI : Type := mkGitlabAPI {
  repoMetadata : RepoMetaData.t;
  repoCredentials : GitlabRepoCredentials.t;
  pr : option GitlabPRDSL;
  debug_log : list string;
  world : World
}.

(** Methods of the instance: state passing over [GitlabAPI]. *)
Definition M (A : Type) : Type := GitlabAPI -> outcome A * GitlabAPI.

Definition mret {A : Type} (a : A) : M A := fun this => (Returned a, this).

Definition mbind {A B : Type} (m : M A) (k : A -> M B) : M B :=
  fun this =>
    match m this with
    | (Returned a, this') => k a this'
    | (Thrown e, this') => (Thrown e, this')
    | (OutOfFuel, this') => (OutOfFuel, this')
    end.

(** A synchronous computation, or an awaited promise already settled. *)
Definition lift {A : Type} (r : result A) : M A :=
  fun this =>
    match r with
    | inl e => (Thrown e, this)
    | inr a => (Returned a, this)
    end.

Definition d (line : string) : M unit :=
  fun this =>
    (Returned tt,
     {| repoMetadata := repoMetadata this;
        repoCredentials := repoCredentials this;
        pr := pr this;
        debug_log := debug_log this ++ [line];
        world := world this |}).

Definition set_pr (prDSL : GitlabPRDSL) : M unit :=
  fun this =>
    (Returned tt,
     {| repoMetadata := repoMetadata this;
        repoCredentials := repoCredentials this;
        pr := Some prDSL;
        debug_log := debug_log this;
        world := world this |}).

(** [await this.fetch(...)]. *)
Definition call_fetch (req : Request.t) (suppressErrors : option bool)
  : M (Response.t JSON) :=
  fun this =>
    let '(r, w) := fetch req suppressErrors (world this) in
    let this' :=
      {| repoMetadata := repoMetadata this;
         repoCredentials := repoCredentials this;
         pr := pr this;
         debug_log := debug_log this;
         world := w |} in
    match r with
    | inl e => (Thrown e, this')
    | inr res => (Returned res, this')
    end.

Local Notation "x <- m ;; k" := (mbind m (fun x => k))
  (at level 61, m at next level, right associativity).
Local Notation "m ;;; k" := (mbind m (fun _ => k))
  (at level 61, right associativity).

Definition getPRBasePath (this : GitlabAPI) : string :=
  "/projects/" ++ RepoMetaData.repoSlug (repoMetadata this) ++ "/merge_requests/"
    ++ RepoMetaData.pullRequestID (repoMetadata this).

(** The [Authorization] header chosen by [api]. *)
Definition authorize (c : GitlabRepoCredentials.t) (headers : object) : object :=
  if truthy (GitlabRepoCredentials.token c) then
    set_property "Authorization"
      ("Bearer " ++ interpolate (GitlabRepoCredentials.token c)) headers
  else if truthy (GitlabRepoCredentials.password c) then
    set_property "Authorization"
      ("Basic " ++ base64 (interpolate (GitlabRepoCredentials.username c) ++ ":"
                             ++ interpolate (GitlabRepoCredentials.password c)))
      headers
  else headers.

Definition api (path : string) (headers : option object) (body : option string)
  (method : string) (suppressErrors : option bool) : M (Response.t JSON) :=
  fun this =>
    let headers :=
      authorize (repoCredentials this)
                (match headers with Some h => h | None => [] end) in
    let url := GitlabRepoCredentials.host (repoCredentials this) ++ "/" ++ path in
    (d (method ++ " " ++ url) ;;;
     let proxy := or_else env_http_proxy env_https_proxy in
     let agent := if truthy proxy then proxy else None in
     call_fetch
       {| Request.url := url;
          Request.method := method;
          Request.body := body;
          Request.headers := spread [("Content-Type", "application/json")] headers;
          Request.agent := agent |}
       suppressErrors) this.

Definition get (path : string) (headers : option object)
  (suppressErrors : option bool) : M (Response.t JSON) :=
  api path headers None "GET" suppressErrors.

Definition getPullRequestInfo : M GitlabPRDSL :=
  fun this =>
    match pr this with
    | Some cached => (Returned cached, this)
    | None =>
        (let path := getPRBasePath this in
         res <- get path None None ;;
         lift (throwIfNotOk res) ;;;
         j <- lift (Response.json res) ;;
         let prDSL := asGitlabPRDSL j in
         set_pr prDSL ;;;
         mret prDSL) this
    end.

(** The [do ... while] loop of [getPullRequestChanges]; [fuel] bounds the
    number of iterations the model follows. *)
Fixpoint getPullRequestChanges_loop (fuel : nat) (nextPageStart : Z)
  (values : list GitlabChangesValue.t) : M (list GitlabChangesValue.t) :=
  match fuel with
  | O => fun this => (OutOfFuel, this)
  | S fuel' =>
      fun this =>
        (let path := getPRBasePath this ++ "/changes?start=" ++ string_of_Z nextPageStart in
         res <- get path None None ;;
         lift (throwIfNotOk res) ;;;
         j <- lift (Response.json res) ;;
         let data := asGitlabChanges j in
         let values := (values ++ GitlabChanges.values data)%list in
         match GitlabChanges.nextPageStart data with
         | Some next => getPullRequestChanges_loop fuel' next values
         | None => mret values
         end) this
  end.

Definition getPullRequestChanges (fuel : nat) : M (list GitlabChangesValue.t) :=
  getPullRequestChanges_loop fuel 0 [].

Definition getFileContents (filePath : string) (repoSlug refspec : option string)
  : M string :=
  let path := interpolate repoSlug ++ "/" ++ "raw/" ++ filePath ++ "?at="
                ++ interpolate refspec in
  res <- get path None (Some true) ;;
  if Response.status res =? 404 then mret ""
  else
    lift (throwIfNotOk res) ;;;
    mret (Response.text res).

End Client.

(** * Vocabulary of the statements

    Predicates, reference functions and sample inputs the theorems are
    stated with. *)

(** ** Change records *)

Definition is_type (t : string) (v : GitlabChangesValue.t) : bool :=
  String.eqb (GitlabChangesValue.type v) t.

Definition path_string (v : GitlabChangesValue.t) : string :=
  GitlabPath.toString (GitlabChangesValue.path v).

(** The paths of the records of type [t], in the order of the records. *)
Definition paths_of (t : string) (l : list GitlabChangesValue.t) : list string :=
  map path_string (filter (is_type t) l).

(** The four tags the normalizer dispatches on. *)
Definition known_type (v : GitlabChangesValue.t) : bool :=
  is_type "ADD" v || is_type "MODIFY" v || is_type "MOVE" v || is_type "DELETE" v.

(** A record the normalizer handles: a known tag, and a MOVE carries its
    [srcPath] (the shape the record's declaration gives a MOVE). *)
Definition handled (v : GitlabChangesValue.t) : bool :=
  known_type v &&
  (negb (is_type "MOVE" v) ||
   match GitlabChangesValue.srcPath v with Some _ => true | None => false end).

(** What one record adds to each of the three lists. *)
Definition created_by (v : GitlabChangesValue.t) : list string :=
  if is_type "ADD" v || is_type "MOVE" v then [path_string v] else [].

Definition modified_by (v : GitlabChangesValue.t) : list string :=
  if is_type "MODIFY" v then [path_string v] else [].

Definition deleted_by (v : GitlabChangesValue.t) : list string :=
  if is_type "MOVE" v then
    match GitlabChangesValue.srcPath v with
    | Some q => [GitlabPath.toString q]
    | None => []
    end
  else if is_type "DELETE" v then [path_string v] else [].

(** Additions, modifications and deletions: the records without a source
    path. *)
Definition plain_type (v : GitlabChangesValue.t) : bool :=
  is_type "ADD" v || is_type "MODIFY" v || is_type "DELETE" v.

(** A sequence of an addition, a modification, a deletion and a second
    addition. *)
Definition sample_changes : list GitlabChangesValue.t :=
  [ GitlabChangesValue.mk "ADD" (GitlabPath.mk "a.ts") None;
    GitlabChangesValue.mk "MODIFY" (GitlabPath.mk "b.ts") None;
    GitlabChangesValue.mk "DELETE" (GitlabPath.mk "c.ts") None;
    GitlabChangesValue.mk "ADD" (GitlabPath.mk "d.ts") None ].

(** ** Diffs *)

(** The three segment types of the platform. *)
Definition known_segment (segment : GitlabSegment.t) : bool :=
  String.eqb (GitlabSegment.type segment) "ADDED"
  || String.eqb (GitlabSegment.type segment) "CONTEXT"
  || String.eqb (GitlabSegment.type segment) "REMOVED".

Definition known_hunk (hunk : GitlabHunk.t) : bool :=
  forallb known_segment (GitlabHunk.segments hunk).

Definition known_diff (diff : GitlabDiff.t) : bool :=
  match GitlabDiff.hunks diff with
  | Some hunks => forallb known_hunk hunks
  | None => true
  end.

(** The normalizer as the specification words it: ADDED gives "add", CONTEXT
    gives "normal", REMOVED gives "del"; a segment's lines become entries one
    to one; a hunk's changes are the concatenation of its segments' entries
    in segment order. *)
Definition spec_change_type (segment_type : string) : string :=
  if String.eqb segment_type "ADDED" then "add"
  else if String.eqb segment_type "CONTEXT" then "normal"
  else "del".

Definition spec_line_change (segment_type : string) (line : GitlabLine.t) : Change.t :=
  {| Change.type := Own (spec_change_type segment_type);
     Change.content := GitlabLine.line line;
     Change.sourceLine := GitlabLine.source line;
     Change.destinationLine := GitlabLine.destination line |}.

Definition spec_hunk_changes (hunk : GitlabHunk.t) : list Change.t :=
  List.concat (map (fun segment =>
                 map (spec_line_change (GitlabSegment.type segment))
                     (GitlabSegment.lines segment))
              (GitlabHunk.segments hunk)).

Definition spec_normalizeDiff (diffs : list GitlabDiff.t) : GitStructuredDiff :=
  map (fun diff =>
         {| StructuredDiffEntry.from :=
              option_map GitlabPath.toString (GitlabDiff.source diff);
            StructuredDiffEntry.to :=
              option_map GitlabPath.toString (GitlabDiff.destination diff);
            StructuredDiffEntry.chunks :=
              option_map (map (fun hunk => {| Chunk.changes := spec_hunk_changes hunk |}))
                         (GitlabDiff.hunks diff) |})
      diffs.

(** The example of the specification: one hunk with an ADDED segment followed
    by a REMOVED segment. *)
Definition sample_diff : GitlabDiff.t :=
  {| GitlabDiff.source := Some (GitlabPath.mk "lib/x.ts");
     GitlabDiff.destination := Some (GitlabPath.mk "lib/x.ts");
     GitlabDiff.hunks :=
       Some [ {| GitlabHunk.segments :=
                   [ GitlabSegment.mk "ADDED" [GitlabLine.mk "x" None (Some 5)];
                     GitlabSegment.mk "REMOVED" [GitlabLine.mk "y" (Some 3) None] ] |} ] |}.

(** A segment type that is neither in the lookup table nor the name of a
    member every object inherits. *)
Definition unknown_segment_type (segment_type : string) : bool :=
  negb (String.eqb segment_type "ADDED" || String.eqb segment_type "CONTEXT"
        || String.eqb segment_type "REMOVED")
  && negb (existsb (String.eqb segment_type) Object_prototype).

Definition undefined_change (line : GitlabLine.t) : Change.t :=
  {| Change.type := Undefined;
     Change.content := GitlabLine.line line;
     Change.sourceLine := GitlabLine.source line;
     Change.destinationLine := GitlabLine.destination line |}.

(** A diff with one hunk holding one segment of type "MOVED". *)
Definition moved_diff : GitlabDiff.t :=
  {| GitlabDiff.source := Some (GitlabPath.mk "lib/x.ts");
     GitlabDiff.destination := Some (GitlabPath.mk "lib/x.ts");
     GitlabDiff.hunks :=
       Some [ {| GitlabHunk.segments :=
                   [ GitlabSegment.mk "MOVED" [GitlabLine.mk "x" (Some 1) (Some 2)] ] |} ] |}.

(** ** Commits and dates *)

(** The part of [civil_from_days] that depends only on the day within the
    400-year era. *)
Definition civil_of_era_day (doe : Z) : Z * Z * Z :=
  let yoe := (doe - doe / 1460 + doe / 36524 - doe / 146096) / 365 in
  let doy := doe - (365 * yoe + yoe / 4 - yoe / 100) in
  let mp := (5 * doy + 2) / 153 in
  let d := doy - (153 * mp + 2) / 5 + 1 in
  let m := if mp <? 10 then mp + 3 else mp - 9 in
  (if m <=? 2 then yoe + 1 else yoe, m, d).

Definition leap_day (y : Z) : Z := if InLeapYear y then 1 else 0.

(** The date-time string format of the language specification (ISO 8601
    extended format, in UTC), read independently of [iso_string]:
    [YYYY-MM-DDTHH:mm:ss.sssZ], the year being four digits or a sign and six
    digits, and [-000000] not a year. The time value of a string is
    [MakeDate(MakeDay(year, month, day), MakeTime(hour, minute, second, ms))],
    with the day number computed from [DayFromYear] and the lengths of the
    months. *)
Definition digit_value (c : ascii) : option Z :=
  let n := nat_of_ascii c in
  if ((48 <=? n) && (n <=? 57))%nat then Some (Z.of_nat n - 48) else None.

(** Exactly [width] decimal digits, most significant first. *)
Fixpoint read_digits (width : nat) (acc : Z) (s : string) : option (Z * string) :=
  match width with
  | O => Some (acc, s)
  | S w =>
      match s with
      | String c rest =>
          match digit_value c with
          | Some v => read_digits w (10 * acc + v) rest
          | None => None
          end
      | EmptyString => None
      end
  end.

Definition expect (c : ascii) (s : string) : option string :=
  match s with
  | String c' rest => if Ascii.eqb c' c then Some rest else None
  | EmptyString => None
  end.

Definition read_year (s : string) : option (Z * string) :=
  match s with
  | String c rest =>
      if Ascii.eqb c "+" then read_digits 6 0 rest
      else if Ascii.eqb c "-" then
        match read_digits 6 0 rest with
        | Some (v, rest') => if v =? 0 then None else Some (- v, rest')
        | None => None
        end
      else read_digits 4 0 s
  | EmptyString => None
  end.

Definition and_read {A B : Type} (m : option A) (k : A -> option B) : option B :=
  match m with
  | Some a => k a
  | None => None
  end.

(** The epoch milliseconds a date-time string denotes; [None] when the string
    is not of the format or names no date. *)
Definition parse_iso8601 (s : string) : option Z :=
  and_read (read_year s) (fun '(year, s) =>
  and_read (expect "-" s) (fun s =>
  and_read (read_digits 2 0 s) (fun '(month, s) =>
  and_read (expect "-" s) (fun s =>
  and_read (read_digits 2 0 s) (fun '(day, s) =>
  and_read (expect "T" s) (fun s =>
  and_read (read_digits 2 0 s) (fun '(hour, s) =>
  and_read (expect ":" s) (fun s =>
  and_read (read_digits 2 0 s) (fun '(minute, s) =>
  and_read (expect ":" s) (fun s =>
  and_read (read_digits 2 0 s) (fun '(second, s) =>
  and_read (expect "." s) (fun s =>
  and_read (read_digits 3 0 s) (fun '(millisecond, s) =>
  and_read (expect "Z" s) (fun s =>
  match s with
  | EmptyString =>
      if (1 <=? month) && (month <=? 12) && (1 <=? day)
         && (day <=? DaysInMonth year month)
         && (hour <=? 23) && (minute <=? 59) && (second <=? 59)
      then Some (days_from_civil (year, month, day) * msPerDay
                 + hour * 3600000 + minute * 60000 + second * 1000 + millisecond)
      else None
  | String _ _ => None
  end)))))))))))))).

(** The example of the specification: timestamp 1700000000000 and no
    committer. *)
Definition sample_commit : GitlabCommit.t :=
  {| GitlabCommit.id := "9fceb02";
     GitlabCommit.parents := [GitlabParent.mk "1a2b3c4"];
     GitlabCommit.author := GitlabUser.mk "Ada" "ada@example.org";
     GitlabCommit.authorTimestamp := 1700000000000;
     GitlabCommit.committer := None;
     GitlabCommit.committerTimestamp := None;
     GitlabCommit.message := "Fix the parser" |}.

(** ** The API client *)

Section ClientVocabulary.
Context `{P : Platform}.

(** The request [get] builds for [path] on the instance [this]. *)
Definition get_request (this : GitlabAPI) (path : string) : Request.t :=
  {| Request.url := GitlabRepoCredentials.host (repoCredentials this) ++ "/" ++ path;
     Request.method := "GET";
     Request.body := None;
     Request.headers :=
       spread [("Content-Type", "application/json")]
              (authorize (repoCredentials this) []);
     Request.agent :=
       if truthy (or_else env_http_proxy env_https_proxy)
       then or_else env_http_proxy env_https_proxy else None |}.

(** The line [get] writes to the debug channel for [path]. *)
Definition get_line (this : GitlabAPI) (path : string) : string :=
  "GET " ++ GitlabRepoCredentials.host (repoCredentials this) ++ "/" ++ path.

(** The instance after one request: the line is logged, the network has
    moved to [w]; the fields of the instance are untouched. *)
Definition after_request (this : GitlabAPI) (line : string) (w : World) : GitlabAPI :=
  {| repoMetadata := repoMetadata this;
     repoCredentials := repoCredentials this;
     pr := pr this;
     debug_log := debug_log this ++ [line];
     world := w |}.

(** The instance after [this.pr = prDSL]. *)
Definition with_pr (this : GitlabAPI) (prDSL : GitlabPRDSL) : GitlabAPI :=
  {| repoMetadata := repoMetadata this;
     repoCredentials := repoCredentials this;
     pr := Some prDSL;
     debug_log := debug_log this;
     world := world this |}.

(** The number of requests the instance has issued: [api] writes one line to
    the debug channel per call of [fetch]. *)
Definition requests (this : GitlabAPI) : nat := List.length (debug_log this).

(** [n] calls of a method in sequence, each awaited before the next. *)
Fixpoint calls {A : Type} (n : nat) (m : M A) (this : GitlabAPI)
  : list (outcome A) * GitlabAPI :=
  match n with
  | O => ([], this)
  | S k =>
      let '(o, this1) := m this in
      let '(os, this2) := calls k m this1 in
      (o :: os, this2)
  end.

(** The path of the page of changes at [cursor]. *)
Definition changes_path (this : GitlabAPI) (cursor : Z) : string :=
  getPRBasePath this ++ "/changes?start=" ++ string_of_Z cursor.

(** The path [getFileContents] requests. *)
Definition file_path (filePath : string) (repoSlug refspec : option string) : string :=
  interpolate repoSlug ++ "/" ++ "raw/" ++ filePath ++ "?at=" ++ interpolate refspec.

(** [pages_served cursor pages this this']: from the instance [this], the
    requests for the page at [cursor] and then at each page's
    [nextPageStart] are answered successfully with [pages], the last of which
    (and only the last) has a null [nextPageStart]; [this'] is the instance
    after these requests. *)
Inductive pages_served : Z -> list GitlabChanges.t -> GitlabAPI -> GitlabAPI -> Prop :=
| served_last (cursor : Z) (page : GitlabChanges.t) (this : GitlabAPI)
    (res : Response.t JSON) (j : JSON) (w : World) :
    fetch (get_request this (changes_path this cursor)) None (world this) = (inr res, w) ->
    Response.ok res = true ->
    Response.json res = inr j ->
    asGitlabChanges j = page ->
    GitlabChanges.nextPageStart page = None ->
    pages_served cursor [page] this
                 (after_request this (get_line this (changes_path this cursor)) w)
| served_next (cursor next : Z) (page : GitlabChanges.t) (pages : list GitlabChanges.t)
    (this this' : GitlabAPI) (res : Response.t JSON) (j : JSON) (w : World) :
    fetch (get_request this (changes_path this cursor)) None (world this) = (inr res, w) ->
    Response.ok res = true ->
    Response.json res = inr j ->
    asGitlabChanges j = page ->
    GitlabChanges.nextPageStart page = Some next ->
    pages_served next pages
                 (after_request this (get_line this (changes_path this cursor)) w) this' ->
    pages_served cursor (page :: pages) this this'.

(** The cursors requested for a sequence of pages, from [cursor]. *)
Fixpoint cursors (cursor : Z) (pages : list GitlabChanges.t) : list Z :=
  match pages with
  | [] => []
  | page :: rest =>
      cursor ::
      match GitlabChanges.nextPageStart page with
      | Some next => cursors next rest
      | None => []
      end
  end.

End ClientVocabulary.

(** ** A scripted platform, for concrete runs *)

(** Deserialized bodies of the scripted platform: a PR (its title) or a page
    of changes. *)
Inductive ScriptedJSON : Type :=
| JPR (title : string)
| JChanges (page : GitlabChanges.t).

(** The network is a script of responses, served one per request; [fetch]
    rejects when the script is exhausted. *)
Definition scripted : Platform :=
  {| World := list (result (Response.t ScriptedJSON));
     JSON := ScriptedJSON;
     GitlabPRDSL := string;
     asGitlabPRDSL := fun j => match j with JPR title => title | JChanges _ => "" end;
     asGitlabChanges :=
       fun j => match j with
                | JChanges page => page
                | JPR _ => GitlabChanges.mk [] None
                end;
     fetch := fun _ _ w =>
                match w with
                | r :: rest => (r, rest)
                | [] => (inl (Error "request failed"), [])
                end;
     base64 := fun s => s;
     env_http_proxy := None;
     env_https_proxy := None |}.

Definition scripted_client (script : list (result (Response.t ScriptedJSON)))
  : @GitlabAPI scripted :=
  @mkGitlabAPI scripted
    (RepoMetaData.mk "group%2Fproject" "7")
    (GitlabRepoCredentials.mk "https://gitlab.example/api/v4" None None (Some "s3cr3t"))
    None [] script.

Definition change_a : GitlabChangesValue.t :=
  GitlabChangesValue.mk "ADD" (GitlabPath.mk "a.ts") None.
Definition change_b : GitlabChangesValue.t :=
  GitlabChangesValue.mk "MODIFY" (GitlabPath.mk "b.ts") None.
Definition change_c : GitlabChangesValue.t :=
  GitlabChangesValue.mk "DELETE" (GitlabPath.mk "c.ts") None.

Definition json_response (j : ScriptedJSON) : result (Response.t ScriptedJSON) :=
  inr (Response.mk 200 "OK" "" (inr j)).

Definition text_response (status : Z) (statusText text : string)
  : result (Response.t ScriptedJSON) :=
  inr (Response.mk status statusText text
         (inl (Error "invalid json response body"))).

(** The two pages of the specification's example. *)
Definition two_pages : list GitlabChanges.t :=
  [ GitlabChanges.mk [change_a; change_b] (Some 1);
    GitlabChanges.mk [change_c] None ].

(** The client facing the two pages of the specification's example. *)
Definition paging_client : @GitlabAPI scripted :=
  scripted_client (map (fun page => json_response (JChanges page)) two_pages).

Definition changes_line (cursor : string) : string :=
  "GET https://gitlab.example/api/v4//projects/group%2Fproject/merge_requests/7/changes?start="
    ++ cursor.

Definition paging_client_after_first : @GitlabAPI scripted :=
  @after_request scripted paging_client (changes_line "0")
    [json_response (JChanges (GitlabChanges.mk [change_c] None))].

Definition paging_client_done : @GitlabAPI scripted :=
  @after_request scripted paging_client_after_first (changes_line "1") [].

(** The client facing a failure followed by the PR. *)
Definition flaky_client : @GitlabAPI scripted :=
  scripted_client
    [ text_response 503 "Service Unavailable" ""; json_response (JPR "Add Gitlab") ].

Definition pr_line : string :=
  "GET https://gitlab.example/api/v4//projects/group%2Fproject/merge_requests/7".

(** The client facing the PR at once. *)
Definition pr_client : @GitlabAPI scripted :=
  scripted_client [ json_response (JPR "Add Gitlab") ].

Definition pr_client_fetched : @GitlabAPI scripted :=
  @with_pr scripted (@after_request scripted pr_client pr_line []) "Add Gitlab".

Definition file_client (status : Z) (statusText text : string) : @GitlabAPI scripted :=
  scripted_client [ text_response status statusText text ].

Definition file_line : string :=
  "GET https://gitlab.example/api/v4/group%2Fproject/raw/README.md?at=master".

(** * The rest of the platform layer *)

(** ** Credentials from the environment (GitlabAPI.ts) *)

(** [bitbucketServerRepoCredentialsFromEnv]; the environment is an object of
    strings. *)
Definition bitbucketServerRepoCredentialsFromEnv (env : object)
  : result GitlabRepoCredentials.t :=
  match own_property env "DANGER_GITLAB_HOST" with
  | Some host =>
      if String.eqb host "" then throw (Error "DANGER_GITLAB_HOST is not set")
      else
        ret {| GitlabRepoCredentials.host := host;
               GitlabRepoCredentials.username :=
                 own_property env "DANGER_GITLAB_USERNAME";
               GitlabRepoCredentials.password :=
                 own_property env "DANGER_GITLAB_PASSWORD";
               GitlabRepoCredentials.token := own_property env "DANGER_GITLAB_TOKEN" |}
  | None => throw (Error "DANGER_GITLAB_HOST is not set")
  end.

(** ** Vocabulary: the normalizers *)

(** A record that adds its path to [created_files]. *)
Definition creates (v : GitlabChangesValue.t) : bool :=
  is_type "ADD" v || is_type "MOVE" v.

(** The number of MOVE records. *)
Definition moves (l : list GitlabChangesValue.t) : nat :=
  List.length (filter (is_type "MOVE") l).

(** A MOVE record and a record of a type the normalizer does not know. *)
Definition sample_move : GitlabChangesValue.t :=
  GitlabChangesValue.mk "MOVE" (GitlabPath.mk "new.ts") (Some (GitlabPath.mk "old.ts")).

Definition sample_move_without_source : GitlabChangesValue.t :=
  GitlabChangesValue.mk "MOVE" (GitlabPath.mk "new.ts") None.

(** What a line carries through normalization: its text and its two line
    numbers. *)
Definition line_payload (line : GitlabLine.t) : string * option Z * option Z :=
  (GitlabLine.line line, GitlabLine.source line, GitlabLine.destination line).

Definition change_payload (change : Change.t) : string * option Z * option Z :=
  (Change.content change, Change.sourceLine change, Change.destinationLine change).

(** The payloads of the lines of a diff, hunk by hunk ([None]: no hunks). *)
Definition diff_payloads (diff : GitlabDiff.t)
  : option (list (list (string * option Z * option Z))) :=
  option_map
    (map (fun hunk =>
            map line_payload (flat_map GitlabSegment.lines (GitlabHunk.segments hunk))))
    (GitlabDiff.hunks diff).

(** The payloads of the changes of an output entry, chunk by chunk. *)
Definition entry_payloads (entry : StructuredDiffEntry.t)
  : option (list (list (string * option Z * option Z))) :=
  option_map (map (fun chunk => map change_payload (Chunk.changes chunk)))
             (StructuredDiffEntry.chunks entry).

(** A commit with a committer of its own. *)
Definition sample_commit_with_committer : GitlabCommit.t :=
  {| GitlabCommit.id := "9fceb02";
     GitlabCommit.parents := [GitlabParent.mk "1a2b3c4"; GitlabParent.mk "5d6e7f8"];
     GitlabCommit.author := GitlabUser.mk "Ada" "ada@example.org";
     GitlabCommit.authorTimestamp := 1700000000000;
     GitlabCommit.committer := Some (GitlabUser.mk "Grace" "grace@example.org");
     GitlabCommit.committerTimestamp := Some 0;
     GitlabCommit.message := "Fix the parser" |}.

(** A commit with a committer and no committer timestamp. *)
Definition sample_commit_without_committer_time : GitlabCommit.t :=
  {| GitlabCommit.id := "9fceb02";
     GitlabCommit.parents := [];
     GitlabCommit.author := GitlabUser.mk "Ada" "ada@example.org";
     GitlabCommit.authorTimestamp := 1700000000000;
     GitlabCommit.committer := Some (GitlabUser.mk "Grace" "grace@example.org");
     GitlabCommit.committerTimestamp := None;
     GitlabCommit.message := "" |}.

(** The timestamps the normalizer reads are time values of the runtime. *)
Definition valid_timestamps (bbsCommit : GitlabCommit.t) : bool :=
  valid_time (GitlabCommit.authorTimestamp bbsCommit) &&
  match GitlabCommit.committer bbsCommit with
  | Some _ =>
      match GitlabCommit.committerTimestamp bbsCommit with
      | Some ms => valid_time ms
      | None => false
      end
  | None => true
  end.

(** ** The CI source (ci_source/providers/Gitlab.ts) *)

(** The helpers of the CI source that live outside this code:
    [ensureEnvKeysExist] (ci_source_helpers) and the runtime's test
    [Number(s) > 0] on a string. *)
Class CIHelpers : Type := {
  ensureEnvKeysExist : object -> list string -> bool;
  Number_is_positive : string -> bool
}.

Module GitlabActions.
Section Getters.
Context `{H : CIHelpers}.
Variable env : object.

Definition name : string := "Gitlab".

Definition isCI : bool := ensureEnvKeysExist env ["GITLAB_CI"].

(** The merge request looked up for the commit is, in this version, the
    constant [{ iid: "1" }]. *)
Definition pullRequestID : string :=
  if truthy (own_property env "CI_MERGE_REQUEST_ID") then
    interpolate (own_property env "CI_MERGE_REQUEST_ID")
  else if negb (truthy (own_property env "CI_COMMIT_SHA")) then "0"
  else
    let mergeRequest_iid : option string := Some "1" in
    match mergeRequest_iid with
    | None => "0"
    | Some iid => iid
    end.

Definition isPR : bool :=
  let mustHave := ["GITLAB_CI"; "CI_PROJECT_PATH"] in
  ensureEnvKeysExist env mustHave && Number_is_positive pullRequestID.

Definition repoSlug : option string := own_property env "CI_PROJECT_PATH".

Definition repoURL : option string := own_property env "CI_PROJECT_URL".

End Getters.
End GitlabActions.

(** ** More of the platform's records (GitlabDSL) *)

(** The declarations (dsl/GitlabDSL, platform) are not among the sources;
    each record has the fields the client reads or writes. *)
Module GitlabPRComment.
Record t : Type := mk {
  id : Z;
  version : Z;
  text : string;
  author : GitlabUser.t
}.
End GitlabPRComment.

Module GitlabAnchor.
Record t : Type := mk {
  line : Z;
  lineType : string;
  fileType : string;
  path : string
}.
End GitlabAnchor.

Module GitlabPRActivity.
Record t : Type := mk {
  comment : option GitlabPRComment.t;
  commentAnchor : option GitlabAnchor.t
}.
End GitlabPRActivity.

(** A comment as the platform-independent layer sees it. *)
Module Comment.
Record t : Type := mk {
  id : Z;
  ownedByDanger : bool;
  body : string
}.
End Comment.

(** The object literals the client serializes as request bodies. *)
Inductive RequestBody : Type :=
| EmptyBody
| TextBody (text : string)
| InlineBody (text : string) (line : Z) (lineType : property) (fileType path : string)
| UpdateBody (text : string) (version : Z)
| BuildStatusBody (state key name url description : string).

(** The table of [postInlinePRComment], from the change types of the
    structured diff back to the platform's segment types. *)
Definition lineTypes : list (string * string) :=
  [ ("add", "ADDED"); ("normal", "CONTEXT"); ("del", "REMOVED") ].

(** [includes(subject, search)] of voca, and [subject.includes(search)]:
    [search] occurs in [subject]. *)
Fixpoint includes (subject search : string) : bool :=
  if String.prefix search subject then true
  else
    match subject with
    | EmptyString => false
    | String _ rest => includes rest search
    end.

(** [name === username] for a possibly undefined [username]. *)
Definition is_username (username : option string) (name : string) : bool :=
  match username with
  | Some u => String.eqb name u
  | None => false
  end.

(** [Array.prototype.map] with a callback that may throw. *)
Fixpoint mapM {A B : Type} (f : A -> result B) (l : list A) : result (list B) :=
  match l with
  | [] => ret []
  | x :: xs => y <-- f x ;; ys <-- mapM f xs ;; ret (y :: ys)
  end.

(** [activities.map(activity => activity.comment).filter(Boolean)]. *)
Fixpoint comments_of (activities : list GitlabPRActivity.t) : list GitlabPRComment.t :=
  match activities with
  | [] => []
  | activity :: rest =>
      match GitlabPRActivity.comment activity with
      | Some c => c :: comments_of rest
      | None => comments_of rest
      end
  end.

(** The further collaborators of the client: the unchecked reads of the
    deserialized bodies ([.values], [.diffs]), [JSON.stringify] on the bodies
    the client sends, and the comment template (runner/templates). *)
Class Collaborators `{P : Platform} : Type := {
  values_as_commits : JSON -> list GitlabCommit.t;
  values_as_activities : JSON -> list GitlabPRActivity.t;
  diffs_of : JSON -> list GitlabDiff.t;
  JSON_stringify : RequestBody -> string;
  dangerIDToString : string -> string;
  dangerSignaturePostfix : string
}.

(** A promise settled with a deserialized body: resolved, or rejected with
    the body itself ([throw await res.json()]). *)
Inductive settled (J : Type) : Type :=
| Resolved (value : J)
| RejectedWith (value : J).
Arguments Resolved {J} _.
Arguments RejectedWith {J} _.

Section MoreOfTheClient.
Context `{P : Platform} `{C : @Collaborators P}.

Local Notation "x <- m ;; k" := (mbind m (fun x => k))
  (at level 61, m at next level, right associativity).
Local Notation "m ;;; k" := (mbind m (fun _ => k))
  (at level 61, right associativity).

Definition post (path : string) (headers : option object) (body : RequestBody)
  (suppressErrors : option bool) : M (Response.t JSON) :=
  api path headers (Some (JSON_stringify body)) "POST" suppressErrors.

Definition put (path : string) (headers : option object) (body : RequestBody)
  : M (Response.t JSON) :=
  api path headers (Some (JSON_stringify body)) "PUT" None.

Definition delete (path : string) (headers : option object) (body : RequestBody)
  : M (Response.t JSON) :=
  api path headers (Some (JSON_stringify body)) "DELETE" None.

Definition getPullRequestCommits : M (list GitlabCommit.t) :=
  fun this =>
    (let path := getPRBasePath this ++ "/commits" in
     res <- get path None None ;;
     lift (throwIfNotOk res) ;;;
     j <- lift (Response.json res) ;;
     mret (values_as_commits j)) this.

Definition getStructuredDiffForFile (base head filename : string)
  : M (list GitlabDiff.t) :=
  fun this =>
    (let path := "rest/api/1.0/" ++ RepoMetaData.repoSlug (repoMetadata this)
                   ++ "/compare/diff/" ++ filename ++ "?withComments=false&from="
                   ++ base ++ "&to=" ++ head in
     res <- get path None None ;;
     lift (throwIfNotOk res) ;;;
     j <- lift (Response.json res) ;;
     mret (diffs_of j)) this.

Definition getPullRequestComments : M (list GitlabPRActivity.t) :=
  fun this =>
    (let path := getPRBasePath this ++ "/activities?fromType=COMMENT" in
     res <- get path None None ;;
     lift (throwIfNotOk res) ;;;
     j <- lift (Response.json res) ;;
     mret (values_as_activities j)) this.

Definition getPullRequestActivities : M (list GitlabPRActivity.t) :=
  fun this =>
    (let path := getPRBasePath this ++ "/activities?fromType=ACTIVITY" in
     res <- get path None None ;;
     lift (throwIfNotOk res) ;;;
     j <- lift (Response.json res) ;;
     mret (values_as_activities j)) this.

(** [getPRBasePath] takes no parameter: the argument ["jira"] is dropped. *)
Definition getIssues : M JSON :=
  fun this =>
    (let path := getPRBasePath this ++ "/issues" in
     res <- get path None None ;;
     lift (throwIfNotOk res) ;;;
     lift (Response.json res)) this.

Definition getDangerComments (dangerID : string) : M (list GitlabPRComment.t) :=
  fun this =>
    (let username := GitlabRepoCredentials.username (repoCredentials this) in
     activities <- getPullRequestComments ;;
     let dangerIDMessage := dangerIDToString dangerID in
     let comments := comments_of activities in
     mret
       (filter (fun comment => includes (GitlabPRComment.text comment) dangerSignaturePostfix)
          (filter (fun comment =>
                     truthy username
                     || is_username username
                          (GitlabUser.name (GitlabPRComment.author comment)))
             (filter (fun comment => includes (GitlabPRComment.text comment) dangerIDMessage)
                comments)))) this.

Definition getDangerInlineComments (dangerID : string) : M (list Comment.t) :=
  fun this =>
    (let username := GitlabRepoCredentials.username (repoCredentials this) in
     activities <- getPullRequestComments ;;
     let dangerIDMessage := dangerIDToString dangerID in
     let comments :=
       comments_of
         (filter (fun activity =>
                    match GitlabPRActivity.commentAnchor activity with
                    | Some _ => true
                    | None => false
                    end)
                 activities) in
     mret
       (filter Comment.ownedByDanger
          (map (fun i =>
                  {| Comment.id := GitlabPRComment.id i;
                     Comment.ownedByDanger :=
                       is_username username (GitlabUser.name (GitlabPRComment.author i))
                       && includes (GitlabPRComment.text i) dangerIDMessage;
                     Comment.body := GitlabPRComment.text i |})
               comments))) this.

(** The result is the deserialized body, or [undefined] ([None]) on a 204.
    *)
Definition postBuildStatus (commitId : string)
  (state key name url description : string) : M (option JSON) :=
  res <- post ("rest/build-status/1.0/commits/" ++ commitId) (Some [])
              (BuildStatusBody state key name url description) None ;;
  lift (throwIfNotOk res) ;;;
  if negb (Response.status res =? 204) then
    j <- lift (Response.json res) ;;
    mret (Some j)
  else mret None.

Definition postPRComment (comment : string) : M JSON :=
  fun this =>
    (let path := getPRBasePath this ++ "/comments" in
     res <- post path (Some []) (TextBody comment) None ;;
     lift (Response.json res)) this.

Definition postInlinePRComment (comment : string) (line : Z) (type filePath : string)
  : M (settled JSON) :=
  fun this =>
    (let path := getPRBasePath this ++ "/comments" in
     let t := get_property lineTypes type in
     res <- post path (Some []) (InlineBody comment line t "TO" filePath) None ;;
     if Response.ok res then
       j <- lift (Response.json res) ;;
       mret (Resolved j)
     else
       j <- lift (Response.json res) ;;
       mret (RejectedWith j)) this.

Definition deleteComment (c : GitlabPRComment.t) : M unit :=
  fun this =>
    (let path := getPRBasePath this ++ "/comments/" ++ string_of_Z (GitlabPRComment.id c)
                   ++ "?version=" ++ string_of_Z (GitlabPRComment.version c) in
     res <- delete path None EmptyBody ;;
     if negb (Response.ok res) then
       lift (throw (Error ("Failed to delete comment "
                             ++ String (ascii_of_nat 34)
                                       (string_of_Z (GitlabPRComment.id c)))))
     else mret tt) this.

Definition updateComment (c : GitlabPRComment.t) (comment : string)
  : M (settled JSON) :=
  fun this =>
    (let path := getPRBasePath this ++ "/comments/" ++ string_of_Z (GitlabPRComment.id c) in
     res <- put path (Some []) (UpdateBody comment (GitlabPRComment.version c)) ;;
     if Response.ok res then
       j <- lift (Response.json res) ;;
       mret (Resolved j)
     else
       j <- lift (Response.json res) ;;
       mret (RejectedWith j)) this.

(** ** The DSL assembler (GitlabGit.ts) *)

Definition gitDSLForGitlab (fuel : nat) : M GitJSONDSL.t :=
  changes <- getPullRequestChanges fuel ;;
  gitCommits <- getPullRequestCommits ;;
  fun api =>
    (commits <-
       lift (mapM (fun commit =>
                     bitBucketServerCommitToGitCommit commit (repoMetadata api)
                       (GitlabRepoCredentials.host (repoCredentials api)))
                  gitCommits) ;;
     lift (bitBucketServerChangesToGitJSONDSL changes commits)) api.

(** The [getStructuredDiffForFile] of the configuration built by
    [bitBucketServerGitDSL]. *)
Definition config_getStructuredDiffForFile (base head filename : string)
  : M GitStructuredDiff :=
  diff <- getStructuredDiffForFile base head filename ;;
  mret (bitBucketServerDiffToGitStructuredDiff diff).

End MoreOfTheClient.

(** ** Vocabulary: the rest of the client *)

Section MoreClientVocabulary.
Context `{P : Platform}.

(** The request [api] hands to [fetch]. *)
Definition api_request (this : GitlabAPI) (path : string) (headers : option object)
  (body : option string) (method : string) : Request.t :=
  {| Request.url := GitlabRepoCredentials.host (repoCredentials this) ++ "/" ++ path;
     Request.method := method;
     Request.body := body;
     Request.headers :=
       spread [("Content-Type", "application/json")]
              (authorize (repoCredentials this)
                         (match headers with Some h => h | None => [] end));
     Request.agent :=
       if truthy (or_else env_http_proxy env_https_proxy)
       then or_else env_http_proxy env_https_proxy else None |}.

(** The line [api] writes to the debug channel. *)
Definition api_line (this : GitlabAPI) (method path : string) : string :=
  method ++ " " ++ GitlabRepoCredentials.host (repoCredentials this) ++ "/" ++ path.

(** The HTTP error [throwIfNotOk] raises for a response. *)
Definition http_error {J : Type} (res : Response.t J) : exn :=
  Error
    ((string_of_Z (Response.status res) ++ " - " ++ Response.statusText res)
       ++ (if (400 <=? Response.status res) && (Response.status res <? 500)
           then " (Have you set DANGER_GITLAB_USERNAME and DANGER_GITLAB_PASSWORD or DANGER_GITLAB_TOKEN?)"
           else "")).

(** [pages_in_progress cursor pages this next this']: from the instance
    [this], the requests for the page at [cursor] and at each following
    cursor are answered successfully with [pages], every one of which names a
    next cursor; [next] is the cursor the last page names and [this'] the
    instance after these requests. *)
Inductive pages_in_progress
  : Z -> list GitlabChanges.t -> GitlabAPI -> Z -> GitlabAPI -> Prop :=
| progress_none (cursor : Z) (this : GitlabAPI) :
    pages_in_progress cursor [] this cursor this
| progress_next (cursor next last : Z) (page : GitlabChanges.t)
    (pages : list GitlabChanges.t) (this this' : GitlabAPI)
    (res : Response.t JSON) (j : JSON) (w : World) :
    fetch (get_request this (changes_path this cursor)) None (world this) = (inr res, w) ->
    Response.ok res = true ->
    Response.json res = inr j ->
    asGitlabChanges j = page ->
    GitlabChanges.nextPageStart page = Some next ->
    pages_in_progress next pages
      (after_request this (get_line this (changes_path this cursor)) w) last this' ->
    pages_in_progress cursor (page :: pages) this last this'.

(** A platform on which every page of changes names a next cursor. *)
Definition endless_pages : Prop :=
  forall (this : GitlabAPI) (cursor : Z),
  exists (res : Response.t JSON) (j : JSON) (w : World) (next : Z),
    fetch (get_request this (changes_path this cursor)) None (world this) = (inr res, w) /\
    Response.ok res = true /\
    Response.json res = inr j /\
    GitlabChanges.nextPageStart (asGitlabChanges j) = Some next.

End MoreClientVocabulary.

(** The comments of the activities anchored to a line of a file. *)
Definition anchored_comments (activities : list GitlabPRActivity.t)
  : list GitlabPRComment.t :=
  comments_of
    (filter (fun activity =>
               match GitlabPRActivity.commentAnchor activity with
               | Some _ => true
               | None => false
               end)
            activities).

(** ** A second scripted platform, recording the requests it receives *)

Inductive ScriptedBody : Type :=
| BChanges (page : GitlabChanges.t)
| BCommits (commits : list GitlabCommit.t)
| BActivities (activities : list GitlabPRActivity.t)
| BDiffs (diffs : list GitlabDiff.t)
| BOther (text : string).

(** The network: the responses still to serve and the requests received. *)
Definition recording : Platform :=
  {| World := (list (result (Response.t ScriptedBody)) * list Request.t)%type;
     JSON := ScriptedBody;
     GitlabPRDSL := string;
     asGitlabPRDSL := fun j => match j with BOther title => title | _ => "" end;
     asGitlabChanges :=
       fun j => match j with
                | BChanges page => page
                | _ => GitlabChanges.mk [] None
                end;
     fetch := fun req _ w =>
                match fst w with
                | r :: rest => (r, (rest, (snd w ++ [req])%list))
                | [] => (inl (Error "request failed"), ([], (snd w ++ [req])%list))
                end;
     base64 := fun s => "base64(" ++ s ++ ")";
     env_http_proxy := None;
     env_https_proxy := Some "http://proxy.example:3128" |}.

Definition recording_collaborators : @Collaborators recording :=
  @Build_Collaborators recording
    (fun j : ScriptedBody => match j with BCommits l => l | _ => [] end)
    (fun j : ScriptedBody => match j with BActivities l => l | _ => [] end)
    (fun j : ScriptedBody => match j with BDiffs l => l | _ => [] end)
    (fun body =>
       match body with
       | EmptyBody => "{}"
       | TextBody text => "{text:" ++ text ++ "}"
       | InlineBody text _ _ _ path => "{text:" ++ text ++ ",path:" ++ path ++ "}"
       | UpdateBody text _ => "{text:" ++ text ++ "}"
       | BuildStatusBody state _ _ _ _ => "{state:" ++ state ++ "}"
       end)
    (fun id => "DangerID: danger-id-" ++ id ++ ";")
    "Generated by Danger".

Definition recording_client (credentials : GitlabRepoCredentials.t)
  (script : list (result (Response.t ScriptedBody))) : @GitlabAPI recording :=
  @mkGitlabAPI recording (RepoMetaData.mk "group%2Fproject" "7") credentials
    None [] (script, []).

Definition token_credentials : GitlabRepoCredentials.t :=
  GitlabRepoCredentials.mk "https://gitlab.example/api/v4"
    (Some "danger") (Some "hunter2") (Some "s3cr3t").

Definition password_credentials : GitlabRepoCredentials.t :=
  GitlabRepoCredentials.mk "https://gitlab.example/api/v4"
    None (Some "hunter2") None.

Definition no_credentials : GitlabRepoCredentials.t :=
  GitlabRepoCredentials.mk "https://gitlab.example/api/v4" None None None.

Definition body_response (status : Z) (statusText : string) (j : ScriptedBody)
  : result (Response.t ScriptedBody) :=
  inr (Response.mk status statusText "" (inr j)).

(** A platform whose every answer is a page of changes naming cursor 0
    next. *)
Definition endless : Platform :=
  {| World := unit;
     JSON := GitlabChanges.t;
     GitlabPRDSL := string;
     asGitlabPRDSL := fun _ => "";
     asGitlabChanges := fun j => j;
     fetch := fun _ _ w =>
                (inr (Response.mk 200 "OK" ""
                        (inr (GitlabChanges.mk [change_a] (Some 0)))), w);
     base64 := fun s => s;
     env_http_proxy := Some "http://proxy.example:8080";
     env_https_proxy := Some "http://proxy.example:3128" |}.

(** Comments: two by danger (one of them anchored to a line), one by another
    user carrying danger's marks, one unrelated. *)
Definition danger_text : string :=
  "Warnings DangerID: danger-id-default; Generated by Danger".

Definition comment_by (id : Z) (author text : string) : GitlabPRComment.t :=
  GitlabPRComment.mk id 1 text (GitlabUser.mk author (author ++ "@example.org")).

Definition sample_activities : list GitlabPRActivity.t :=
  [ GitlabPRActivity.mk (Some (comment_by 1 "danger" danger_text)) None;
    GitlabPRActivity.mk None None;
    GitlabPRActivity.mk (Some (comment_by 2 "mallory" danger_text))
                        (Some (GitlabAnchor.mk 3 "ADDED" "TO" "a.ts"));
    GitlabPRActivity.mk (Some (comment_by 3 "danger" "Looks good to me")) None;
    GitlabPRActivity.mk (Some (comment_by 4 "danger" danger_text))
                        (Some (GitlabAnchor.mk 5 "ADDED" "TO" "a.ts")) ].

(** A CI helper set for concrete runs: a key exists when it is set to a
    non-empty string; a string is a positive number when it is made of
    decimal digits, one of them not zero. *)
Definition is_digit (a : ascii) : bool :=
  (48 <=? nat_of_ascii a)%nat && (nat_of_ascii a <=? 57)%nat.

Fixpoint all_digits (s : string) : bool :=
  match s with
  | EmptyString => true
  | String a rest => is_digit a && all_digits rest
  end.

Fixpoint some_nonzero (s : string) : bool :=
  match s with
  | EmptyString => false
  | String a rest => negb (Ascii.eqb a "0"%char) || some_nonzero rest
  end.

Definition sample_helpers : CIHelpers :=
  {| ensureEnvKeysExist :=
       fun env keys => forallb (fun key => truthy (own_property env key)) keys;
     Number_is_positive := fun s => all_digits s && some_nonzero s |}.

(** The client facing one page of changes and then a failure. *)
Definition failing_paging_client : @GitlabAPI scripted :=
  scripted_client
    [ json_response (JChanges (GitlabChanges.mk [change_a; change_b] (Some 1)));
      text_response 500 "Internal Server Error" "" ].

Definition failing_paging_client_after_first : @GitlabAPI scripted :=
  @after_request scripted failing_paging_client (changes_line "0")
    [ text_response 500 "Internal Server Error" "" ].

Definition endless_client : @GitlabAPI endless :=
  @mkGitlabAPI endless (RepoMetaData.mk "group%2Fproject" "7") no_credentials None [] tt.

(** Clients of the recording platform facing the sample activities. *)
Definition comments_client (credentials : GitlabRepoCredentials.t)
  : @GitlabAPI recording :=
  recording_client credentials [ body_response 200 "OK" (BActivities sample_activities) ].

Definition comments_path : string :=
  "/projects/group%2Fproject/merge_requests/7/activities?fromType=COMMENT".

Definition danger_credentials : GitlabRepoCredentials.t :=
  GitlabRepoCredentials.mk "https://gitlab.example/api/v4"
    (Some "danger") None (Some "s3cr3t").

(** The double quote, as a string. *)
Definition double_quote : string := String (ascii_of_nat 34) EmptyString.

Section WriteVocabulary.
Context `{P : Platform} `{C : @Collaborators P}.

(** The request a writing method sends: [method] on [path] with the
    serialized [body] and no headers of its own. *)
Definition write_request (this : GitlabAPI) (method path : string)
  (headers : option object) (body : RequestBody) : Request.t :=
  api_request this path headers (Some (JSON_stringify body)) method.

Definition delete_path (this : GitlabAPI) (c : GitlabPRComment.t) : string :=
  getPRBasePath this ++ "/comments/" ++ string_of_Z (GitlabPRComment.id c)
    ++ "?version=" ++ string_of_Z (GitlabPRComment.version c).

Definition comments_endpoint (this : GitlabAPI) : string :=
  getPRBasePath this ++ "/comments".

Definition update_path (this : GitlabAPI) (c : GitlabPRComment.t) : string :=
  getPRBasePath this ++ "/comments/" ++ string_of_Z (GitlabPRComment.id c).

Definition build_status_path (commitId : string) : string :=
  "rest/build-status/1.0/commits/" ++ commitId.

Definition commits_path (this : GitlabAPI) : string :=
  getPRBasePath this ++ "/commits".

(** The commits of a response, normalized for the instance [this]. *)
Definition normalized_commits (this : GitlabAPI) (j : JSON) : result (list GitCommit.t) :=
  mapM (fun commit =>
          bitBucketServerCommitToGitCommit commit (repoMetadata this)
            (GitlabRepoCredentials.host (repoCredentials this)))
       (values_as_commits j).

End WriteVocabulary.

Definition sample_comment : GitlabPRComment.t := comment_by 42 "danger" danger_text.

(** A response without a JSON body. *)
Definition bodyless_response (status : Z) (statusText : string)
  : Response.t ScriptedBody :=
  Response.mk status statusText "" (inl (Error "invalid json response body")).

Definition writing_client (response : Response.t ScriptedBody) : @GitlabAPI recording :=
  recording_client token_credentials [ inr response ].

(** How a method ends when it ends like the synchronous computation [r]. *)
Definition outcome_of {A : Type} (r : result A) : outcome A :=
  match r with
  | inl e => Thrown e
  | inr a => Returned a
  end.

(** The client facing the two pages of changes and then the commits. *)
Definition assembling_client (commits : list GitlabCommit.t)
  (pages : list GitlabChanges.t) : @GitlabAPI recording :=
  recording_client token_credentials
    (map (fun page => body_response 200 "OK" (BChanges page)) pages
       ++ [ body_response 200 "OK" (BCommits commits) ]).

(** A page holding a record of a type the normalizer does not know. *)
Definition copy_page : GitlabChanges.t :=
  GitlabChanges.mk
    [ change_a; GitlabChangesValue.mk "COPY" (GitlabPath.mk "copy.ts") None ] None.

(** The instances of the recording platform after the first page and after
    both pages of a two-page run. *)
Definition assembling_after_first (commits : list GitlabCommit.t)
  (first second : GitlabChanges.t) : @GitlabAPI recording :=
  let this := assembling_client commits [first; second] in
  @after_request recording this (@get_line recording this (@changes_path recording this 0))
    ([ body_response 200 "OK" (BChanges second);
       body_response 200 "OK" (BCommits commits) ],
     [ @get_request recording this (@changes_path recording this 0) ]).

Definition assembling_after_pages (commits : list GitlabCommit.t)
  (first second : GitlabChanges.t) (next : Z) : @GitlabAPI recording :=
  let this := assembling_after_first commits first second in
  @after_request recording this
    (@get_line recording this (@changes_path recording this next))
    ([ body_response 200 "OK" (BCommits commits) ],
     [ @get_request recording (assembling_client commits [first; second])
         (@changes_path recording (assembling_client commits [first; second]) 0);
       @get_request recording this (@changes_path recording this next) ]).

Definition assembling_done (commits : list GitlabCommit.t)
  (first second : GitlabChanges.t) (next : Z) : @GitlabAPI recording :=
  let this := assembling_after_pages commits first second next in
  @after_request recording this
    (@get_line recording this (@commits_path recording this))
    ([],
     (snd (world this) ++ [ @get_request recording this (@commits_path recording this) ])%list).

Section ReadVocabulary.
Context `{P : Platform}.

Definition comments_activities_path (this : GitlabAPI) : string :=
  getPRBasePath this ++ "/activities?fromType=COMMENT".

Definition activities_path (this : GitlabAPI) : string :=
  getPRBasePath this ++ "/activities?fromType=ACTIVITY".

Definition issues_path (this : GitlabAPI) : string :=
  getPRBasePath this ++ "/issues".

Definition diff_path (this : GitlabAPI) (base head filename : string) : string :=
  "rest/api/1.0/" ++ RepoMetaData.repoSlug (repoMetadata this)
    ++ "/compare/diff/" ++ filename ++ "?withComments=false&from="
    ++ base ++ "&to=" ++ head.

End ReadVocabulary.

(** The client facing the diffs of a file. *)
Definition diff_client : @GitlabAPI recording :=
  recording_client token_credentials
    [ body_response 200 "OK" (BDiffs [moved_diff; sample_diff]) ].

(** ** The calls made on an instance *)

(** A call of a method of the client, or of one of the two functions of
    GitlabGit.ts that call the client. *)
Inductive method_call : Type :=
| Call_getPullRequestInfo
| Call_getPullRequestCommits
| Call_getStructuredDiffForFile (base head filename : string)
| Call_getPullRequestChanges (fuel : nat)
| Call_getPullRequestComments
| Call_getPullRequestActivities
| Call_getIssues
| Call_getDangerComments (dangerID : string)
| Call_getDangerInlineComments (dangerID : string)
| Call_getFileContents (filePath : string) (repoSlug refspec : option string)
| Call_postBuildStatus (commitId state key name url description : string)
| Call_postPRComment (comment : string)
| Call_postInlinePRComment (comment : string) (line : Z) (type filePath : string)
| Call_deleteComment (c : GitlabPRComment.t)
| Call_updateComment (c : GitlabPRComment.t) (comment : string)
| Call_gitDSLForGitlab (fuel : nat)
| Call_config_getStructuredDiffForFile (base head filename : string).

Definition is_getPullRequestInfo (c : method_call) : bool :=
  match c with
  | Call_getPullRequestInfo => true
  | _ => false
  end.

Section Lifetime.
Context `{P : Platform} `{C : @Collaborators P}.

Local Notation "x <- m ;; k" := (mbind m (fun x => k))
  (at level 61, m at next level, right associativity).
Local Notation "m ;;; k" := (mbind m (fun _ => k))
  (at level 61, right associativity).

(** The instance after a call that was awaited: the call has run to its end,
    whatever its outcome. *)
Definition perform (c : method_call) (this : GitlabAPI) : GitlabAPI :=
  match c with
  | Call_getPullRequestInfo => snd (getPullRequestInfo this)
  | Call_getPullRequestCommits => snd (getPullRequestCommits this)
  | Call_getStructuredDiffForFile base head filename =>
      snd (getStructuredDiffForFile base head filename this)
  | Call_getPullRequestChanges fuel => snd (getPullRequestChanges fuel this)
  | Call_getPullRequestComments => snd (getPullRequestComments this)
  | Call_getPullRequestActivities => snd (getPullRequestActivities this)
  | Call_getIssues => snd (getIssues this)
  | Call_getDangerComments dangerID => snd (getDangerComments dangerID this)
  | Call_getDangerInlineComments dangerID => snd (getDangerInlineComments dangerID this)
  | Call_getFileContents filePath repoSlug refspec =>
      snd (getFileContents filePath repoSlug refspec this)
  | Call_postBuildStatus commitId state key name url description =>
      snd (postBuildStatus commitId state key name url description this)
  | Call_postPRComment comment => snd (postPRComment comment this)
  | Call_postInlinePRComment comment line type filePath =>
      snd (postInlinePRComment comment line type filePath this)
  | Call_deleteComment c => snd (deleteComment c this)
  | Call_updateComment c comment => snd (updateComment c comment this)
  | Call_gitDSLForGitlab fuel => snd (gitDSLForGitlab fuel this)
  | Call_config_getStructuredDiffForFile base head filename =>
      snd (config_getStructuredDiffForFile base head filename this)
  end.

(** Calls made one after another, each awaited before the next is made. *)
Definition run (calls : list method_call) (this : GitlabAPI) : GitlabAPI :=
  fold_left (fun this c => perform c this) calls this.

(** A method that leaves the cached PR as it is. *)
Definition keeps_pr {A : Type} (m : M A) : Prop :=
  forall this, pr (snd (m this)) = pr this.

(** The number of calls of [getPullRequestInfo], among calls made one after
    another, that fetched the PR (nothing was cached) and returned it. *)
Fixpoint successful_pr_fetches (calls : list method_call) (this : GitlabAPI) : nat :=
  match calls with
  | [] => 0%nat
  | c :: rest =>
      ((if is_getPullRequestInfo c then
          match pr this, fst (getPullRequestInfo this) with
          | None, Returned _ => 1
          | _, _ => 0
          end
        else 0)
       + successful_pr_fetches rest (perform c this))%nat
  end.

(** [getPullRequestInfo] up to its first [await]: the test of [this.pr] and,
    when nothing is cached, the request; the response is in hand when the
    call is resumed. *)
Definition getPullRequestInfo_begin : M (GitlabPRDSL + Response.t JSON) :=
  fun this =>
    match pr this with
    | Some cached => (Returned (inl cached), this)
    | None =>
        (let path := getPRBasePath this in
         res <- get path None None ;;
         mret (inr res)) this
    end.

(** [getPullRequestInfo] from its first [await] on: the status check, the
    deserialization, the assignment of [this.pr]. *)
Definition getPullRequestInfo_resume (pending : GitlabPRDSL + Response.t JSON)
  : M GitlabPRDSL :=
  match pending with
  | inl cached => mret cached
  | inr res =>
      lift (throwIfNotOk res) ;;;
      j <- lift (Response.json res) ;;
      let prDSL := asGitlabPRDSL j in
      set_pr prDSL ;;;
      mret prDSL
  end.

(** Two calls that overlap: the second is made before the first is resumed.
    The result holds the two outcomes, the value cached between the two
    resumptions, and the instance at the end. *)
Definition overlapping_getPullRequestInfo (this : GitlabAPI)
  : outcome GitlabPRDSL * outcome GitlabPRDSL * option GitlabPRDSL * GitlabAPI :=
  match getPullRequestInfo_begin this with
  | (Returned first, this1) =>
      match getPullRequestInfo_begin this1 with
      | (Returned second, this2) =>
          let '(o1, this3) := getPullRequestInfo_resume first this2 in
          let '(o2, this4) := getPullRequestInfo_resume second this3 in
          (o1, o2, pr this3, this4)
      | (Thrown e, this2) =>
          let '(o1, this3) := getPullRequestInfo_resume first this2 in
          (o1, Thrown e, pr this3, this3)
      | (OutOfFuel, this2) =>
          let '(o1, this3) := getPullRequestInfo_resume first this2 in
          (o1, OutOfFuel, pr this3, this3)
      end
  | (Thrown e, this1) =>
      let '(o2, this2) := getPullRequestInfo this1 in
      (Thrown e, o2, pr this1, this2)
  | (OutOfFuel, this1) =>
      let '(o2, this2) := getPullRequestInfo this1 in
      (OutOfFuel, o2, pr this1, this2)
  end.

End Lifetime.

(** The further collaborators, for the first scripted platform. *)
Definition scripted_collaborators : @Collaborators scripted :=
  @Build_Collaborators scripted
    (fun _ => []) (fun _ => []) (fun _ => [])
    (fun body =>
       match body with
       | EmptyBody => "{}"
       | TextBody text => text
       | InlineBody text _ _ _ _ => text
       | UpdateBody text _ => text
       | BuildStatusBody state _ _ _ _ => state
       end)
    (fun id => "DangerID: danger-id-" ++ id ++ ";")
    "Generated by Danger".

(** The client facing the PR twice: two fetches will both be answered. *)
Definition twice_answered_client : @GitlabAPI scripted :=
  scripted_client [ json_response (JPR "first answer"); json_response (JPR "second answer") ].

(** Calls of several methods, made after the PR was fetched. *)
Definition later_calls : list method_call :=
  [ Call_getPullRequestChanges 3;
    Call_postPRComment "hello";
    Call_getPullRequestInfo;
    Call_deleteComment sample_comment;
    Call_updateComment sample_comment "again";
    Call_getFileContents "README.md" None None;
    Call_gitDSLForGitlab 3 ].

(** * Proofs *)

(** ** The change-list normalizer: proofs *)

Lemma reduce_app {A B : Type} (f : B -> A -> result B) (l1 l2 : list A) (init : B) :
  reduce f (l1 ++ l2) init = bind (reduce f l1 init) (reduce f l2).
Proof.
  revert init. induction l1 as [|x xs IH]; intro init; simpl.
  - reflexivity.
  - destruct (f init x) as [e|b]; simpl; [reflexivity | apply IH].
Qed.

(** One step on a handled record appends that record's contributions. *)
Lemma changes_step_handled (git : GitJSONDSL.t) (v : GitlabChangesValue.t) :
  handled v = true ->
  changes_step git v =
  inr {| GitJSONDSL.modified_files := GitJSONDSL.modified_files git ++ modified_by v;
         GitJSONDSL.created_files := GitJSONDSL.created_files git ++ created_by v;
         GitJSONDSL.deleted_files := GitJSONDSL.deleted_files git ++ deleted_by v;
         GitJSONDSL.commits := GitJSONDSL.commits git |}.
Proof.
  unfold handled, known_type, changes_step, created_by, modified_by, deleted_by,
    srcPath_toString, path_string, is_type.
  destruct git as [m c dl cs]; destruct v as [ty p sp]; simpl.
  destruct (String.eqb ty "ADD") eqn:EA.
  - apply String.eqb_eq in EA; subst ty; simpl.
    intros _. now rewrite !app_nil_r.
  - destruct (String.eqb ty "MODIFY") eqn:EM.
    + apply String.eqb_eq in EM; subst ty; simpl.
      intros _. now rewrite !app_nil_r.
    + destruct (String.eqb ty "MOVE") eqn:EV; simpl.
      * destruct sp as [q|]; simpl; [|discriminate].
        intros _. now rewrite !app_nil_r.
      * destruct (String.eqb ty "DELETE") eqn:ED; simpl; [|discriminate].
        intros _. now rewrite !app_nil_r.
Qed.

(** A step on a record that is not handled throws. *)
Lemma changes_step_not_handled (git : GitJSONDSL.t) (v : GitlabChangesValue.t) :
  handled v = false -> exists e, changes_step git v = inl e.
Proof.
  unfold handled, known_type, changes_step, srcPath_toString, is_type.
  destruct v as [ty p sp]; simpl.
  destruct (String.eqb ty "ADD") eqn:EA.
  { apply String.eqb_eq in EA; subst ty; simpl. discriminate. }
  destruct (String.eqb ty "MODIFY") eqn:EM.
  { apply String.eqb_eq in EM; subst ty; simpl. discriminate. }
  destruct (String.eqb ty "MOVE"); simpl.
  - destruct sp; simpl; [discriminate|]. intros _. eexists; reflexivity.
  - destruct (String.eqb ty "DELETE"); simpl; [discriminate|].
    intros _. eexists; reflexivity.
Qed.

(** A step on a record of unknown type throws the "unhandled" error. *)
Lemma changes_step_unknown (git : GitJSONDSL.t) (v : GitlabChangesValue.t) :
  known_type v = false -> changes_step git v = inl (Error "Unhandled change type").
Proof.
  unfold known_type, changes_step, is_type.
  destruct v as [ty p sp]; simpl.
  destruct (String.eqb ty "ADD"); simpl; [discriminate|].
  destruct (String.eqb ty "MODIFY"); simpl; [discriminate|].
  destruct (String.eqb ty "MOVE"); simpl; [discriminate|].
  destruct (String.eqb ty "DELETE"); simpl; [discriminate|].
  reflexivity.
Qed.

(** The fold over handled records, from any accumulator. *)
Lemma reduce_changes_handled (l : list GitlabChangesValue.t) :
  forall git,
    forallb handled l = true ->
    reduce changes_step l git =
    inr {| GitJSONDSL.modified_files :=
             GitJSONDSL.modified_files git ++ flat_map modified_by l;
           GitJSONDSL.created_files :=
             GitJSONDSL.created_files git ++ flat_map created_by l;
           GitJSONDSL.deleted_files :=
             GitJSONDSL.deleted_files git ++ flat_map deleted_by l;
           GitJSONDSL.commits := GitJSONDSL.commits git |}.
Proof.
  induction l as [|v l IH]; intros git Hl; simpl in *.
  - destruct git; simpl. now rewrite !app_nil_r.
  - apply andb_true_iff in Hl as [Hv Hl].
    rewrite (changes_step_handled git v Hv). simpl.
    rewrite (IH _ Hl). simpl. now rewrite <- !app_assoc.
Qed.

(** The normalizer returns a change set exactly on the sequences all of
    whose records are handled. *)
Lemma normalization_returns_iff (changes : list GitlabChangesValue.t)
  (commits : list GitCommit.t) :
  (exists git, bitBucketServerChangesToGitJSONDSL changes commits = inr git)
  <-> forallb handled changes = true.
Proof.
  unfold bitBucketServerChangesToGitJSONDSL. generalize (empty_git commits).
  induction changes as [|v l IH]; intro git; simpl.
  - split; [reflexivity | intros _; eexists; reflexivity].
  - destruct (handled v) eqn:Hv; simpl.
    + rewrite (changes_step_handled git v Hv). simpl. apply IH.
    + destruct (changes_step_not_handled git v Hv) as [e He]. rewrite He. simpl.
      split; [intros [g Hg]; discriminate | discriminate].
Qed.

(** A sequence holding a record of unknown type yields no change set. *)
Lemma unknown_type_never_returns (changes : list GitlabChangesValue.t)
  (commits : list GitCommit.t) (git : GitJSONDSL.t) :
  existsb (fun v => negb (known_type v)) changes = true ->
  bitBucketServerChangesToGitJSONDSL changes commits <> inr git.
Proof.
  intros Hex Hret.
  assert (Hall : forallb handled changes = true).
  { apply (normalization_returns_iff changes commits). now exists git. }
  apply existsb_exists in Hex as (v & Hin & Hv).
  rewrite forallb_forall in Hall. specialize (Hall v Hin).
  unfold handled in Hall. apply andb_true_iff in Hall as [Hk _].
  rewrite Hk in Hv. discriminate.
Qed.

Lemma plain_type_cases (v : GitlabChangesValue.t) :
  plain_type v = true ->
  (is_type "ADD" v = true /\ is_type "MODIFY" v = false /\
   is_type "DELETE" v = false /\ is_type "MOVE" v = false) \/
  (is_type "ADD" v = false /\ is_type "MODIFY" v = true /\
   is_type "DELETE" v = false /\ is_type "MOVE" v = false) \/
  (is_type "ADD" v = false /\ is_type "MODIFY" v = false /\
   is_type "DELETE" v = true /\ is_type "MOVE" v = false).
Proof.
  unfold plain_type, is_type. destruct v as [ty p sp]; simpl.
  destruct (String.eqb ty "ADD") eqn:EA.
  { apply String.eqb_eq in EA; subst ty. intros _. left. repeat split. }
  destruct (String.eqb ty "MODIFY") eqn:EM.
  { apply String.eqb_eq in EM; subst ty. intros _. right; left. repeat split. }
  destruct (String.eqb ty "DELETE") eqn:ED; simpl; [|discriminate].
  apply String.eqb_eq in ED; subst ty. intros _. right; right. repeat split.
Qed.

Lemma plain_type_handled (l : list GitlabChangesValue.t) :
  forallb plain_type l = true -> forallb handled l = true.
Proof.
  induction l as [|v l IH]; simpl; [reflexivity|].
  intros H. apply andb_true_iff in H as [Hv Hl].
  rewrite (IH Hl), andb_true_r.
  unfold handled, known_type.
  destruct (plain_type_cases v Hv) as [(A & M' & D & V)|[(A & M' & D & V)|(A & M' & D & V)]];
    rewrite A, M', D, V; reflexivity.
Qed.

(** Without moves, the contributions are the three filters. *)
Lemma plain_type_contributions (l : list GitlabChangesValue.t) :
  forallb plain_type l = true ->
  flat_map created_by l = paths_of "ADD" l /\
  flat_map modified_by l = paths_of "MODIFY" l /\
  flat_map deleted_by l = paths_of "DELETE" l.
Proof.
  unfold paths_of.
  induction l as [|v l IH]; simpl; [repeat split|].
  intros H. apply andb_true_iff in H as [Hv Hl].
  destruct (IH Hl) as (Hc & Hm & Hd). rewrite Hc, Hm, Hd.
  unfold created_by, modified_by, deleted_by.
  destruct (plain_type_cases v Hv) as [(A & M' & D & V)|[(A & M' & D & V)|(A & M' & D & V)]];
    rewrite A, M', D, V; simpl; repeat split.
Qed.

(** Every record goes to exactly one filter. *)
Lemma plain_type_partition (l : list GitlabChangesValue.t) :
  forallb plain_type l = true ->
  Permutation (map path_string l)
              (paths_of "ADD" l ++ paths_of "MODIFY" l ++ paths_of "DELETE" l).
Proof.
  unfold paths_of.
  induction l as [|v l IH]; simpl; [constructor|].
  intros H. apply andb_true_iff in H as [Hv Hl]. specialize (IH Hl).
  destruct (plain_type_cases v Hv) as [(A & M' & D & V)|[(A & M' & D & V)|(A & M' & D & V)]];
    rewrite A, M', D; simpl.
  - now constructor.
  - now apply Permutation_cons_app.
  - rewrite app_assoc. apply Permutation_cons_app. now rewrite <- app_assoc.
Qed.

(** C1. For every sequence of change records whose types are all ADD, MODIFY
    or DELETE, [bitBucketServerChangesToGitJSONDSL] returns a change set in
    which [created_files], [modified_files] and [deleted_files] are the paths
    of the ADD, MODIFY and DELETE records respectively, each in the arrival
    order of the records; every record's path is placed in exactly one of the
    three lists (together they are a permutation of all the paths). The fold
    starts from the empty accumulator and proceeds left to right: the result
    for a sequence extended by one more record is the step applied to the
    result for the sequence. *)
Theorem changes_buckets_in_arrival_order
  (changes : list GitlabChangesValue.t) (commits : list GitCommit.t) :
  forallb plain_type changes = true ->
  bitBucketServerChangesToGitJSONDSL [] commits =
    inr {| GitJSONDSL.modified_files := []; GitJSONDSL.created_files := [];
           GitJSONDSL.deleted_files := []; GitJSONDSL.commits := commits |} /\
  exists git,
    bitBucketServerChangesToGitJSONDSL changes commits = inr git /\
    GitJSONDSL.created_files git = paths_of "ADD" changes /\
    GitJSONDSL.modified_files git = paths_of "MODIFY" changes /\
    GitJSONDSL.deleted_files git = paths_of "DELETE" changes /\
    GitJSONDSL.commits git = commits /\
    Permutation (map path_string changes)
                (GitJSONDSL.created_files git ++ GitJSONDSL.modified_files git
                   ++ GitJSONDSL.deleted_files git) /\
    forall v, bitBucketServerChangesToGitJSONDSL (changes ++ [v]) commits =
              changes_step git v.
Proof.
  intros H. split; [reflexivity|].
  pose proof (reduce_changes_handled changes (empty_git commits)
                (plain_type_handled changes H)) as R.
  destruct (plain_type_contributions changes H) as (Hc & Hm & Hd).
  simpl in R. rewrite Hc, Hm, Hd in R.
  eexists. split; [exact R|]. simpl.
  repeat split.
  - now apply plain_type_partition.
  - intro v. unfold bitBucketServerChangesToGitJSONDSL.
    rewrite reduce_app. unfold bitBucketServerChangesToGitJSONDSL in R.
    rewrite R. simpl.
    destruct (changes_step _ v); reflexivity.
Qed.

Lemma changes_buckets_in_arrival_order_witness :
  forallb plain_type sample_changes = true /\
  exists git,
    bitBucketServerChangesToGitJSONDSL sample_changes [] = inr git /\
    GitJSONDSL.created_files git = ["a.ts"; "d.ts"] /\
    GitJSONDSL.modified_files git = ["b.ts"] /\
    GitJSONDSL.deleted_files git = ["c.ts"].
Proof.
  split; [reflexivity|].
  destruct (changes_buckets_in_arrival_order sample_changes [] eq_refl)
    as (_ & git & R & Hc & Hm & Hd & _).
  exists git. repeat split; assumption.
Defined.

(** C2. For every sequence of handled change records that contains a MOVE
    record with path [P] and srcPath [Q], the normalizer returns a change set
    whose [created_files] contains [P] and whose [deleted_files] contains
    [Q]; the MOVE adds exactly one entry to each of these two lists and
    nothing to [modified_files], which is the list obtained from the sequence
    without the MOVE. *)
Theorem move_is_delete_then_create
  (pre post : list GitlabChangesValue.t) (P Q : GitlabPath.t)
  (commits : list GitCommit.t) :
  forallb handled (pre ++ post) = true ->
  exists git git0,
    bitBucketServerChangesToGitJSONDSL
      (pre ++ GitlabChangesValue.mk "MOVE" P (Some Q) :: post) commits = inr git /\
    bitBucketServerChangesToGitJSONDSL (pre ++ post) commits = inr git0 /\
    In (GitlabPath.toString P) (GitJSONDSL.created_files git) /\
    In (GitlabPath.toString Q) (GitJSONDSL.deleted_files git) /\
    GitJSONDSL.modified_files git = GitJSONDSL.modified_files git0 /\
    List.length (GitJSONDSL.created_files git) =
      S (List.length (GitJSONDSL.created_files git0)) /\
    List.length (GitJSONDSL.deleted_files git) =
      S (List.length (GitJSONDSL.deleted_files git0)).
Proof.
  intros H.
  assert (H' : forallb handled
                 (pre ++ GitlabChangesValue.mk "MOVE" P (Some Q) :: post) = true).
  { rewrite forallb_app in *. simpl. exact H. }
  pose proof (reduce_changes_handled _ (empty_git commits) H') as R.
  pose proof (reduce_changes_handled _ (empty_git commits) H) as R0.
  simpl in R, R0.
  eexists; eexists. split; [exact R|]. split; [exact R0|]. simpl.
  rewrite !flat_map_app. simpl.
  unfold modified_by at 2, created_by at 2, deleted_by at 2. simpl.
  repeat split.
  - apply in_or_app; right. now left.
  - apply in_or_app; right. now left.
  - rewrite !length_app. simpl. lia.
  - rewrite !length_app. simpl. lia.
Qed.

Lemma move_is_delete_then_create_witness :
  forallb handled (sample_changes ++ sample_changes) = true /\
  exists git,
    bitBucketServerChangesToGitJSONDSL
      (sample_changes
         ++ GitlabChangesValue.mk "MOVE" (GitlabPath.mk "new.ts")
              (Some (GitlabPath.mk "old.ts")) :: sample_changes) [] = inr git /\
    In "new.ts" (GitJSONDSL.created_files git) /\
    In "old.ts" (GitJSONDSL.deleted_files git) /\
    GitJSONDSL.modified_files git = ["b.ts"; "b.ts"].
Proof.
  split; [reflexivity|].
  destruct (move_is_delete_then_create sample_changes sample_changes
              (GitlabPath.mk "new.ts") (GitlabPath.mk "old.ts") [] eq_refl)
    as (git & git0 & R & R0 & Hc & Hd & Hm & _).
  exists git. repeat split; try assumption.
  rewrite Hm. vm_compute in R0. injection R0 as <-. reflexivity.
Defined.

(** C3. For every sequence of change records in which the first record
    whose type is outside ADD, MODIFY, MOVE and DELETE comes after handled
    records only, the normalizer throws [Error("Unhandled change type")] at
    that record: it returns no change set, whatever records follow. *)
Theorem unknown_type_fails_fast
  (pre post : list GitlabChangesValue.t) (v : GitlabChangesValue.t)
  (commits : list GitCommit.t) :
  forallb handled pre = true ->
  known_type v = false ->
  bitBucketServerChangesToGitJSONDSL (pre ++ v :: post) commits =
    inl (Error "Unhandled change type").
Proof.
  intros Hpre Hv. unfold bitBucketServerChangesToGitJSONDSL.
  rewrite reduce_app, (reduce_changes_handled pre _ Hpre). simpl.
  now rewrite (changes_step_unknown _ v Hv).
Qed.

Lemma unknown_type_fails_fast_witness :
  forallb handled sample_changes = true /\
  known_type (GitlabChangesValue.mk "RENAME" (GitlabPath.mk "r.ts") None) = false /\
  bitBucketServerChangesToGitJSONDSL
    (sample_changes
       ++ GitlabChangesValue.mk "RENAME" (GitlabPath.mk "r.ts") None
       :: sample_changes) [] = inl (Error "Unhandled change type").
Proof.
  split; [reflexivity|]. split; [reflexivity|].
  exact (unknown_type_fails_fast sample_changes sample_changes
           (GitlabChangesValue.mk "RENAME" (GitlabPath.mk "r.ts") None) []
           eq_refl eq_refl).
Defined.

(** ** The structured-diff normalizer: proofs *)

(** [reduce((a, b) => a.concat(b), [])] is the concatenation, in order. *)
Lemma fold_left_concat {A : Type} (ls : list (list A)) (acc : list A) :
  fold_left (fun a b => (a ++ b)%list) ls acc = (acc ++ List.concat ls)%list.
Proof.
  revert acc. induction ls as [|l ls IH]; intro acc; simpl.
  - now rewrite app_nil_r.
  - now rewrite IH, app_assoc.
Qed.

Lemma hunk_chunk_flat_map (hunk : GitlabHunk.t) :
  Chunk.changes (hunk_chunk hunk) =
  flat_map segment_changes (GitlabHunk.segments hunk).
Proof.
  unfold hunk_chunk; simpl. rewrite fold_left_concat. simpl.
  now rewrite flat_map_concat_map.
Qed.

Lemma hunk_chunk_eq (hunk : GitlabHunk.t) :
  hunk_chunk hunk =
  {| Chunk.changes := flat_map segment_changes (GitlabHunk.segments hunk) |}.
Proof.
  pose proof (hunk_chunk_flat_map hunk) as E.
  destruct (hunk_chunk hunk) as [cs]. simpl in E. now subst cs.
Qed.

Lemma structured_diff_app (l1 l2 : list GitlabDiff.t) :
  bitBucketServerDiffToGitStructuredDiff (l1 ++ l2) =
  (bitBucketServerDiffToGitStructuredDiff l1
     ++ bitBucketServerDiffToGitStructuredDiff l2)%list.
Proof. apply map_app. Qed.

Lemma known_segment_changes (segment : GitlabSegment.t) :
  known_segment segment = true ->
  segment_changes segment =
  map (spec_line_change (GitlabSegment.type segment)) (GitlabSegment.lines segment).
Proof.
  unfold known_segment, segment_changes. intros H.
  apply map_ext. intro line.
  unfold line_change, spec_line_change, spec_change_type, get_property.
  destruct segment as [ty ls]; simpl in *.
  destruct (String.eqb ty "ADDED") eqn:EA.
  { apply String.eqb_eq in EA; subst ty. reflexivity. }
  destruct (String.eqb ty "CONTEXT") eqn:EC.
  { apply String.eqb_eq in EC; subst ty. reflexivity. }
  destruct (String.eqb ty "REMOVED") eqn:ER; [|discriminate].
  apply String.eqb_eq in ER; subst ty. reflexivity.
Qed.

Lemma known_hunk_chunk (hunk : GitlabHunk.t) :
  known_hunk hunk = true ->
  hunk_chunk hunk = {| Chunk.changes := spec_hunk_changes hunk |}.
Proof.
  intros H.
  assert (E : Chunk.changes (hunk_chunk hunk) = spec_hunk_changes hunk).
  { rewrite hunk_chunk_flat_map. unfold spec_hunk_changes, known_hunk in *.
    rewrite flat_map_concat_map. f_equal.
    induction (GitlabHunk.segments hunk) as [|s ss IH]; simpl in *; [reflexivity|].
    apply andb_true_iff in H as [Hs Hss].
    now rewrite (known_segment_changes s Hs), (IH Hss). }
  destruct (hunk_chunk hunk) as [cs]. simpl in E. now subst cs.
Qed.

(** C5. For every platform diff whose segments all have type ADDED, CONTEXT
    or REMOVED, [bitBucketServerDiffToGitStructuredDiff] computes what the
    specification describes: each line of a segment becomes one change entry
    with type "add", "normal" or "del" according to the segment's type,
    content the line's text, sourceLine and destinationLine the line's source
    and destination; and each hunk's changes are the concatenation, in
    segment order, of its segments' entries, the lines of a segment keeping
    their order. *)
Theorem structured_diff_refines_spec (diffs : list GitlabDiff.t) :
  forallb known_diff diffs = true ->
  bitBucketServerDiffToGitStructuredDiff diffs = spec_normalizeDiff diffs.
Proof.
  unfold bitBucketServerDiffToGitStructuredDiff, spec_normalizeDiff.
  induction diffs as [|diff diffs IH]; simpl; [reflexivity|].
  intros H. apply andb_true_iff in H as [Hd Hds].
  rewrite (IH Hds). f_equal.
  unfold known_diff in Hd.
  destruct diff as [src dst hunks]; simpl in *.
  destruct src, dst; simpl; f_equal;
    (destruct hunks as [hs|]; simpl; [f_equal|reflexivity];
     induction hs as [|h hs IHh]; simpl in *; [reflexivity|];
     apply andb_true_iff in Hd as [Hh Hhs];
     now rewrite (known_hunk_chunk h Hh), (IHh Hhs)).
Qed.

Lemma structured_diff_refines_spec_witness :
  forallb known_diff [sample_diff] = true /\
  bitBucketServerDiffToGitStructuredDiff [sample_diff] =
  [ {| StructuredDiffEntry.from := Some "lib/x.ts";
       StructuredDiffEntry.to := Some "lib/x.ts";
       StructuredDiffEntry.chunks :=
         Some [ {| Chunk.changes :=
                     [ Change.mk (Own "add") "x" None (Some 5);
                       Change.mk (Own "del") "y" (Some 3) None ] |} ] |} ].
Proof.
  split; [reflexivity|].
  rewrite (structured_diff_refines_spec [sample_diff] eq_refl). reflexivity.
Defined.

(** C7, as the specification states it, fails: on a segment of type "MOVED"
    the normalizer raises nothing and returns a change entry whose type is
    [undefined]. *)
Lemma unknown_segment_type_not_rejected :
  known_diff moved_diff = false /\
  bitBucketServerDiffToGitStructuredDiff [moved_diff] =
  [ {| StructuredDiffEntry.from := Some "lib/x.ts";
       StructuredDiffEntry.to := Some "lib/x.ts";
       StructuredDiffEntry.chunks :=
         Some [ {| Chunk.changes := [ Change.mk Undefined "x" (Some 1) (Some 2) ] |} ] |} ].
Proof. split; reflexivity. Qed.

(** C7, amended. [bitBucketServerDiffToGitStructuredDiff] has no failure
    path: for every list of diffs, a diff at any position that holds, in a
    hunk at any position, a segment at any position whose type is outside
    ADDED, CONTEXT and REMOVED (and is not the name of an inherited object
    member) is normalized like any other: the entries of the diffs before it
    and after it are those the normalizer gives them, the chunks of the
    hunks before and after are theirs, and in the chunk of the hunk every
    line of that segment has an entry of type [undefined], with the line's
    content and line numbers, between the entries of the segments before it
    and after it. *)
Theorem unknown_segment_type_passes_as_undefined
  (diffs_before diffs_after : list GitlabDiff.t)
  (source destination : option GitlabPath.t)
  (hunks_before hunks_after : list GitlabHunk.t)
  (before after : list GitlabSegment.t) (segment_type : string)
  (lines : list GitlabLine.t) :
  unknown_segment_type segment_type = true ->
  bitBucketServerDiffToGitStructuredDiff
    (diffs_before
       ++ {| GitlabDiff.source := source;
             GitlabDiff.destination := destination;
             GitlabDiff.hunks :=
               Some (hunks_before
                       ++ {| GitlabHunk.segments :=
                               before ++ GitlabSegment.mk segment_type lines :: after |}
                       :: hunks_after)%list |}
       :: diffs_after)%list =
  (bitBucketServerDiffToGitStructuredDiff diffs_before
     ++ {| StructuredDiffEntry.from := and_then source GitlabPath.toString;
           StructuredDiffEntry.to := and_then destination GitlabPath.toString;
           StructuredDiffEntry.chunks :=
             Some (map hunk_chunk hunks_before
                     ++ {| Chunk.changes :=
                             flat_map segment_changes before
                               ++ map undefined_change lines
                               ++ flat_map segment_changes after |}
                     :: map hunk_chunk hunks_after)%list |}
     :: bitBucketServerDiffToGitStructuredDiff diffs_after)%list.
Proof.
  intros H. rewrite structured_diff_app.
  unfold bitBucketServerDiffToGitStructuredDiff at 2. cbn [map]. f_equal.
  fold (bitBucketServerDiffToGitStructuredDiff diffs_after). f_equal.
  cbn [and_then GitlabDiff.source GitlabDiff.destination GitlabDiff.hunks].
  f_equal. f_equal. rewrite map_app. cbn [map]. f_equal. f_equal.
  rewrite hunk_chunk_eq. cbn [GitlabHunk.segments]. f_equal.
  rewrite flat_map_app. cbn [flat_map]. f_equal. f_equal.
  unfold segment_changes. cbn [GitlabSegment.lines]. apply map_ext. intro line.
  unfold unknown_segment_type in H.
  apply andb_true_iff in H as [H1 H2].
  apply negb_true_iff in H1. apply negb_true_iff in H2.
  apply orb_false_iff in H1 as [H1 HR]. apply orb_false_iff in H1 as [HA HC].
  unfold line_change, undefined_change, get_property, segmentValues.
  cbn [own_property GitlabSegment.type].
  now rewrite HA, HC, HR, H2.
Qed.

(** The diff with the segment of type "MOVED" between two other diffs, its
    hunk between two other hunks, its segment between two other segments. *)
Lemma unknown_segment_type_passes_as_undefined_witness :
  unknown_segment_type "MOVED" = true /\
  bitBucketServerDiffToGitStructuredDiff
    [ sample_diff;
      {| GitlabDiff.source := None;
         GitlabDiff.destination := Some (GitlabPath.mk "lib/z.ts");
         GitlabDiff.hunks :=
           Some [ {| GitlabHunk.segments :=
                       [ GitlabSegment.mk "CONTEXT" [GitlabLine.mk "a" (Some 1) (Some 1)] ] |};
                  {| GitlabHunk.segments :=
                       [ GitlabSegment.mk "ADDED" [GitlabLine.mk "b" None (Some 7)];
                         GitlabSegment.mk "MOVED" [GitlabLine.mk "x" (Some 1) (Some 2);
                                                   GitlabLine.mk "y" (Some 2) (Some 3)];
                         GitlabSegment.mk "REMOVED" [GitlabLine.mk "c" (Some 9) None] ] |};
                  {| GitlabHunk.segments := [] |} ] |};
      moved_diff ] =
  [ {| StructuredDiffEntry.from := Some "lib/x.ts";
       StructuredDiffEntry.to := Some "lib/x.ts";
       StructuredDiffEntry.chunks :=
         Some [ {| Chunk.changes :=
                     [ Change.mk (Own "add") "x" None (Some 5);
                       Change.mk (Own "del") "y" (Some 3) None ] |} ] |};
    {| StructuredDiffEntry.from := None;
       StructuredDiffEntry.to := Some "lib/z.ts";
       StructuredDiffEntry.chunks :=
         Some [ {| Chunk.changes := [ Change.mk (Own "normal") "a" (Some 1) (Some 1) ] |};
                {| Chunk.changes :=
                     [ Change.mk (Own "add") "b" None (Some 7);
                       Change.mk Undefined "x" (Some 1) (Some 2);
                       Change.mk Undefined "y" (Some 2) (Some 3);
                       Change.mk (Own "del") "c" (Some 9) None ] |};
                {| Chunk.changes := [] |} ] |};
    {| StructuredDiffEntry.from := Some "lib/x.ts";
       StructuredDiffEntry.to := Some "lib/x.ts";
       StructuredDiffEntry.chunks :=
         Some [ {| Chunk.changes := [ Change.mk Undefined "x" (Some 1) (Some 2) ] |} ] |} ].
Proof.
  split; [reflexivity|].
  etransitivity.
  exact (unknown_segment_type_passes_as_undefined
             [sample_diff] [moved_diff] None (Some (GitlabPath.mk "lib/z.ts"))
             [ {| GitlabHunk.segments :=
                    [ GitlabSegment.mk "CONTEXT" [GitlabLine.mk "a" (Some 1) (Some 1)] ] |} ]
             [ {| GitlabHunk.segments := [] |} ]
             [ GitlabSegment.mk "ADDED" [GitlabLine.mk "b" None (Some 7)] ]
             [ GitlabSegment.mk "REMOVED" [GitlabLine.mk "c" (Some 9) None] ]
             "MOVED"
             [ GitlabLine.mk "x" (Some 1) (Some 2); GitlabLine.mk "y" (Some 2) (Some 3) ]
             eq_refl).
  reflexivity.
Defined.

(** C10. The normalizer emits one output entry per diff, in order, whatever
    the diff lacks: for a diff whose [hunks] is absent the entry's [chunks]
    is absent ([undefined], not the empty array); for a diff whose [source]
    is absent the entry's [from] is absent; for a diff whose [destination] is
    absent the entry's [to] is absent. *)
Theorem absent_fields_stay_absent
  (before after : list GitlabDiff.t)
  (source destination : option GitlabPath.t) (hunks : option (list GitlabHunk.t)) :
  (forall diffs,
     List.length (bitBucketServerDiffToGitStructuredDiff diffs) = List.length diffs) /\
  bitBucketServerDiffToGitStructuredDiff
    (before ++ GitlabDiff.mk source destination None :: after) =
  (bitBucketServerDiffToGitStructuredDiff before
    ++ StructuredDiffEntry.mk (and_then source GitlabPath.toString)
         (and_then destination GitlabPath.toString) None
    :: bitBucketServerDiffToGitStructuredDiff after)%list /\
  bitBucketServerDiffToGitStructuredDiff
    (before ++ GitlabDiff.mk None destination hunks :: after) =
  (bitBucketServerDiffToGitStructuredDiff before
    ++ StructuredDiffEntry.mk None (and_then destination GitlabPath.toString)
         (and_then hunks (map hunk_chunk))
    :: bitBucketServerDiffToGitStructuredDiff after)%list /\
  bitBucketServerDiffToGitStructuredDiff
    (before ++ GitlabDiff.mk source None hunks :: after) =
  (bitBucketServerDiffToGitStructuredDiff before
    ++ StructuredDiffEntry.mk (and_then source GitlabPath.toString) None
         (and_then hunks (map hunk_chunk))
    :: bitBucketServerDiffToGitStructuredDiff after)%list.
Proof.
  split; [intro diffs; apply length_map|].
  repeat split; rewrite structured_diff_app; reflexivity.
Qed.

(** A diff of an added file, without hunks: no source, no hunks. *)
Lemma absent_fields_example :
  bitBucketServerDiffToGitStructuredDiff
    [ GitlabDiff.mk None (Some (GitlabPath.mk "new.ts")) None ] =
  [ StructuredDiffEntry.mk None (Some "new.ts") None ].
Proof. reflexivity. Qed.

(** ** The commit normalizer: proofs *)

(** [civil_from_days] works era by era: 400 years, 146097 days. *)
Lemma civil_from_days_era (day : Z) :
  civil_from_days day =
  let era := (day + 719468) / 146097 in
  let '(y, m, d) := civil_of_era_day (day + 719468 - era * 146097) in
  (y + era * 400, m, d).
Proof.
  unfold civil_from_days, civil_of_era_day. cbv zeta.
  set (era := (day + 719468) / 146097).
  set (doe := day + 719468 - era * 146097).
  set (yoe := (doe - doe / 1460 + doe / 36524 - doe / 146096) / 365).
  set (doy := doe - (365 * yoe + yoe / 4 - yoe / 100)).
  set (mp := (5 * doy + 2) / 153).
  destruct ((if mp <? 10 then mp + 3 else mp - 9) <=? 2); f_equal; f_equal; lia.
Qed.

(** The calendar of the language specification repeats every 400 years. *)
Lemma DayFromYear_period (y k : Z) : DayFromYear (y + k * 400) = DayFromYear y + k * 146097.
Proof. unfold DayFromYear. Z.div_mod_to_equations; lia. Qed.

Lemma InLeapYear_period (y k : Z) : InLeapYear (y + k * 400) = InLeapYear y.
Proof.
  unfold InLeapYear.
  replace ((y + k * 400) mod 4) with (y mod 4) by (Z.div_mod_to_equations; lia).
  replace ((y + k * 400) mod 100) with (y mod 100) by (Z.div_mod_to_equations; lia).
  replace ((y + k * 400) mod 400) with (y mod 400) by (Z.div_mod_to_equations; lia).
  reflexivity.
Qed.

(** The year of the era and the day of that year (counted from March 1);
    day 365 exists only before a leap day. *)
Lemma year_of_era_day (doe : Z) :
  0 <= doe <= 146096 ->
  let yoe := (doe - doe / 1460 + doe / 36524 - doe / 146096) / 365 in
  let doy := doe - (365 * yoe + yoe / 4 - yoe / 100) in
  0 <= yoe <= 399 /\ 0 <= doy <= 365 /\
  (doy = 365 ->
   ((yoe + 1) mod 4 = 0 /\ (yoe + 1) mod 100 <> 0) \/ (yoe + 1) mod 400 = 0).
Proof.
  intros H. cbv zeta. Z.div_mod_to_equations; lia.
Qed.

Lemma InLeapYear_true (y : Z) :
  InLeapYear y = true -> (y mod 4 = 0 /\ y mod 100 <> 0) \/ y mod 400 = 0.
Proof.
  unfold InLeapYear. intros H. apply orb_true_iff in H as [H|H].
  - apply andb_true_iff in H as [H4 H100]. left.
    apply Z.eqb_eq in H4. apply negb_true_iff, Z.eqb_neq in H100. now split.
  - right. now apply Z.eqb_eq.
Qed.

Lemma InLeapYear_false (y : Z) :
  InLeapYear y = false -> (y mod 4 <> 0 \/ y mod 100 = 0) /\ y mod 400 <> 0.
Proof.
  unfold InLeapYear. intros H. apply orb_false_iff in H as [H Hq].
  apply Z.eqb_neq in Hq. split; [|exact Hq].
  apply andb_false_iff in H as [H|H].
  - left. now apply Z.eqb_neq.
  - right. apply negb_false_iff in H. now apply Z.eqb_eq.
Qed.

(** The days of a year before each month. *)
Lemma days_before_month_table (y m : Z) :
  1 <= m <= 12 ->
  days_before_month y m =
  (if m =? 1 then 0 else if m =? 2 then 31
   else leap_day y +
        (if m =? 3 then 59 else if m =? 4 then 90 else if m =? 5 then 120
         else if m =? 6 then 151 else if m =? 7 then 181 else if m =? 8 then 212
         else if m =? 9 then 243 else if m =? 10 then 273 else if m =? 11 then 304
         else 334)).
Proof.
  intros H.
  assert (Hm : m = 1 \/ m = 2 \/ m = 3 \/ m = 4 \/ m = 5 \/ m = 6 \/ m = 7 \/ m = 8
               \/ m = 9 \/ m = 10 \/ m = 11 \/ m = 12) by lia.
  unfold days_before_month, DaysInMonth, leap_day.
  repeat (destruct Hm as [Hm|Hm]; [subst m; simpl; destruct (InLeapYear y); reflexivity|]).
  subst m; simpl; destruct (InLeapYear y); reflexivity.
Qed.

(** One month of the year at a time. *)
Ltac evaluate t := let v := eval vm_compute in t in change t with v.

Ltac month_case k :=
  evaluate (if k <? 10 then k + 3 else k - 9);
  match goal with |- context [?m <=? 2] => evaluate (m <=? 2) end;
  cbv iota;
  rewrite days_before_month_table by lia;
  unfold DaysInMonth;
  repeat match goal with |- context [?a =? ?b] => evaluate (a =? b) end;
  cbv iota; simpl orb; cbv iota;
  unfold leap_day, DayFromYear;
  try match goal with
      | |- context [InLeapYear ?y] =>
          destruct (InLeapYear y) eqn:HL;
          [apply InLeapYear_true in HL | apply InLeapYear_false in HL]
      end;
  Z.div_mod_to_equations; lia.

(** Within an era, [civil_of_era_day] yields a date of the calendar whose day
    number, by the language specification's formulas, is the day it was
    given. *)
Lemma era_day_round_trip (doe : Z) :
  0 <= doe <= 146096 ->
  let '(y, m, d) := civil_of_era_day doe in
  days_from_civil (y, m, d) = doe - 719468 /\
  1 <= m <= 12 /\ 1 <= d <= DaysInMonth y m /\ 0 <= y <= 400.
Proof.
  intros H. unfold civil_of_era_day. cbv zeta.
  pose proof (year_of_era_day doe H) as B. cbv zeta in B.
  set (yoe := (doe - doe / 1460 + doe / 36524 - doe / 146096) / 365) in *.
  set (doy := doe - (365 * yoe + yoe / 4 - yoe / 100)) in *.
  destruct B as (Hy & Hd & Hleap).
  set (mp := (5 * doy + 2) / 153).
  assert (Hmp : 0 <= mp <= 11) by (subst mp; Z.div_mod_to_equations; lia).
  assert (Hdoy : 153 * mp <= 5 * doy + 2 < 153 * mp + 153)
    by (subst mp; Z.div_mod_to_equations; lia).
  clearbody mp.
  assert (Hc : mp = 0 \/ mp = 1 \/ mp = 2 \/ mp = 3 \/ mp = 4 \/ mp = 5 \/ mp = 6
               \/ mp = 7 \/ mp = 8 \/ mp = 9 \/ mp = 10 \/ mp = 11) by lia.
  assert (Hdoe : doe = doy + (365 * yoe + yoe / 4 - yoe / 100)) by (subst doy; lia).
  clearbody doy. clearbody yoe.
  unfold days_from_civil.
  destruct Hc as [Hc|[Hc|[Hc|[Hc|[Hc|[Hc|[Hc|[Hc|[Hc|[Hc|[Hc|Hc]]]]]]]]]]]; subst mp.
  - month_case 0.
  - month_case 1.
  - month_case 2.
  - month_case 3.
  - month_case 4.
  - month_case 5.
  - month_case 6.
  - month_case 7.
  - month_case 8.
  - month_case 9.
  - month_case 10.
  - month_case 11.
Qed.


Lemma digit_value_digit (d : Z) : 0 <= d <= 9 -> digit_value (digit d) = Some d.
Proof.
  intros H.
  assert (Hd : d = 0 \/ d = 1 \/ d = 2 \/ d = 3 \/ d = 4 \/ d = 5 \/ d = 6 \/ d = 7
               \/ d = 8 \/ d = 9) by lia.
  repeat (destruct Hd as [Hd|Hd]; [subst d; reflexivity|]). subst d; reflexivity.
Qed.

Lemma digit_is_no_sign (d : Z) :
  0 <= d <= 9 -> Ascii.eqb (digit d) "+" = false /\ Ascii.eqb (digit d) "-" = false.
Proof.
  intros H.
  assert (Hd : d = 0 \/ d = 1 \/ d = 2 \/ d = 3 \/ d = 4 \/ d = 5 \/ d = 6 \/ d = 7
               \/ d = 8 \/ d = 9) by lia.
  repeat (destruct Hd as [Hd|Hd]; [subst d; split; reflexivity|]).
  subst d; split; reflexivity.
Qed.

Lemma append_associative (a b c : string) : (a ++ b) ++ c = a ++ (b ++ c).
Proof. induction a as [|x a IH]; simpl; [reflexivity | now rewrite IH]. Qed.

Lemma pad_digits_app (width : nat) (n : Z) (acc : string) :
  pad_digits width n acc = pad_digits width n "" ++ acc.
Proof.
  revert n acc. induction width as [|w IH]; intros n acc; simpl; [reflexivity|].
  rewrite (IH (n / 10) (String (digit (n mod 10)) acc)).
  rewrite (IH (n / 10) (String (digit (n mod 10)) "")).
  now rewrite append_associative.
Qed.

Lemma read_digits_app (w1 w2 : nat) (acc : Z) (s : string) :
  read_digits (w1 + w2) acc s =
  and_read (read_digits w1 acc s) (fun '(v, rest) => read_digits w2 v rest).
Proof.
  revert acc s. induction w1 as [|w1 IH]; intros acc s; simpl; [reflexivity|].
  destruct s as [|c rest]; [reflexivity|].
  destruct (digit_value c); [apply IH | reflexivity].
Qed.

(** Reading back [width] padded digits. *)
Lemma read_digits_pad (width : nat) :
  forall (n acc : Z) (rest : string),
    0 <= n < 10 ^ Z.of_nat width ->
    read_digits width acc (pad width n ++ rest) =
    Some (acc * 10 ^ Z.of_nat width + n, rest).
Proof.
  unfold pad. induction width as [|w IH]; intros n acc rest H.
  - simpl in *. f_equal. f_equal. lia.
  - replace (S w) with (w + 1)%nat at 1 by lia.
    rewrite read_digits_app. cbn [pad_digits].
    rewrite pad_digits_app, append_associative.
    rewrite Nat2Z.inj_succ, Z.pow_succ_r in H by lia.
    rewrite IH by (Z.div_mod_to_equations; lia).
    cbn [and_read read_digits append].
    rewrite digit_value_digit by (Z.div_mod_to_equations; lia).
    f_equal. f_equal.
    rewrite Nat2Z.inj_succ, Z.pow_succ_r by lia.
    Z.div_mod_to_equations; lia.
Qed.

(** Reading back a year, in four digits or signed in six. *)
Lemma read_year_year_string (y : Z) (rest : string) :
  -999999 <= y <= 999999 ->
  read_year (year_string y ++ rest) = Some (y, rest).
Proof.
  intros H. unfold year_string.
  destruct ((0 <=? y) && (y <=? 9999)) eqn:E.
  - apply andb_true_iff in E as [E1 E2]. apply Z.leb_le in E1, E2.
    assert (R : read_digits 4 0 (pad 4 y ++ rest) = Some (y, rest)).
    { rewrite read_digits_pad by (simpl; lia). f_equal. }
    unfold pad in *. cbn [pad_digits append] in *. unfold read_year.
    destruct (digit_is_no_sign (y / 10 / 10 / 10 mod 10)) as (Hp & Hm);
      [Z.div_mod_to_equations; lia|].
    rewrite Hp, Hm. exact R.
  - destruct (y <? 0) eqn:En.
    + apply Z.ltb_lt in En. cbn [append read_year]. simpl Ascii.eqb. cbv iota.
      rewrite read_digits_pad by (simpl; lia).
      destruct (0 * 10 ^ Z.of_nat 6 + - y =? 0) eqn:Ez;
        [apply Z.eqb_eq in Ez; lia|].
      f_equal. f_equal. lia.
    + apply Z.ltb_ge in En. cbn [append read_year]. simpl Ascii.eqb. cbv iota.
      rewrite read_digits_pad by (simpl; lia). f_equal.
Qed.

Lemma DaysInMonth_period (y k m : Z) : DaysInMonth (y + k * 400) m = DaysInMonth y m.
Proof. unfold DaysInMonth. now rewrite InLeapYear_period. Qed.

Lemma days_from_civil_period (y k m d : Z) :
  days_from_civil (y + k * 400, m, d) = days_from_civil (y, m, d) + k * 146097.
Proof.
  unfold days_from_civil, days_before_month.
  rewrite DayFromYear_period.
  rewrite (map_ext (DaysInMonth (y + k * 400)) (DaysInMonth y))
    by (intro; apply DaysInMonth_period).
  lia.
Qed.

(** [civil_from_days] inverts the day number of the language specification,
    on every day, and yields a date of the calendar. *)
Lemma civil_round_trip (day : Z) :
  let '(y, m, d) := civil_from_days day in
  days_from_civil (y, m, d) = day /\
  1 <= m <= 12 /\ 1 <= d <= DaysInMonth y m /\
  400 * ((day + 719468) / 146097) <= y <= 400 * ((day + 719468) / 146097) + 400.
Proof.
  rewrite civil_from_days_era. cbv zeta.
  set (era := (day + 719468) / 146097).
  assert (Hdoe : 0 <= day + 719468 - era * 146097 <= 146096)
    by (subst era; Z.div_mod_to_equations; lia).
  pose proof (era_day_round_trip _ Hdoe) as R.
  destruct (civil_of_era_day (day + 719468 - era * 146097)) as [[y m] d].
  destruct R as (Hday & Hm & Hd & Hy).
  rewrite days_from_civil_period, DaysInMonth_period.
  repeat split; lia.
Qed.

Lemma read_pad (width : nat) (n : Z) (rest : string) :
  0 <= n < 10 ^ Z.of_nat width ->
  read_digits width 0 (pad width n ++ rest) = Some (n, rest).
Proof. intros H. rewrite read_digits_pad by exact H. f_equal. Qed.

Ltac read_on :=
  cbn [and_read append expect]; simpl Ascii.eqb; cbv iota beta; cbn [and_read]; cbv beta.

(** The string [toISOString] renders for a time value of the runtime is a
    string of the date-time format, and it denotes that time value. *)
Lemma parse_iso_string (ms : Z) :
  valid_time ms = true -> parse_iso8601 (iso_string ms) = Some ms.
Proof.
  unfold valid_time, max_time. intros Hv. apply Z.leb_le in Hv.
  unfold iso_string, msPerDay.
  pose proof (civil_round_trip (ms / 86400000)) as R.
  destruct (civil_from_days (ms / 86400000)) as [[y m] d].
  destruct R as (Hday & Hm & Hd & Hy).
  assert (Hyear : -999999 <= y <= 999999) by (Z.div_mod_to_equations; lia).
  assert (Ht : 0 <= ms mod 86400000 < 86400000) by (Z.div_mod_to_equations; lia).
  assert (Hms : ms = ms / 86400000 * 86400000 + ms mod 86400000)
    by (Z.div_mod_to_equations; lia).
  set (t := ms mod 86400000) in *. clearbody t.
  assert (Hdm : DaysInMonth y m <= 31).
  { unfold DaysInMonth.
    destruct (m =? 2); [destruct (InLeapYear y); lia|].
    destruct ((m =? 4) || (m =? 6) || (m =? 9) || (m =? 11)); lia. }
  unfold parse_iso8601.
  rewrite read_year_year_string by exact Hyear. read_on.
  rewrite read_pad by (simpl; lia). read_on.
  rewrite read_pad by (simpl; lia). read_on.
  rewrite read_pad by (simpl; Z.div_mod_to_equations; lia). read_on.
  rewrite read_pad by (simpl; Z.div_mod_to_equations; lia). read_on.
  rewrite read_pad by (simpl; Z.div_mod_to_equations; lia). read_on.
  rewrite read_pad by (simpl; Z.div_mod_to_equations; lia). read_on.
  rewrite Hday.
  assert (C : (1 <=? m) && (m <=? 12) && (1 <=? d) && (d <=? DaysInMonth y m)
              && (t / 3600000 <=? 23) && (t / 60000 mod 60 <=? 59)
              && (t / 1000 mod 60 <=? 59) = true).
  { repeat (apply andb_true_iff; split); apply Z.leb_le;
      try lia; Z.div_mod_to_equations; lia. }
  rewrite C. f_equal. unfold msPerDay. Z.div_mod_to_equations; lia.
Qed.

Lemma iso_string_examples :
  iso_string 0 = "1970-01-01T00:00:00.000Z" /\
  iso_string (-1) = "1969-12-31T23:59:59.999Z" /\
  iso_string 951782400000 = "2000-02-29T00:00:00.000Z" /\
  iso_string 1700000000000 = "2023-11-14T22:13:20.000Z" /\
  iso_string max_time = "+275760-09-13T00:00:00.000Z" /\
  iso_string (- max_time) = "-271821-04-20T00:00:00.000Z".
Proof. vm_compute. repeat split. Qed.

(** C6. For every platform commit record without a committer whose author
    timestamp is a time value of the runtime, the commit normalizer returns a
    commit whose committer equals its author: same name, same email (those of
    the record's author) and same date. That date is what
    [new Date(authorTimestamp).toISOString()] gives, and it is the ISO-8601
    rendering of the author timestamp: a string of the date-time format
    [YYYY-MM-DDTHH:mm:ss.sssZ] which, read back by the rules of the format,
    denotes exactly the record's epoch milliseconds. No error is raised. *)
Theorem absent_committer_copies_author
  (bbsCommit : GitlabCommit.t) (repoMetadata : RepoMetaData.t) (host : string) :
  GitlabCommit.committer bbsCommit = None ->
  valid_time (GitlabCommit.authorTimestamp bbsCommit) = true ->
  exists commit,
    bitBucketServerCommitToGitCommit bbsCommit repoMetadata host = inr commit /\
    GitCommit.committer commit = GitCommit.author commit /\
    GitCommitAuthor.name (GitCommit.author commit) =
      GitlabUser.name (GitlabCommit.author bbsCommit) /\
    GitCommitAuthor.email (GitCommit.author commit) =
      GitlabUser.emailAddress (GitlabCommit.author bbsCommit) /\
    toISOString (new_Date (Some (GitlabCommit.authorTimestamp bbsCommit))) =
      inr (GitCommitAuthor.date (GitCommit.author commit)) /\
    parse_iso8601 (GitCommitAuthor.date (GitCommit.author commit)) =
      Some (GitlabCommit.authorTimestamp bbsCommit) /\
    parse_iso8601 (GitCommitAuthor.date (GitCommit.committer commit)) =
      Some (GitlabCommit.authorTimestamp bbsCommit).
Proof.
  intros Hc Ht. unfold bitBucketServerCommitToGitCommit.
  rewrite Hc. unfold new_Date. rewrite Ht. simpl.
  eexists. split; [reflexivity|]. simpl.
  repeat split; now apply parse_iso_string.
Qed.

Lemma absent_committer_copies_author_witness :
  GitlabCommit.committer sample_commit = None /\
  valid_time (GitlabCommit.authorTimestamp sample_commit) = true /\
  exists commit,
    bitBucketServerCommitToGitCommit sample_commit
      (RepoMetaData.mk "group/project" "7") "https://gitlab.example" = inr commit /\
    GitCommit.committer commit = GitCommit.author commit /\
    GitCommitAuthor.date (GitCommit.author commit) = "2023-11-14T22:13:20.000Z" /\
    parse_iso8601 (GitCommitAuthor.date (GitCommit.author commit)) = Some 1700000000000.
Proof.
  split; [reflexivity|]. split; [reflexivity|].
  destruct (absent_committer_copies_author sample_commit
              (RepoMetaData.mk "group/project" "7") "https://gitlab.example"
              eq_refl eq_refl)
    as (commit & R & Hc & _ & _ & Hiso & Hparse & _).
  exists commit. split; [exact R|]. split; [exact Hc|]. split; [|exact Hparse].
  assert (E : toISOString (new_Date (Some (GitlabCommit.authorTimestamp sample_commit)))
              = inr "2023-11-14T22:13:20.000Z") by reflexivity.
  rewrite E in Hiso. injection Hiso as Hdate. symmetry. exact Hdate.
Defined.

(** The reader is not the inverse of [iso_string] by construction: it
    refuses strings that are not of the format or name no date. *)
Lemma parse_iso8601_examples :
  parse_iso8601 "2023-11-14T22:13:20.000Z" = Some 1700000000000 /\
  parse_iso8601 "1970-01-01T00:00:00.000Z" = Some 0 /\
  parse_iso8601 "+275760-09-13T00:00:00.000Z" = Some max_time /\
  parse_iso8601 "-000001-12-31T23:59:59.999Z" = Some (-62167219200001) /\
  parse_iso8601 "2023-02-29T00:00:00.000Z" = None /\
  parse_iso8601 "2023-11-14T22:13:20Z" = None /\
  parse_iso8601 "2023-11-14 22:13:20.000Z" = None /\
  parse_iso8601 "-000000-01-01T00:00:00.000Z" = None.
Proof. vm_compute. repeat split. Qed.

(** Outside the runtime's range of time values the normalizer raises. *)
Lemma invalid_timestamp_raises :
  bitBucketServerCommitToGitCommit
    {| GitlabCommit.id := "9fceb02";
       GitlabCommit.parents := [];
       GitlabCommit.author := GitlabUser.mk "Ada" "ada@example.org";
       GitlabCommit.authorTimestamp := max_time + 1;
       GitlabCommit.committer := None;
       GitlabCommit.committerTimestamp := None;
       GitlabCommit.message := "" |}
    (RepoMetaData.mk "group/project" "7") "https://gitlab.example" =
  inl (RangeError "Invalid time value").
Proof. reflexivity. Qed.

(** ** The API client: proofs *)

Section ClientProofs.
Context `{P : Platform}.

(** [get] logs one line, calls [fetch] once on the request it built, and
    hands back what [fetch] gave. *)
Lemma get_unfold (path : string) (suppressErrors : option bool) (this : GitlabAPI) :
  get path None suppressErrors this =
  let '(r, w) := fetch (get_request this path) suppressErrors (world this) in
  (match r with inl e => Thrown e | inr res => Returned res end,
   after_request this (get_line this path) w).
Proof.
  unfold get, api, mbind, d, call_fetch, get_request, get_line, after_request.
  simpl. destruct (fetch _ suppressErrors (world this)) as [[e|res] w]; reflexivity.
Qed.

Lemma get_returns (path : string) (suppressErrors : option bool) (this : GitlabAPI)
  (res : Response.t JSON) (w : World) :
  fetch (get_request this path) suppressErrors (world this) = (inr res, w) ->
  get path None suppressErrors this =
  (Returned res, after_request this (get_line this path) w).
Proof. intros H. rewrite get_unfold, H. reflexivity. Qed.

(** Every call of [get] is one request, and leaves the cached PR alone. *)
Lemma get_one_request (path : string) (suppressErrors : option bool) (this : GitlabAPI) :
  requests (snd (get path None suppressErrors this)) = S (requests this) /\
  pr (snd (get path None suppressErrors this)) = pr this.
Proof.
  rewrite get_unfold.
  destruct (fetch _ suppressErrors (world this)) as [r w]. simpl.
  unfold requests. simpl. rewrite length_app. simpl. split; [lia | reflexivity].
Qed.

Lemma throwIfNotOk_ok {J : Type} (res : Response.t J) :
  Response.ok res = true -> throwIfNotOk res = inr tt.
Proof. unfold throwIfNotOk. intros ->. reflexivity. Qed.

(** The loop follows the pages served, from any cursor and accumulator. *)
Lemma loop_follows_pages (cursor : Z) (pages : list GitlabChanges.t)
  (this this' : GitlabAPI) :
  pages_served cursor pages this this' ->
  forall (fuel : nat) (values : list GitlabChangesValue.t),
    (List.length pages <= fuel)%nat ->
    getPullRequestChanges_loop fuel cursor values this =
    (Returned (values ++ List.concat (map GitlabChanges.values pages))%list, this').
Proof.
  induction 1 as [cursor page this res j w Hf Hok Hj Hp Hn
                 |cursor next page pages this this' res j w Hf Hok Hj Hp Hn Hs IH];
    intros fuel values Hfuel; (destruct fuel as [|fuel]; simpl in Hfuel; [lia|]);
    cbn [getPullRequestChanges_loop]; unfold mbind;
    fold (changes_path this cursor);
    rewrite (get_returns _ _ _ _ _ Hf); unfold lift;
    rewrite (throwIfNotOk_ok res Hok), Hj, Hp, Hn.
  - unfold mret. simpl. now rewrite app_nil_r.
  - rewrite IH by lia. simpl. now rewrite app_assoc.
Qed.

(** With less fuel than pages the loop is still running. *)
Lemma loop_needs_every_page (cursor : Z) (pages : list GitlabChanges.t)
  (this this' : GitlabAPI) :
  pages_served cursor pages this this' ->
  forall (fuel : nat) (values : list GitlabChangesValue.t),
    (fuel < List.length pages)%nat ->
    fst (getPullRequestChanges_loop fuel cursor values this) = OutOfFuel.
Proof.
  induction 1 as [cursor page this res j w Hf Hok Hj Hp Hn
                 |cursor next page pages this this' res j w Hf Hok Hj Hp Hn Hs IH];
    intros fuel values Hfuel; (destruct fuel as [|fuel]; [reflexivity|]);
    simpl in Hfuel; [lia|].
  cbn [getPullRequestChanges_loop]; unfold mbind;
    fold (changes_path this cursor);
    rewrite (get_returns _ _ _ _ _ Hf); unfold lift;
    rewrite (throwIfNotOk_ok res Hok), Hj, Hp, Hn.
  apply IH. lia.
Qed.

(** The requests logged while the pages are served. *)
Lemma pages_served_log (cursor : Z) (pages : list GitlabChanges.t)
  (this this' : GitlabAPI) :
  pages_served cursor pages this this' ->
  debug_log this' =
    (debug_log this
       ++ map (fun c => get_line this (changes_path this c)) (cursors cursor pages))%list /\
  List.length (cursors cursor pages) = List.length pages /\
  pr this' = pr this.
Proof.
  induction 1 as [cursor page this res j w Hf Hok Hj Hp Hn
                 |cursor next page pages this this' res j w Hf Hok Hj Hp Hn Hs IH].
  - simpl. rewrite Hn. simpl. repeat split.
  - destruct IH as (IHlog & IHlen & IHpr).
    simpl. rewrite Hn. simpl. rewrite IHlog, IHlen. simpl.
    rewrite <- app_assoc. simpl. repeat split. exact IHpr.
Qed.

End ClientProofs.

Lemma append_empty_r (s : string) : s ++ "" = s.
Proof. induction s as [|a s IH]; simpl; [reflexivity | now rewrite IH]. Qed.

Section ClientTheorems.
Context `{P : Platform}.

(** C4. For every sequence of successful pages served from cursor 0 (each
    page but the last giving the next cursor, the last giving null),
    [getPullRequestChanges] returns the concatenation of the pages' values in
    page order, nothing removed and nothing reordered; it requests exactly
    the cursors 0, then each page's [nextPageStart], one request per page;
    and it does not stop before the page whose [nextPageStart] is null (with
    a budget of fewer iterations than pages the loop is still running). *)
Theorem getPullRequestChanges_concatenates_pages
  (pages : list GitlabChanges.t) (this this' : GitlabAPI) :
  pages_served 0 pages this this' ->
  (forall fuel, (List.length pages <= fuel)%nat ->
     getPullRequestChanges fuel this =
     (Returned (List.concat (map GitlabChanges.values pages)), this')) /\
  (forall fuel, (fuel < List.length pages)%nat ->
     fst (getPullRequestChanges fuel this) = OutOfFuel) /\
  debug_log this' =
    (debug_log this
       ++ map (fun c => get_line this (changes_path this c)) (cursors 0 pages))%list /\
  requests this' = (requests this + List.length pages)%nat.
Proof.
  intros H. unfold getPullRequestChanges.
  destruct (pages_served_log _ _ _ _ H) as (Hlog & Hlen & _).
  repeat split.
  - intros fuel Hfuel. now rewrite (loop_follows_pages _ _ _ _ H fuel [] Hfuel).
  - intros fuel Hfuel. now apply (loop_needs_every_page _ _ _ _ H).
  - exact Hlog.
  - unfold requests. rewrite Hlog, length_app, length_map, Hlen. reflexivity.
Qed.

Lemma getPullRequestInfo_returned (this this' : GitlabAPI) (prDSL : GitlabPRDSL) :
  getPullRequestInfo this = (Returned prDSL, this') ->
  pr this' = Some prDSL /\ (requests this' <= S (requests this))%nat.
Proof.
  unfold getPullRequestInfo.
  destruct (pr this) as [cached|] eqn:Hpr.
  - intros [= <- <-]. split; [exact Hpr | lia].
  - unfold mbind. rewrite get_unfold.
    destruct (fetch _ None (world this)) as [[e|res] w]; [discriminate|].
    unfold lift. destruct (throwIfNotOk res) as [e|[]]; [discriminate|].
    destruct (Response.json res) as [e|j]; [discriminate|].
    unfold set_pr, mret. simpl. intros [= <- <-]. simpl.
    split; [reflexivity|]. unfold requests. simpl. rewrite length_app. simpl. lia.
Qed.

Lemma getPullRequestInfo_cached (this : GitlabAPI) (cached : GitlabPRDSL) :
  pr this = Some cached -> getPullRequestInfo this = (Returned cached, this).
Proof. unfold getPullRequestInfo. intros ->. reflexivity. Qed.

(** C9. [getFileContents] issues one request. If the response has status
    404, it returns the empty string and raises nothing; if the response has
    another status outside 200-299, it raises an error whose message is the
    status, " - " and the status text (followed by the credentials hint for a
    4xx status); if the response is a success, it returns the body text. *)
Theorem getFileContents_outcomes
  (filePath : string) (repoSlug refspec : option string) (this : GitlabAPI)
  (res : Response.t JSON) (w : World) :
  fetch (get_request this (file_path filePath repoSlug refspec)) (Some true)
        (world this) = (inr res, w) ->
  (Response.status res = 404 ->
   getFileContents filePath repoSlug refspec this =
   (Returned "",
    after_request this (get_line this (file_path filePath repoSlug refspec)) w)) /\
  (Response.status res <> 404 -> Response.ok res = false ->
   getFileContents filePath repoSlug refspec this =
   (Thrown (Error
      ((string_of_Z (Response.status res) ++ " - " ++ Response.statusText res)
         ++ (if (400 <=? Response.status res) && (Response.status res <? 500)
             then " (Have you set DANGER_GITLAB_USERNAME and DANGER_GITLAB_PASSWORD or DANGER_GITLAB_TOKEN?)"
             else ""))),
    after_request this (get_line this (file_path filePath repoSlug refspec)) w)) /\
  (Response.ok res = true ->
   getFileContents filePath repoSlug refspec this =
   (Returned (Response.text res),
    after_request this (get_line this (file_path filePath repoSlug refspec)) w)).
Proof.
  intros Hf. unfold getFileContents. fold (file_path filePath repoSlug refspec).
  unfold mbind. rewrite (get_returns _ _ _ _ _ Hf).
  repeat split.
  - intros ->. reflexivity.
  - intros Hne Hok. apply Z.eqb_neq in Hne. rewrite Hne.
    unfold lift, throwIfNotOk. rewrite Hok. simpl.
    destruct ((400 <=? Response.status res) && (Response.status res <? 500)).
    + reflexivity.
    + now rewrite append_empty_r.
  - intros Hok.
    assert (Hne : (Response.status res =? 404) = false).
    { unfold Response.ok in Hok. apply andb_true_iff in Hok as [_ Hlt].
      apply Z.ltb_lt in Hlt. apply Z.eqb_neq. lia. }
    rewrite Hne. unfold lift. rewrite (throwIfNotOk_ok res Hok). reflexivity.
Qed.

End ClientTheorems.

(** ** The cached PR over the calls made on an instance *)

Section LifetimeProofs.
Context `{P : Platform} `{C : @Collaborators P}.

Lemma keeps_at {A : Type} (m : M A) (this : GitlabAPI) :
  keeps_pr m -> pr (snd (m this)) = pr this.
Proof. intros H. apply H. Qed.

Lemma keeps_mret {A : Type} (a : A) : keeps_pr (mret a).
Proof. intro this. reflexivity. Qed.

Lemma keeps_lift {A : Type} (r : result A) : keeps_pr (lift r).
Proof. intro this. unfold lift. destruct r; reflexivity. Qed.

Lemma keeps_mbind {A B : Type} (m : M A) (k : A -> M B) :
  keeps_pr m -> (forall a, keeps_pr (k a)) -> keeps_pr (mbind m k).
Proof.
  intros Hm Hk this. unfold mbind. specialize (Hm this).
  destruct (m this) as [[a|e|] this1]; simpl in *;
    [rewrite (Hk a this1)|..]; exact Hm.
Qed.

(** Every request of the client goes through [api], which does not touch the
    cached PR. *)
Lemma keeps_api (path : string) (headers : option object) (body : option string)
  (method : string) (suppressErrors : option bool) :
  keeps_pr (api path headers body method suppressErrors).
Proof.
  intro this. unfold api, mbind, d, call_fetch. simpl.
  destruct (fetch _ suppressErrors (world this)) as [[e|res] w]; reflexivity.
Qed.

Lemma keeps_get (path : string) (headers : option object)
  (suppressErrors : option bool) : keeps_pr (get path headers suppressErrors).
Proof. apply keeps_api. Qed.

Lemma keeps_loop (fuel : nat) :
  forall (cursor : Z) (values : list GitlabChangesValue.t),
    keeps_pr (getPullRequestChanges_loop fuel cursor values).
Proof.
  induction fuel as [|fuel IH]; intros cursor values this; [reflexivity|].
  cbn [getPullRequestChanges_loop]. apply keeps_at.
  apply keeps_mbind; [apply keeps_get|]. intro res.
  apply keeps_mbind; [apply keeps_lift|]. intros _.
  apply keeps_mbind; [apply keeps_lift|]. intro j.
  destruct (GitlabChanges.nextPageStart (asGitlabChanges j)); [apply IH | apply keeps_mret].
Qed.

(** The steps the methods are made of. *)
Ltac keeps :=
  repeat first
    [ apply keeps_mret
    | apply keeps_lift
    | apply keeps_api
    | apply keeps_get
    | apply keeps_loop
    | apply keeps_mbind
    | match goal with
      | |- keeps_pr (if ?b then _ else _) => destruct b
      | |- forall _, keeps_pr _ => intro
      end ].

Lemma keeps_getPullRequestChanges (fuel : nat) : keeps_pr (getPullRequestChanges fuel).
Proof. unfold getPullRequestChanges. apply keeps_loop. Qed.

Lemma keeps_getFileContents (filePath : string) (repoSlug refspec : option string) :
  keeps_pr (getFileContents filePath repoSlug refspec).
Proof. unfold getFileContents. keeps. Qed.

Lemma keeps_getPullRequestCommits : keeps_pr getPullRequestCommits.
Proof. intro this. unfold getPullRequestCommits. apply keeps_at. keeps. Qed.

Lemma keeps_getStructuredDiffForFile (base head filename : string) :
  keeps_pr (getStructuredDiffForFile base head filename).
Proof. intro this. unfold getStructuredDiffForFile. apply keeps_at. keeps. Qed.

Lemma keeps_getPullRequestComments : keeps_pr getPullRequestComments.
Proof. intro this. unfold getPullRequestComments. apply keeps_at. keeps. Qed.

Lemma keeps_getPullRequestActivities : keeps_pr getPullRequestActivities.
Proof. intro this. unfold getPullRequestActivities. apply keeps_at. keeps. Qed.

Lemma keeps_getIssues : keeps_pr getIssues.
Proof. intro this. unfold getIssues. apply keeps_at. keeps. Qed.

Lemma keeps_getDangerComments (dangerID : string) : keeps_pr (getDangerComments dangerID).
Proof.
  intro this. unfold getDangerComments. apply keeps_at.
  apply keeps_mbind; [apply keeps_getPullRequestComments | intro; apply keeps_mret].
Qed.

Lemma keeps_getDangerInlineComments (dangerID : string) :
  keeps_pr (getDangerInlineComments dangerID).
Proof.
  intro this. unfold getDangerInlineComments. apply keeps_at.
  apply keeps_mbind; [apply keeps_getPullRequestComments | intro; apply keeps_mret].
Qed.

Lemma keeps_postBuildStatus (commitId state key name url description : string) :
  keeps_pr (postBuildStatus commitId state key name url description).
Proof. unfold postBuildStatus, post. keeps. Qed.

Lemma keeps_postPRComment (comment : string) : keeps_pr (postPRComment comment).
Proof. intro this. unfold postPRComment, post. apply keeps_at. keeps. Qed.

Lemma keeps_postInlinePRComment (comment : string) (line : Z) (type filePath : string) :
  keeps_pr (postInlinePRComment comment line type filePath).
Proof. intro this. unfold postInlinePRComment, post. apply keeps_at. keeps. Qed.

Lemma keeps_deleteComment (c : GitlabPRComment.t) : keeps_pr (deleteComment c).
Proof. intro this. unfold deleteComment, delete. apply keeps_at. keeps. Qed.

Lemma keeps_updateComment (c : GitlabPRComment.t) (comment : string) :
  keeps_pr (updateComment c comment).
Proof. intro this. unfold updateComment, put. apply keeps_at. keeps. Qed.

Lemma keeps_gitDSLForGitlab (fuel : nat) : keeps_pr (gitDSLForGitlab fuel).
Proof.
  unfold gitDSLForGitlab.
  apply keeps_mbind; [apply keeps_getPullRequestChanges|]. intro changes.
  apply keeps_mbind; [apply keeps_getPullRequestCommits|]. intro gitCommits.
  intro api. apply keeps_at. keeps.
Qed.

Lemma keeps_config_getStructuredDiffForFile (base head filename : string) :
  keeps_pr (config_getStructuredDiffForFile base head filename).
Proof.
  unfold config_getStructuredDiffForFile.
  apply keeps_mbind; [apply keeps_getStructuredDiffForFile | intro; apply keeps_mret].
Qed.

(** No call of a method other than [getPullRequestInfo] writes [pr]. *)
Lemma perform_keeps_pr (c : method_call) (this : GitlabAPI) :
  is_getPullRequestInfo c = false -> pr (perform c this) = pr this.
Proof.
  destruct c; simpl; intros Hc; try discriminate.
  - apply keeps_getPullRequestCommits.
  - apply keeps_getStructuredDiffForFile.
  - apply keeps_getPullRequestChanges.
  - apply keeps_getPullRequestComments.
  - apply keeps_getPullRequestActivities.
  - apply keeps_getIssues.
  - apply keeps_getDangerComments.
  - apply keeps_getDangerInlineComments.
  - apply keeps_getFileContents.
  - apply keeps_postBuildStatus.
  - apply keeps_postPRComment.
  - apply keeps_postInlinePRComment.
  - apply keeps_deleteComment.
  - apply keeps_updateComment.
  - apply keeps_gitDSLForGitlab.
  - apply keeps_config_getStructuredDiffForFile.
Qed.

(** No awaited call of any method changes a cached PR. *)
Lemma perform_keeps_cached (c : method_call) (this : GitlabAPI) (cached : GitlabPRDSL) :
  pr this = Some cached -> pr (perform c this) = Some cached.
Proof.
  intros Hpr. destruct (is_getPullRequestInfo c) eqn:Hc.
  - destruct c; try discriminate. simpl.
    now rewrite (getPullRequestInfo_cached this cached Hpr).
  - now rewrite (perform_keeps_pr c this Hc).
Qed.

Lemma run_keeps_cached (calls : list method_call) :
  forall (this : GitlabAPI) (cached : GitlabPRDSL),
    pr this = Some cached -> pr (run calls this) = Some cached.
Proof.
  unfold run. induction calls as [|c calls IH]; intros this cached Hpr; simpl.
  - exact Hpr.
  - apply IH. now apply perform_keeps_cached.
Qed.

Lemma no_fetch_once_cached (calls : list method_call) :
  forall (this : GitlabAPI) (cached : GitlabPRDSL),
    pr this = Some cached -> successful_pr_fetches calls this = 0%nat.
Proof.
  induction calls as [|c calls IH]; intros this cached Hpr; simpl; [reflexivity|].
  rewrite Hpr. rewrite (IH _ cached (perform_keeps_cached c this cached Hpr)).
  destruct (is_getPullRequestInfo c); reflexivity.
Qed.

Lemma at_most_one_successful_fetch (calls : list method_call) :
  forall this : GitlabAPI, (successful_pr_fetches calls this <= 1)%nat.
Proof.
  induction calls as [|c calls IH]; intros this; simpl; [lia|].
  destruct (is_getPullRequestInfo c) eqn:Hc; [|apply IH].
  destruct (pr this) as [cached|] eqn:Hpr; [apply IH|].
  destruct (fst (getPullRequestInfo this)) as [prDSL| |] eqn:Ho; try apply IH.
  destruct c; try discriminate. simpl.
  destruct (getPullRequestInfo this) as [o this'] eqn:Hrun. simpl in Ho. subst o.
  destruct (getPullRequestInfo_returned this this' prDSL Hrun) as [Hcached _].
  simpl. rewrite (no_fetch_once_cached calls this' prDSL Hcached). lia.
Qed.

(** The two phases, run without anything in between, are the method. *)
Lemma getPullRequestInfo_phases (this : GitlabAPI) :
  getPullRequestInfo this =
  mbind getPullRequestInfo_begin getPullRequestInfo_resume this.
Proof.
  unfold getPullRequestInfo, getPullRequestInfo_begin, mbind.
  destruct (pr this) as [cached|]; [reflexivity|].
  destruct (get (getPRBasePath this) None None this) as [[res|e|] this1]; reflexivity.
Qed.

(** C8, amended. For the calls made on an instance one after another, each
    awaited before the next is made: a call of [getPullRequestInfo] on an
    instance whose [pr] is unset performs the fetch and, when the fetch
    succeeds, stores the deserialized PR in [pr]; a call on an instance whose
    [pr] is set returns the stored value and leaves the instance as it is (no
    request); no call of another method, and no request ([api], through which
    get, post, put and delete all go), writes [pr]. Hence, once a call has
    returned, after any further calls of any methods the stored value is
    still the same and a call returns it without a request, and among any
    calls made in sequence at most one fetches the PR and returns it. *)
Theorem getPullRequestInfo_memoizes_success :
  (forall (this : GitlabAPI) (res : Response.t JSON) (j : JSON) (w : World),
     pr this = None ->
     fetch (get_request this (getPRBasePath this)) None (world this) = (inr res, w) ->
     Response.ok res = true ->
     Response.json res = inr j ->
     getPullRequestInfo this =
     (Returned (asGitlabPRDSL j),
      with_pr (after_request this (get_line this (getPRBasePath this)) w)
              (asGitlabPRDSL j))) /\
  (forall (this : GitlabAPI) (cached : GitlabPRDSL),
     pr this = Some cached -> getPullRequestInfo this = (Returned cached, this)) /\
  (forall (this this' : GitlabAPI) (prDSL : GitlabPRDSL) (n : nat),
     getPullRequestInfo this = (Returned prDSL, this') ->
     pr this' = Some prDSL /\
     (requests this' <= S (requests this))%nat /\
     calls n getPullRequestInfo this' = (repeat (Returned prDSL) n, this')) /\
  (forall (path : string) (headers : option object) (body : option string)
          (method : string) (suppressErrors : option bool) (this : GitlabAPI),
     pr (snd (api path headers body method suppressErrors this)) = pr this) /\
  (forall (c : method_call) (this : GitlabAPI),
     is_getPullRequestInfo c = false -> pr (perform c this) = pr this) /\
  (forall (this this' : GitlabAPI) (prDSL : GitlabPRDSL) (later : list method_call),
     getPullRequestInfo this = (Returned prDSL, this') ->
     pr (run later this') = Some prDSL /\
     getPullRequestInfo (run later this') = (Returned prDSL, run later this')) /\
  (forall (sequence : list method_call) (this : GitlabAPI),
     (successful_pr_fetches sequence this <= 1)%nat).
Proof.
  split; [|split; [|split; [|split; [|split; [|split]]]]].
  - intros this res j w Hpr Hf Hok Hj. unfold getPullRequestInfo.
    rewrite Hpr. unfold mbind. rewrite (get_returns _ _ _ _ _ Hf).
    unfold lift. rewrite (throwIfNotOk_ok res Hok), Hj. reflexivity.
  - exact getPullRequestInfo_cached.
  - intros this this' prDSL n H.
    destruct (getPullRequestInfo_returned this this' prDSL H) as [Hpr Hreq].
    split; [exact Hpr|]. split; [exact Hreq|].
    induction n as [|n IH]; simpl; [reflexivity|].
    now rewrite (getPullRequestInfo_cached this' prDSL Hpr), IH.
  - intros. apply keeps_api.
  - exact perform_keeps_pr.
  - intros this this' prDSL later H.
    destruct (getPullRequestInfo_returned this this' prDSL H) as [Hpr _].
    pose proof (run_keeps_cached later this' prDSL Hpr) as Hlater.
    split; [exact Hlater|]. now apply getPullRequestInfo_cached.
  - exact at_most_one_successful_fetch.
Qed.

End LifetimeProofs.

(** ** Concrete runs on the scripted platform *)

Lemma two_pages_served :
  @pages_served scripted 0 two_pages paging_client paging_client_done.
Proof.
  refine (@served_next scripted 0 1 (GitlabChanges.mk [change_a; change_b] (Some 1))
            [GitlabChanges.mk [change_c] None] paging_client paging_client_done
            (Response.mk 200 "OK" "" (inr (JChanges (GitlabChanges.mk [change_a; change_b] (Some 1)))))
            (JChanges (GitlabChanges.mk [change_a; change_b] (Some 1)))
            [json_response (JChanges (GitlabChanges.mk [change_c] None))]
            eq_refl eq_refl eq_refl eq_refl eq_refl _).
  exact (@served_last scripted 1 (GitlabChanges.mk [change_c] None)
           paging_client_after_first
           (Response.mk 200 "OK" "" (inr (JChanges (GitlabChanges.mk [change_c] None))))
           (JChanges (GitlabChanges.mk [change_c] None)) []
           eq_refl eq_refl eq_refl eq_refl eq_refl).
Defined.

Lemma getPullRequestChanges_concatenates_pages_witness :
  @pages_served scripted 0 two_pages paging_client paging_client_done /\
  @getPullRequestChanges scripted 2 paging_client =
    (Returned [change_a; change_b; change_c], paging_client_done) /\
  fst (@getPullRequestChanges scripted 1 paging_client) = OutOfFuel /\
  debug_log paging_client_done = [changes_line "0"; changes_line "1"] /\
  requests paging_client_done = 2%nat.
Proof.
  split; [exact two_pages_served|].
  destruct (@getPullRequestChanges_concatenates_pages scripted two_pages
              paging_client paging_client_done two_pages_served)
    as (Hret & Hrun & Hlog & Hreq).
  split; [exact (Hret 2%nat (le_n 2))|].
  split; [exact (Hrun 1%nat (le_n 2))|].
  split; [exact Hlog | exact Hreq].
Defined.

(** C8, as the specification states it, fails: when the first fetch of the PR
    is answered 503, the first call raises and stores nothing, and the second
    call on the same instance fetches again: two PR fetches on one instance.
    *)
Lemma failed_pr_fetch_is_repeated :
  exists this',
    @calls scripted _ 2 (@getPullRequestInfo scripted) flaky_client =
      ([Thrown (Error "503 - Service Unavailable"); Returned "Add Gitlab"], this') /\
    debug_log this' = [pr_line; pr_line] /\
    requests this' = 2%nat /\
    ~ (requests this' <= 1)%nat.
Proof.
  eexists. split; [vm_compute; reflexivity|]. simpl.
  repeat split. unfold requests. simpl. lia.
Qed.

Lemma getPullRequestInfo_memoizes_success_witness :
  @getPullRequestInfo scripted pr_client = (Returned "Add Gitlab", pr_client_fetched) /\
  @getPullRequestInfo scripted pr_client_fetched =
    (Returned "Add Gitlab", pr_client_fetched) /\
  @calls scripted _ 3 (@getPullRequestInfo scripted) pr_client_fetched =
    ([Returned "Add Gitlab"; Returned "Add Gitlab"; Returned "Add Gitlab"],
     pr_client_fetched) /\
  requests pr_client_fetched = 1%nat /\
  pr (@run scripted scripted_collaborators later_calls pr_client_fetched) =
    Some "Add Gitlab" /\
  fst (@getPullRequestInfo scripted
         (@run scripted scripted_collaborators later_calls pr_client_fetched)) =
    Returned "Add Gitlab" /\
  (@successful_pr_fetches scripted scripted_collaborators
     (Call_getPullRequestInfo :: later_calls ++ [Call_getPullRequestInfo]) pr_client
   <= 1)%nat.
Proof.
  destruct (@getPullRequestInfo_memoizes_success scripted scripted_collaborators)
    as (Hfirst & Hcached & Hlater & _ & _ & Hrun & Hcount).
  pose proof (Hfirst pr_client
                (Response.mk 200 "OK" "" (inr (JPR "Add Gitlab"))) (JPR "Add Gitlab") []
                eq_refl eq_refl eq_refl eq_refl) as H1.
  destruct (Hrun pr_client pr_client_fetched "Add Gitlab" later_calls H1)
    as (Hkept & Hagain).
  split; [exact H1|].
  split; [exact (Hcached pr_client_fetched "Add Gitlab" eq_refl)|].
  split; [exact (proj2 (proj2 (Hlater pr_client pr_client_fetched "Add Gitlab" 3%nat H1)))|].
  split; [reflexivity|].
  split; [exact Hkept|].
  split; [now rewrite Hagain|].
  apply Hcount.
Defined.

(** Calls that overlap are another matter: when a second call is made before
    the first is resumed, both find [pr] unset and both fetch, and the second
    assignment replaces the value the first one stored. *)
Lemma overlapping_calls_both_fetch :
  exists this',
    @overlapping_getPullRequestInfo scripted twice_answered_client =
      (Returned "first answer", Returned "second answer", Some "first answer", this') /\
    pr this' = Some "second answer" /\
    debug_log this' = [pr_line; pr_line] /\
    world this' = [].
Proof. eexists. split; [vm_compute; reflexivity|]. repeat split. Qed.

Lemma getFileContents_outcomes_witness :
  @getFileContents scripted "README.md" (Some "group%2Fproject") (Some "master")
    (file_client 404 "Not Found" "missing") =
    (Returned "", @after_request scripted (file_client 404 "Not Found" "missing") file_line []) /\
  @getFileContents scripted "README.md" (Some "group%2Fproject") (Some "master")
    (file_client 500 "Internal Server Error" "") =
    (Thrown (Error "500 - Internal Server Error"),
     @after_request scripted (file_client 500 "Internal Server Error" "") file_line []) /\
  @getFileContents scripted "README.md" (Some "group%2Fproject") (Some "master")
    (file_client 200 "OK" "# danger") =
    (Returned "# danger", @after_request scripted (file_client 200 "OK" "# danger") file_line []).
Proof.
  split; [|split].
  - exact (proj1 (@getFileContents_outcomes scripted "README.md"
                    (Some "group%2Fproject") (Some "master")
                    (file_client 404 "Not Found" "missing")
                    (Response.mk 404 "Not Found" "missing"
                       (inl (Error "invalid json response body"))) [] eq_refl)
                 eq_refl).
  - refine (proj1 (proj2 (@getFileContents_outcomes scripted "README.md"
                    (Some "group%2Fproject") (Some "master")
                    (file_client 500 "Internal Server Error" "")
                    (Response.mk 500 "Internal Server Error" ""
                       (inl (Error "invalid json response body"))) [] eq_refl))
                 _ eq_refl).
    simpl. discriminate.
  - exact (proj2 (proj2 (@getFileContents_outcomes scripted "README.md"
                    (Some "group%2Fproject") (Some "master")
                    (file_client 200 "OK" "# danger")
                    (Response.mk 200 "OK" "# danger"
                       (inl (Error "invalid json response body"))) [] eq_refl))
                 eq_refl).
Defined.

(** * Further properties *)

(** ** The change-list normalizer *)

Lemma created_by_filter (l : list GitlabChangesValue.t) :
  flat_map created_by l = map path_string (filter creates l).
Proof.
  induction l as [|v l IH]; simpl; [reflexivity|].
  unfold created_by at 1, creates at 1.
  destruct (is_type "ADD" v || is_type "MOVE" v); simpl; now rewrite IH.
Qed.

Lemma modified_by_filter (l : list GitlabChangesValue.t) :
  flat_map modified_by l = paths_of "MODIFY" l.
Proof.
  unfold paths_of. induction l as [|v l IH]; simpl; [reflexivity|].
  unfold modified_by at 1.
  destruct (is_type "MODIFY" v); simpl; now rewrite IH.
Qed.

(** X1. On a sequence of handled records the normalizer returns the change
    set whose [created_files] are the paths of the ADD and MOVE records,
    whose [modified_files] are the paths of the MODIFY records and whose
    [deleted_files] are the paths of the DELETE records and the source paths
    of the MOVE records, each in arrival order, with the commits it was
    given. *)
Theorem changes_closed_form
  (changes : list GitlabChangesValue.t) (commits : list GitCommit.t) :
  forallb handled changes = true ->
  bitBucketServerChangesToGitJSONDSL changes commits =
  inr {| GitJSONDSL.modified_files := paths_of "MODIFY" changes;
         GitJSONDSL.created_files := map path_string (filter creates changes);
         GitJSONDSL.deleted_files := flat_map deleted_by changes;
         GitJSONDSL.commits := commits |}.
Proof.
  intros H. unfold bitBucketServerChangesToGitJSONDSL.
  rewrite (reduce_changes_handled changes _ H). simpl.
  now rewrite created_by_filter, modified_by_filter.
Qed.

Lemma changes_closed_form_witness :
  forallb handled (sample_changes ++ sample_move :: sample_changes) = true /\
  bitBucketServerChangesToGitJSONDSL (sample_changes ++ sample_move :: sample_changes) [] =
  inr {| GitJSONDSL.modified_files := ["b.ts"; "b.ts"];
         GitJSONDSL.created_files := ["a.ts"; "d.ts"; "new.ts"; "a.ts"; "d.ts"];
         GitJSONDSL.deleted_files := ["c.ts"; "old.ts"; "c.ts"];
         GitJSONDSL.commits := [] |}.
Proof.
  split; [reflexivity|].
  exact (changes_closed_form (sample_changes ++ sample_move :: sample_changes) [] eq_refl).
Defined.

(** X2. A MOVE record without [srcPath] that comes after handled records
    makes the normalizer raise a [TypeError] (the read of [toString] on
    [undefined]), not the "Unhandled change type" error; no change set is
    returned, whatever records follow. *)
Theorem move_without_source_raises
  (pre post : list GitlabChangesValue.t) (v : GitlabChangesValue.t)
  (commits : list GitCommit.t) :
  forallb handled pre = true ->
  is_type "MOVE" v = true ->
  GitlabChangesValue.srcPath v = None ->
  exists message,
    bitBucketServerChangesToGitJSONDSL (pre ++ v :: post) commits =
    inl (TypeError message).
Proof.
  intros Hpre Hm Hs. unfold bitBucketServerChangesToGitJSONDSL.
  rewrite reduce_app, (reduce_changes_handled pre _ Hpre). simpl.
  unfold changes_step, srcPath_toString, is_type in *.
  destruct v as [ty p sp]; simpl in *. subst sp.
  apply String.eqb_eq in Hm. subst ty. simpl.
  eexists; reflexivity.
Qed.

Lemma move_without_source_raises_witness :
  forallb handled sample_changes = true /\
  is_type "MOVE" sample_move_without_source = true /\
  GitlabChangesValue.srcPath sample_move_without_source = None /\
  exists message,
    bitBucketServerChangesToGitJSONDSL
      (sample_changes ++ sample_move_without_source :: sample_changes) [] =
    inl (TypeError message).
Proof.
  repeat split; try reflexivity.
  exact (move_without_source_raises sample_changes sample_changes
           sample_move_without_source [] eq_refl eq_refl eq_refl).
Defined.

(** X3. The normalizer returns a change set exactly when every record is
    handled (a known tag, and a source path on every MOVE); otherwise it
    raises. *)
Theorem normalizer_returns_exactly_on_handled
  (changes : list GitlabChangesValue.t) (commits : list GitCommit.t) :
  ((exists git, bitBucketServerChangesToGitJSONDSL changes commits = inr git)
   <-> forallb handled changes = true) /\
  ((exists e, bitBucketServerChangesToGitJSONDSL changes commits = inl e)
   <-> existsb (fun v => negb (handled v)) changes = true).
Proof.
  assert (E : existsb (fun v => negb (handled v)) changes
              = negb (forallb handled changes)).
  { induction changes as [|v l IH]; simpl; [reflexivity|].
    now rewrite negb_andb, IH. }
  pose proof (normalization_returns_iff changes commits) as R.
  split; [exact R|].
  rewrite E. destruct (forallb handled changes) eqn:Hall; simpl.
  - destruct (proj2 R eq_refl) as [git Hgit]. rewrite Hgit.
    split; [intros [e He]; discriminate | discriminate].
  - destruct (bitBucketServerChangesToGitJSONDSL changes commits) as [e|git] eqn:Hr.
    + split; [reflexivity | intros _; now exists e].
    + assert (false = true) by (apply R; now exists git). discriminate.
Qed.

(** X4. Normalizing the concatenation of two sequences of handled records
    gives, list by list, the concatenation of their normalizations: pages of
    changes can be normalized together or apart. *)
Theorem normalizer_distributes_over_append
  (l1 l2 : list GitlabChangesValue.t) (commits : list GitCommit.t) :
  forallb handled (l1 ++ l2) = true ->
  exists g1 g2 g,
    bitBucketServerChangesToGitJSONDSL l1 commits = inr g1 /\
    bitBucketServerChangesToGitJSONDSL l2 commits = inr g2 /\
    bitBucketServerChangesToGitJSONDSL (l1 ++ l2) commits = inr g /\
    GitJSONDSL.created_files g =
      (GitJSONDSL.created_files g1 ++ GitJSONDSL.created_files g2)%list /\
    GitJSONDSL.modified_files g =
      (GitJSONDSL.modified_files g1 ++ GitJSONDSL.modified_files g2)%list /\
    GitJSONDSL.deleted_files g =
      (GitJSONDSL.deleted_files g1 ++ GitJSONDSL.deleted_files g2)%list /\
    GitJSONDSL.commits g = commits.
Proof.
  intros H. pose proof H as H12. rewrite forallb_app in H12.
  apply andb_true_iff in H12 as [H1 H2].
  unfold bitBucketServerChangesToGitJSONDSL.
  rewrite (reduce_changes_handled l1 _ H1), (reduce_changes_handled l2 _ H2),
    (reduce_changes_handled (l1 ++ l2) _ H).
  do 3 eexists. repeat split; simpl; apply flat_map_app.
Qed.

Lemma normalizer_distributes_over_append_witness :
  forallb handled (sample_changes ++ [sample_move]) = true /\
  exists g1 g2 g,
    bitBucketServerChangesToGitJSONDSL sample_changes [] = inr g1 /\
    bitBucketServerChangesToGitJSONDSL [sample_move] [] = inr g2 /\
    bitBucketServerChangesToGitJSONDSL (sample_changes ++ [sample_move]) [] = inr g /\
    GitJSONDSL.created_files g =
      (GitJSONDSL.created_files g1 ++ GitJSONDSL.created_files g2)%list.
Proof.
  split; [reflexivity|].
  destruct (normalizer_distributes_over_append sample_changes [sample_move] [] eq_refl)
    as (g1 & g2 & g & R1 & R2 & R & Hc & _).
  exists g1, g2, g. repeat split; assumption.
Defined.

Lemma contributions_count (l : list GitlabChangesValue.t) :
  forallb handled l = true ->
  (List.length (flat_map created_by l) + List.length (flat_map modified_by l)
   + List.length (flat_map deleted_by l) = List.length l + moves l)%nat.
Proof.
  unfold moves.
  induction l as [|v l IH]; simpl; [reflexivity|].
  intros H. apply andb_true_iff in H as [Hv Hl]. specialize (IH Hl).
  rewrite !length_app.
  unfold handled, known_type in Hv.
  unfold created_by at 1, modified_by at 1, deleted_by at 1.
  unfold is_type in *. destruct v as [ty p sp]; simpl in *.
  destruct (String.eqb ty "ADD") eqn:EA.
  { apply String.eqb_eq in EA; subst ty; simpl. lia. }
  destruct (String.eqb ty "MODIFY") eqn:EM.
  { apply String.eqb_eq in EM; subst ty; simpl. lia. }
  destruct (String.eqb ty "MOVE") eqn:EV; simpl in *.
  { destruct sp; [simpl; lia | discriminate]. }
  destruct (String.eqb ty "DELETE") eqn:ED; simpl in *; [lia | discriminate].
Qed.

(** X5. The normalizer neither drops nor merges entries: on handled records
    the three lists together hold one entry per record and one more per MOVE,
    so a path reported twice by the platform is listed twice. *)
Theorem normalizer_keeps_every_entry
  (changes : list GitlabChangesValue.t) (commits : list GitCommit.t) :
  forallb handled changes = true ->
  exists git,
    bitBucketServerChangesToGitJSONDSL changes commits = inr git /\
    (List.length (GitJSONDSL.created_files git)
     + List.length (GitJSONDSL.modified_files git)
     + List.length (GitJSONDSL.deleted_files git)
     = List.length changes + moves changes)%nat.
Proof.
  intros H. unfold bitBucketServerChangesToGitJSONDSL.
  rewrite (reduce_changes_handled changes _ H). simpl.
  eexists. split; [reflexivity|]. simpl. now apply contributions_count.
Qed.

Lemma normalizer_keeps_every_entry_witness :
  forallb handled (sample_move :: sample_changes ++ sample_changes) = true /\
  exists git,
    bitBucketServerChangesToGitJSONDSL
      (sample_move :: sample_changes ++ sample_changes) [] = inr git /\
    (List.length (GitJSONDSL.created_files git)
     + List.length (GitJSONDSL.modified_files git)
     + List.length (GitJSONDSL.deleted_files git) = 10)%nat.
Proof.
  split; [reflexivity|].
  destruct (normalizer_keeps_every_entry
              (sample_move :: sample_changes ++ sample_changes) [] eq_refl)
    as (git & R & Hn).
  exists git. split; [exact R | exact Hn].
Defined.

Lemma normalizer_returns_exactly_on_handled_witness :
  (exists git, bitBucketServerChangesToGitJSONDSL sample_changes [] = inr git) /\
  (exists e, bitBucketServerChangesToGitJSONDSL [sample_move_without_source] [] = inl e).
Proof.
  split.
  - exact (proj2 (proj1 (normalizer_returns_exactly_on_handled sample_changes []))
                 eq_refl).
  - exact (proj2 (proj2 (normalizer_returns_exactly_on_handled
                           [sample_move_without_source] []))
                 eq_refl).
Defined.

(** ** The structured-diff normalizer *)

Lemma segment_changes_payload (segment : GitlabSegment.t) :
  map change_payload (segment_changes segment) =
  map line_payload (GitlabSegment.lines segment).
Proof.
  unfold segment_changes. rewrite map_map. apply map_ext. reflexivity.
Qed.

Lemma hunk_chunk_payload (hunk : GitlabHunk.t) :
  map change_payload (Chunk.changes (hunk_chunk hunk)) =
  map line_payload (flat_map GitlabSegment.lines (GitlabHunk.segments hunk)).
Proof.
  rewrite hunk_chunk_flat_map.
  induction (GitlabHunk.segments hunk) as [|s ss IH]; simpl; [reflexivity|].
  now rewrite !map_app, segment_changes_payload, IH.
Qed.

(** X6. Whatever the types of the segments, known or not, the normalizer
    carries every line through: entry by entry and chunk by chunk, the
    contents and the source and destination line numbers of the changes are
    those of the hunk's lines, in the order of the segments and of their
    lines, none dropped, none repeated; and an entry has chunks exactly when
    the diff has hunks. *)
Theorem structured_diff_carries_every_line (diffs : list GitlabDiff.t) :
  map entry_payloads (bitBucketServerDiffToGitStructuredDiff diffs) =
  map diff_payloads diffs.
Proof.
  unfold bitBucketServerDiffToGitStructuredDiff. rewrite map_map.
  apply map_ext. intro diff.
  unfold entry_payloads, diff_payloads. simpl.
  destruct (GitlabDiff.hunks diff) as [hs|]; simpl; [|reflexivity].
  f_equal. rewrite map_map. apply map_ext. intro hunk. apply hunk_chunk_payload.
Qed.

(** On the diff with a segment of unknown type. *)
Lemma structured_diff_carries_every_line_example :
  map entry_payloads (bitBucketServerDiffToGitStructuredDiff [moved_diff; sample_diff]) =
  [ Some [ [ ("x", Some 1, Some 2) ] ];
    Some [ [ ("x", None, Some 5); ("y", Some 3, None) ] ] ].
Proof.
  rewrite (structured_diff_carries_every_line [moved_diff; sample_diff]). reflexivity.
Defined.

(** ** The commit normalizer *)

(** X7. For a commit record with a committer and with author and committer
    timestamps that are time values of the runtime, the normalizer returns a
    commit whose author is the record's author dated by the author
    timestamp, and whose committer is the record's committer dated by the
    committer timestamp. *)
Theorem committer_is_kept_when_present
  (bbsCommit : GitlabCommit.t) (repoMetadata : RepoMetaData.t) (host : string)
  (c : GitlabUser.t) (committed : Z) :
  GitlabCommit.committer bbsCommit = Some c ->
  GitlabCommit.committerTimestamp bbsCommit = Some committed ->
  valid_time (GitlabCommit.authorTimestamp bbsCommit) = true ->
  valid_time committed = true ->
  exists commit,
    bitBucketServerCommitToGitCommit bbsCommit repoMetadata host = inr commit /\
    GitCommit.author commit =
      {| GitCommitAuthor.name := GitlabUser.name (GitlabCommit.author bbsCommit);
         GitCommitAuthor.email := GitlabUser.emailAddress (GitlabCommit.author bbsCommit);
         GitCommitAuthor.date := iso_string (GitlabCommit.authorTimestamp bbsCommit) |} /\
    GitCommit.committer commit =
      {| GitCommitAuthor.name := GitlabUser.name c;
         GitCommitAuthor.email := GitlabUser.emailAddress c;
         GitCommitAuthor.date := iso_string committed |}.
Proof.
  intros Hc Ht Ha Hv. unfold bitBucketServerCommitToGitCommit.
  rewrite Hc, Ht. unfold new_Date. rewrite Ha, Hv. simpl.
  eexists. repeat split.
Qed.

Lemma committer_is_kept_when_present_witness :
  exists commit,
    bitBucketServerCommitToGitCommit sample_commit_with_committer
      (RepoMetaData.mk "group/project" "7") "https://gitlab.example" = inr commit /\
    GitCommit.author commit =
      GitCommitAuthor.mk "Ada" "ada@example.org" "2023-11-14T22:13:20.000Z" /\
    GitCommit.committer commit =
      GitCommitAuthor.mk "Grace" "grace@example.org" "1970-01-01T00:00:00.000Z".
Proof.
  destruct (committer_is_kept_when_present sample_commit_with_committer
              (RepoMetaData.mk "group/project" "7") "https://gitlab.example"
              (GitlabUser.mk "Grace" "grace@example.org") 0
              eq_refl eq_refl eq_refl eq_refl)
    as (commit & R & Ha & Hc).
  exists commit. split; [exact R|]. split; [exact Ha | exact Hc].
Defined.

(** X8. The commit normalizer returns a commit exactly when the timestamps
    it reads are time values of the runtime: the author timestamp and, for a
    record with a committer, the committer timestamp (present and in range).
    Otherwise it raises [RangeError]; in particular a record with a committer
    but no committer timestamp makes it raise. *)
Theorem commit_normalizer_returns_iff_valid_timestamps
  (bbsCommit : GitlabCommit.t) (repoMetadata : RepoMetaData.t) (host : string) :
  (valid_timestamps bbsCommit = true ->
   exists commit, bitBucketServerCommitToGitCommit bbsCommit repoMetadata host = inr commit)
  /\
  (valid_timestamps bbsCommit = false ->
   bitBucketServerCommitToGitCommit bbsCommit repoMetadata host =
   inl (RangeError "Invalid time value")).
Proof.
  unfold valid_timestamps, bitBucketServerCommitToGitCommit, new_Date.
  destruct bbsCommit as [id ps a ats c cts m]; simpl.
  destruct (valid_time ats); simpl.
  - destruct c as [c|]; simpl.
    + destruct cts as [ms|]; simpl.
      * destruct (valid_time ms); simpl; split;
          try discriminate; intros _; try reflexivity; eexists; reflexivity.
      * split; [discriminate | reflexivity].
    + split; [intros _; eexists; reflexivity | discriminate].
  - split; [discriminate | reflexivity].
Qed.

Lemma commit_normalizer_returns_iff_valid_timestamps_witness :
  (exists commit,
     bitBucketServerCommitToGitCommit sample_commit_with_committer
       (RepoMetaData.mk "group/project" "7") "https://gitlab.example" = inr commit) /\
  bitBucketServerCommitToGitCommit sample_commit_without_committer_time
    (RepoMetaData.mk "group/project" "7") "https://gitlab.example" =
  inl (RangeError "Invalid time value").
Proof.
  split.
  - exact (proj1 (commit_normalizer_returns_iff_valid_timestamps
                    sample_commit_with_committer
                    (RepoMetaData.mk "group/project" "7") "https://gitlab.example")
                 eq_refl).
  - exact (proj2 (commit_normalizer_returns_iff_valid_timestamps
                    sample_commit_without_committer_time
                    (RepoMetaData.mk "group/project" "7") "https://gitlab.example")
                 eq_refl).
Defined.

(** X9. Every commit the normalizer returns has the record's id as [sha],
    the ids of the record's parents, in order, as [parents], the record's
    message, a null [tree], and the url [host/repoSlug/commits/id]. *)
Theorem commit_identity_fields
  (bbsCommit : GitlabCommit.t) (repoMetadata : RepoMetaData.t) (host : string)
  (commit : GitCommit.t) :
  bitBucketServerCommitToGitCommit bbsCommit repoMetadata host = inr commit ->
  GitCommit.sha commit = GitlabCommit.id bbsCommit /\
  GitCommit.parents commit = map GitlabParent.id (GitlabCommit.parents bbsCommit) /\
  GitCommit.message commit = GitlabCommit.message bbsCommit /\
  GitCommit.tree commit = None /\
  GitCommit.url commit =
    host ++ "/" ++ RepoMetaData.repoSlug repoMetadata ++ "/commits/"
         ++ GitlabCommit.id bbsCommit.
Proof.
  unfold bitBucketServerCommitToGitCommit.
  destruct (toISOString (new_Date (Some (GitlabCommit.authorTimestamp bbsCommit))))
    as [e|authorDate]; simpl; [discriminate|].
  destruct (GitlabCommit.committer bbsCommit) as [c|]; simpl.
  - destruct (toISOString (new_Date (GitlabCommit.committerTimestamp bbsCommit)))
      as [e|date]; simpl; [discriminate|].
    intros [= <-]. repeat split.
  - intros [= <-]. repeat split.
Qed.

Lemma commit_identity_fields_witness :
  exists commit,
    bitBucketServerCommitToGitCommit sample_commit_with_committer
      (RepoMetaData.mk "group/project" "7") "https://gitlab.example" = inr commit /\
    GitCommit.sha commit = "9fceb02" /\
    GitCommit.parents commit = ["1a2b3c4"; "5d6e7f8"] /\
    GitCommit.tree commit = None /\
    GitCommit.url commit = "https://gitlab.example/group/project/commits/9fceb02".
Proof.
  eexists. split; [reflexivity|].
  destruct (commit_identity_fields sample_commit_with_committer
              (RepoMetaData.mk "group/project" "7") "https://gitlab.example" _ eq_refl)
    as (Hs & Hp & _ & Ht & Hu).
  split; [exact Hs|]. split; [exact Hp|]. split; [exact Ht | exact Hu].
Defined.

(** ** Credentials *)

(** X10. [bitbucketServerRepoCredentialsFromEnv] raises
    "DANGER_GITLAB_HOST is not set" exactly when the host variable is missing
    or empty, whatever the other variables hold; otherwise it returns the
    host with the username, password and token variables as they are, set or
    not. *)
Theorem credentials_need_only_the_host (env : object) :
  (truthy (own_property env "DANGER_GITLAB_HOST") = false ->
   bitbucketServerRepoCredentialsFromEnv env =
   inl (Error "DANGER_GITLAB_HOST is not set")) /\
  (forall host,
     own_property env "DANGER_GITLAB_HOST" = Some host -> host <> "" ->
     bitbucketServerRepoCredentialsFromEnv env =
     inr {| GitlabRepoCredentials.host := host;
            GitlabRepoCredentials.username := own_property env "DANGER_GITLAB_USERNAME";
            GitlabRepoCredentials.password := own_property env "DANGER_GITLAB_PASSWORD";
            GitlabRepoCredentials.token := own_property env "DANGER_GITLAB_TOKEN" |}).
Proof.
  unfold bitbucketServerRepoCredentialsFromEnv, truthy. split.
  - destruct (own_property env "DANGER_GITLAB_HOST") as [h|]; [|reflexivity].
    destruct (String.eqb h ""); [reflexivity | discriminate].
  - intros host -> Hne. apply String.eqb_neq in Hne. now rewrite Hne.
Qed.

Lemma credentials_need_only_the_host_witness :
  bitbucketServerRepoCredentialsFromEnv
    [ ("DANGER_GITLAB_TOKEN", "s3cr3t"); ("DANGER_GITLAB_HOST", "") ] =
    inl (Error "DANGER_GITLAB_HOST is not set") /\
  bitbucketServerRepoCredentialsFromEnv
    [ ("DANGER_GITLAB_HOST", "https://gitlab.example"); ("DANGER_GITLAB_TOKEN", "s3cr3t") ] =
    inr (GitlabRepoCredentials.mk "https://gitlab.example" None None (Some "s3cr3t")).
Proof.
  split.
  - exact (proj1 (credentials_need_only_the_host
                    [ ("DANGER_GITLAB_TOKEN", "s3cr3t"); ("DANGER_GITLAB_HOST", "") ])
                 eq_refl).
  - refine (proj2 (credentials_need_only_the_host
                     [ ("DANGER_GITLAB_HOST", "https://gitlab.example");
                       ("DANGER_GITLAB_TOKEN", "s3cr3t") ])
                  "https://gitlab.example" eq_refl _).
    discriminate.
Defined.

(** ** The requests of the client *)

Section MoreClientProofs.
Context `{P : Platform}.

(** [api] logs one line, calls [fetch] once on the request it built, and
    hands back what [fetch] gave. *)
Lemma api_unfold (path : string) (headers : option object) (body : option string)
  (method : string) (suppressErrors : option bool) (this : GitlabAPI) :
  api path headers body method suppressErrors this =
  let '(r, w) := fetch (api_request this path headers body method) suppressErrors
                       (world this) in
  (match r with inl e => Thrown e | inr res => Returned res end,
   after_request this (api_line this method path) w).
Proof.
  unfold api, mbind, d, call_fetch, api_request, api_line, after_request.
  simpl. destruct (fetch _ suppressErrors (world this)) as [[e|res] w]; reflexivity.
Qed.

Lemma api_returns (path : string) (headers : option object) (body : option string)
  (method : string) (suppressErrors : option bool) (this : GitlabAPI)
  (res : Response.t JSON) (w : World) :
  fetch (api_request this path headers body method) suppressErrors (world this)
    = (inr res, w) ->
  api path headers body method suppressErrors this =
  (Returned res, after_request this (api_line this method path) w).
Proof. intros H. rewrite api_unfold, H. reflexivity. Qed.

Lemma throwIfNotOk_not_ok {J : Type} (res : Response.t J) :
  Response.ok res = false -> throwIfNotOk res = inl (http_error res).
Proof.
  unfold throwIfNotOk, http_error. intros ->. simpl.
  destruct ((400 <=? Response.status res) && (Response.status res <? 500));
    [reflexivity | now rewrite append_empty_r].
Qed.

(** X11. When the credentials hold a non-empty token, every request the
    client sends without headers of the caller carries exactly the
    Content-Type header and [Authorization: Bearer <token>], whether or not a
    username and a password are set as well: the token comes first. *)
Theorem token_takes_precedence
  (path : string) (body : option string) (method : string)
  (suppressErrors : option bool) (this : GitlabAPI) (token : string) :
  GitlabRepoCredentials.token (repoCredentials this) = Some token ->
  token <> "" ->
  api path None body method suppressErrors this =
    (let '(r, w) := fetch (api_request this path None body method) suppressErrors
                          (world this) in
     (match r with inl e => Thrown e | inr res => Returned res end,
      after_request this (api_line this method path) w)) /\
  Request.headers (api_request this path None body method) =
    [ ("Content-Type", "application/json"); ("Authorization", "Bearer " ++ token) ].
Proof.
  intros Ht Hne. split; [apply api_unfold|].
  unfold api_request, authorize; simpl. rewrite Ht. simpl.
  apply String.eqb_neq in Hne. rewrite Hne. reflexivity.
Qed.

(** X12. Without a token (unset or empty), a non-empty password gives
    [Authorization: Basic base64(username:password)], an unset username being
    rendered "undefined"; without a token and without a password the request
    carries the Content-Type header only: it is sent unauthenticated, and
    nothing is raised for the missing credentials. *)
Theorem basic_authorization_or_none
  (path : string) (body : option string) (method : string) (this : GitlabAPI) :
  truthy (GitlabRepoCredentials.token (repoCredentials this)) = false ->
  (forall suppressErrors,
     api path None body method suppressErrors this =
     (let '(r, w) := fetch (api_request this path None body method) suppressErrors
                           (world this) in
      (match r with inl e => Thrown e | inr res => Returned res end,
       after_request this (api_line this method path) w))) /\
  (forall password,
     GitlabRepoCredentials.password (repoCredentials this) = Some password ->
     password <> "" ->
     Request.headers (api_request this path None body method) =
     [ ("Content-Type", "application/json");
       ("Authorization",
        "Basic " ++ base64 (interpolate (GitlabRepoCredentials.username
                                           (repoCredentials this))
                              ++ ":" ++ password)) ]) /\
  (truthy (GitlabRepoCredentials.password (repoCredentials this)) = false ->
   Request.headers (api_request this path None body method) =
   [ ("Content-Type", "application/json") ]).
Proof.
  intros Ht. split; [intro; apply api_unfold|].
  unfold api_request, authorize; simpl. rewrite Ht. split.
  - intros password Hp Hne. rewrite Hp. simpl.
    apply String.eqb_neq in Hne. rewrite Hne. reflexivity.
  - intros Hp. rewrite Hp. reflexivity.
Qed.

(** X13. The proxy of a request is the [http_proxy] of the environment when
    that is set and not empty, otherwise the [https_proxy] when that is set
    and not empty, otherwise none. *)
Theorem http_proxy_comes_first
  (path : string) (headers : option object) (body : option string)
  (method : string) (this : GitlabAPI) :
  (forall suppressErrors,
     api path headers body method suppressErrors this =
     (let '(r, w) := fetch (api_request this path headers body method) suppressErrors
                           (world this) in
      (match r with inl e => Thrown e | inr res => Returned res end,
       after_request this (api_line this method path) w))) /\
  (truthy env_http_proxy = true ->
   Request.agent (api_request this path headers body method) = env_http_proxy) /\
  (truthy env_http_proxy = false -> truthy env_https_proxy = true ->
   Request.agent (api_request this path headers body method) = env_https_proxy) /\
  (truthy env_http_proxy = false -> truthy env_https_proxy = false ->
   Request.agent (api_request this path headers body method) = None).
Proof.
  split; [intro; apply api_unfold|].
  unfold api_request, or_else; simpl. repeat split.
  - intros H. now rewrite H, H.
  - intros H1 H2. now rewrite H1, H2.
  - intros H1 H2. now rewrite H1, H2.
Qed.

End MoreClientProofs.

(** The requests a run of the recording platform has received. *)
Lemma token_takes_precedence_witness :
  Request.headers
    (@api_request recording
       (recording_client token_credentials []) "projects" None None "GET") =
    [ ("Content-Type", "application/json"); ("Authorization", "Bearer s3cr3t") ] /\
  snd (world (snd (@api recording "projects" None None "GET" None
                     (recording_client token_credentials [])))) =
    [ {| Request.url := "https://gitlab.example/api/v4/projects";
         Request.method := "GET";
         Request.body := None;
         Request.headers :=
           [ ("Content-Type", "application/json"); ("Authorization", "Bearer s3cr3t") ];
         Request.agent := Some "http://proxy.example:3128" |} ].
Proof.
  assert (Hne : "s3cr3t" <> "") by discriminate.
  destruct (@token_takes_precedence recording "projects" None "GET" None
              (recording_client token_credentials []) "s3cr3t" eq_refl Hne)
    as (Hrun & Hheaders).
  split; [exact Hheaders|]. rewrite Hrun. reflexivity.
Defined.

Lemma basic_authorization_or_none_witness :
  Request.headers
    (@api_request recording
       (recording_client password_credentials []) "projects" None None "GET") =
    [ ("Content-Type", "application/json");
      ("Authorization", "Basic base64(undefined:hunter2)") ] /\
  Request.headers
    (@api_request recording
       (recording_client no_credentials []) "projects" None None "GET") =
    [ ("Content-Type", "application/json") ].
Proof.
  assert (Hne : "hunter2" <> "") by discriminate.
  split.
  - exact (proj1 (proj2 (@basic_authorization_or_none recording "projects" None "GET"
                           (recording_client password_credentials []) eq_refl))
                 "hunter2" eq_refl Hne).
  - exact (proj2 (proj2 (@basic_authorization_or_none recording "projects" None "GET"
                           (recording_client no_credentials []) eq_refl))
                 eq_refl).
Defined.

Lemma http_proxy_comes_first_witness :
  Request.agent
    (@api_request endless endless_client "projects" None None "GET") =
    Some "http://proxy.example:8080" /\
  Request.agent
    (@api_request recording
       (recording_client no_credentials []) "projects" None None "GET") =
    Some "http://proxy.example:3128" /\
  Request.agent
    (@api_request scripted (scripted_client []) "projects" None None "GET") = None.
Proof.
  split; [|split].
  - exact (proj1 (proj2 (@http_proxy_comes_first endless "projects" None None "GET"
                           endless_client))
                 eq_refl).
  - exact (proj1 (proj2 (proj2 (@http_proxy_comes_first recording "projects" None None
                                  "GET" (recording_client no_credentials []))))
                 eq_refl eq_refl).
  - exact (proj2 (proj2 (proj2 (@http_proxy_comes_first scripted "projects" None None
                                  "GET" (scripted_client []))))
                 eq_refl eq_refl).
Defined.

(** ** Pagination and the cached PR: failures *)

Section FailureProofs.
Context `{P : Platform}.

(** The loop follows the pages in progress and goes on from the cursor the
    last of them names. *)
Lemma loop_in_progress (cursor last : Z) (pages : list GitlabChanges.t)
  (this this' : GitlabAPI) :
  pages_in_progress cursor pages this last this' ->
  forall (fuel : nat) (values : list GitlabChangesValue.t),
    getPullRequestChanges_loop (List.length pages + fuel) cursor values this =
    getPullRequestChanges_loop fuel last
      (values ++ List.concat (map GitlabChanges.values pages))%list this'.
Proof.
  induction 1 as [cursor this
                 |cursor next last page pages this this' res j w Hf Hok Hj Hp Hn Hs IH];
    intros fuel values.
  - simpl. now rewrite app_nil_r.
  - cbn [List.length Nat.add getPullRequestChanges_loop]. unfold mbind.
    fold (changes_path this cursor).
    rewrite (get_returns _ _ _ _ _ Hf). unfold lift.
    rewrite (throwIfNotOk_ok res Hok), Hj, Hp, Hn.
    rewrite IH. simpl. now rewrite app_assoc.
Qed.

(** X14. When a page of changes is answered with a status outside 200-299
    after any number of successful pages, [getPullRequestChanges] raises the
    HTTP error of that response: the values of the pages already read are not
    returned, and no further page is requested. *)
Theorem failed_page_discards_the_pages_read
  (pages : list GitlabChanges.t) (this this' : GitlabAPI) (last : Z)
  (res : Response.t JSON) (w : World) (fuel : nat) :
  pages_in_progress 0 pages this last this' ->
  fetch (get_request this' (changes_path this' last)) None (world this') = (inr res, w) ->
  Response.ok res = false ->
  (List.length pages < fuel)%nat ->
  getPullRequestChanges fuel this =
  (Thrown (http_error res),
   after_request this' (get_line this' (changes_path this' last)) w).
Proof.
  intros Hs Hf Hok Hfuel. unfold getPullRequestChanges.
  replace fuel with (List.length pages + S (fuel - List.length pages - 1))%nat by lia.
  rewrite (loop_in_progress _ _ _ _ _ Hs).
  cbn [getPullRequestChanges_loop]. unfold mbind.
  fold (changes_path this' last).
  rewrite (get_returns _ _ _ _ _ Hf). unfold lift.
  now rewrite (throwIfNotOk_not_ok res Hok).
Qed.

(** X15. On a platform every page of which names a next cursor, the loop of
    [getPullRequestChanges] never ends: whatever the number of iterations
    followed, it has not returned and has not raised. Nothing in the loop
    bounds the number of pages or detects a cursor seen before. *)
Theorem endless_pages_never_return :
  endless_pages ->
  forall (fuel : nat) (this : GitlabAPI),
    fst (getPullRequestChanges fuel this) = OutOfFuel.
Proof.
  intros Hend fuel. unfold getPullRequestChanges.
  generalize 0 at 1. generalize (@nil GitlabChangesValue.t).
  induction fuel as [|fuel IH]; intros values cursor this; [reflexivity|].
  destruct (Hend this cursor) as (res & j & w & next & Hf & Hok & Hj & Hn).
  cbn [getPullRequestChanges_loop]. unfold mbind.
  fold (changes_path this cursor).
  rewrite (get_returns _ _ _ _ _ Hf). unfold lift.
  rewrite (throwIfNotOk_ok res Hok), Hj, Hn. apply IH.
Qed.

(** X16. A call of [getPullRequestInfo] on an instance without a cached PR
    whose fetch is answered with a status outside 200-299 raises the HTTP
    error of the response and leaves [pr] unset; the instance stays usable:
    a later call whose fetch succeeds returns the PR and caches it. *)
Theorem failed_pr_fetch_can_be_retried
  (this : GitlabAPI) (res : Response.t JSON) (w : World) :
  pr this = None ->
  fetch (get_request this (getPRBasePath this)) None (world this) = (inr res, w) ->
  Response.ok res = false ->
  let failed := after_request this (get_line this (getPRBasePath this)) w in
  getPullRequestInfo this = (Thrown (http_error res), failed) /\
  pr failed = None /\
  forall (res' : Response.t JSON) (j : JSON) (w' : World),
    fetch (get_request failed (getPRBasePath failed)) None (world failed) = (inr res', w') ->
    Response.ok res' = true ->
    Response.json res' = inr j ->
    exists this', getPullRequestInfo failed = (Returned (asGitlabPRDSL j), this') /\
                  pr this' = Some (asGitlabPRDSL j).
Proof.
  intros Hpr Hf Hok failed. split; [|split].
  - unfold getPullRequestInfo. rewrite Hpr. unfold mbind.
    rewrite (get_returns _ _ _ _ _ Hf). unfold lift.
    now rewrite (throwIfNotOk_not_ok res Hok).
  - exact Hpr.
  - intros res' j w' Hf' Hok' Hj'. unfold getPullRequestInfo.
    assert (Hpr' : pr failed = None) by exact Hpr. rewrite Hpr'.
    unfold mbind. rewrite (get_returns _ _ _ _ _ Hf'). unfold lift.
    rewrite (throwIfNotOk_ok res' Hok'), Hj'. simpl.
    eexists. split; reflexivity.
Qed.

End FailureProofs.

Lemma scripted_page_in_progress :
  @pages_in_progress scripted 0 [GitlabChanges.mk [change_a; change_b] (Some 1)]
    failing_paging_client 1 failing_paging_client_after_first.
Proof.
  refine (@progress_next scripted 0 1 1 (GitlabChanges.mk [change_a; change_b] (Some 1))
            [] failing_paging_client failing_paging_client_after_first
            (Response.mk 200 "OK" ""
               (inr (JChanges (GitlabChanges.mk [change_a; change_b] (Some 1)))))
            (JChanges (GitlabChanges.mk [change_a; change_b] (Some 1)))
            [ text_response 500 "Internal Server Error" "" ]
            eq_refl eq_refl eq_refl eq_refl eq_refl _).
  apply (@progress_none scripted 1 failing_paging_client_after_first).
Defined.

Lemma failed_page_discards_the_pages_read_witness :
  @getPullRequestChanges scripted 5 failing_paging_client =
    (Thrown (Error "500 - Internal Server Error"),
     @after_request scripted failing_paging_client_after_first (changes_line "1") []) /\
  debug_log
    (@after_request scripted failing_paging_client_after_first (changes_line "1") []) =
    [changes_line "0"; changes_line "1"].
Proof.
  split; [|reflexivity].
  refine (@failed_page_discards_the_pages_read scripted
            [GitlabChanges.mk [change_a; change_b] (Some 1)]
            failing_paging_client failing_paging_client_after_first 1
            (Response.mk 500 "Internal Server Error" ""
               (inl (Error "invalid json response body"))) [] 5%nat
            scripted_page_in_progress eq_refl eq_refl _).
  simpl. lia.
Defined.

Lemma endless_is_endless : @endless_pages endless.
Proof.
  intros this cursor.
  exists (Response.mk 200 "OK" "" (inr (GitlabChanges.mk [change_a] (Some 0)))),
    (GitlabChanges.mk [change_a] (Some 0)), tt, 0.
  repeat split. simpl. now destruct (world this).
Defined.

Lemma endless_pages_never_return_witness :
  fst (@getPullRequestChanges endless 40 endless_client) = OutOfFuel.
Proof.
  exact (@endless_pages_never_return endless endless_is_endless 40%nat endless_client).
Defined.

Lemma failed_pr_fetch_can_be_retried_witness :
  exists failed this',
    @getPullRequestInfo scripted flaky_client =
      (Thrown (Error "503 - Service Unavailable"), failed) /\
    pr failed = None /\
    @getPullRequestInfo scripted failed = (Returned "Add Gitlab", this') /\
    pr this' = Some "Add Gitlab".
Proof.
  destruct (@failed_pr_fetch_can_be_retried scripted flaky_client
              (Response.mk 503 "Service Unavailable" ""
                 (inl (Error "invalid json response body")))
              [ json_response (JPR "Add Gitlab") ] eq_refl eq_refl eq_refl)
    as (Hfail & Hpr & Hretry).
  destruct (Hretry (Response.mk 200 "OK" "" (inr (JPR "Add Gitlab"))) (JPR "Add Gitlab") []
              eq_refl eq_refl eq_refl) as (this' & Hret & Hcached).
  eexists; exists this'. split; [exact Hfail|]. split; [exact Hpr|].
  split; [exact Hret | exact Hcached].
Defined.

(** ** Comments *)

Lemma filter_twice {A : Type} (p q : A -> bool) (l : list A) :
  filter q (filter p l) = filter (fun x => p x && q x) l.
Proof.
  induction l as [|x l IH]; simpl; [reflexivity|].
  destruct (p x); simpl; [destruct (q x); now rewrite IH | exact IH].
Qed.

Lemma filter_all {A : Type} (p : A -> bool) (l : list A) :
  (forall x, p x = true) -> filter p l = l.
Proof.
  intros H. induction l as [|x l IH]; simpl; [reflexivity|]. now rewrite H, IH.
Qed.

Lemma filter_none {A : Type} (p : A -> bool) (l : list A) :
  (forall x, p x = false) -> filter p l = [].
Proof.
  intros H. induction l as [|x l IH]; simpl; [reflexivity|]. now rewrite H.
Qed.

Lemma filter_mapped_flag {A B : Type} (p : A -> bool) (g : A -> B) (flag : B -> bool)
  (g' : A -> B) (l : list A) :
  (forall x, flag (g x) = p x) ->
  (forall x, p x = true -> g x = g' x) ->
  filter flag (map g l) = map g' (filter p l).
Proof.
  intros Hflag Hg. induction l as [|x l IH]; simpl; [reflexivity|].
  rewrite Hflag. destruct (p x) eqn:Hp; simpl; [|exact IH].
  now rewrite (Hg x Hp), IH.
Qed.

Section CommentProofs.
Context `{P : Platform} `{C : @Collaborators P}.

Lemma getPullRequestComments_returns (this : GitlabAPI) (res : Response.t JSON)
  (j : JSON) (w : World) :
  fetch (get_request this (getPRBasePath this ++ "/activities?fromType=COMMENT"))
        None (world this) = (inr res, w) ->
  Response.ok res = true ->
  Response.json res = inr j ->
  getPullRequestComments this =
  (Returned (values_as_activities j),
   after_request this
     (get_line this (getPRBasePath this ++ "/activities?fromType=COMMENT")) w).
Proof.
  intros Hf Hok Hj. unfold getPullRequestComments, mbind.
  rewrite (get_returns _ _ _ _ _ Hf). unfold lift.
  now rewrite (throwIfNotOk_ok res Hok), Hj.
Qed.

(** X17. With a non-empty username in the credentials, [getDangerComments]
    returns, in order, every comment of the PR's activities whose text
    contains both the danger ID message and the signature postfix, whoever
    its author is: the author's name is not compared with the username. *)
Theorem danger_comments_ignore_the_author
  (dangerID : string) (this : GitlabAPI) (username : string)
  (res : Response.t JSON) (j : JSON) (w : World) :
  GitlabRepoCredentials.username (repoCredentials this) = Some username ->
  username <> "" ->
  fetch (get_request this (getPRBasePath this ++ "/activities?fromType=COMMENT"))
        None (world this) = (inr res, w) ->
  Response.ok res = true ->
  Response.json res = inr j ->
  getDangerComments dangerID this =
  (Returned
     (filter (fun comment =>
                includes (GitlabPRComment.text comment) (dangerIDToString dangerID)
                && includes (GitlabPRComment.text comment) dangerSignaturePostfix)
             (comments_of (values_as_activities j))),
   after_request this
     (get_line this (getPRBasePath this ++ "/activities?fromType=COMMENT")) w).
Proof.
  intros Hu Hne Hf Hok Hj. unfold getDangerComments, mbind.
  rewrite (getPullRequestComments_returns this res j w Hf Hok Hj).
  unfold mret. f_equal. f_equal.
  rewrite Hu. simpl. apply String.eqb_neq in Hne. rewrite Hne. simpl.
  rewrite (filter_all (fun _ => true)) by reflexivity.
  apply filter_twice.
Qed.

(** X18. Without a username in the credentials, [getDangerComments] returns
    no comment at all, whatever the activities of the PR hold: the author
    test compares a name with [undefined]. *)
Theorem danger_comments_need_a_username
  (dangerID : string) (this : GitlabAPI)
  (res : Response.t JSON) (j : JSON) (w : World) :
  GitlabRepoCredentials.username (repoCredentials this) = None ->
  fetch (get_request this (getPRBasePath this ++ "/activities?fromType=COMMENT"))
        None (world this) = (inr res, w) ->
  Response.ok res = true ->
  Response.json res = inr j ->
  getDangerComments dangerID this =
  (Returned [],
   after_request this
     (get_line this (getPRBasePath this ++ "/activities?fromType=COMMENT")) w).
Proof.
  intros Hu Hf Hok Hj. unfold getDangerComments, mbind.
  rewrite (getPullRequestComments_returns this res j w Hf Hok Hj).
  unfold mret. f_equal. f_equal.
  rewrite Hu. simpl.
  now rewrite (filter_none (fun _ => false)) by reflexivity.
Qed.

(** X19. [getDangerInlineComments] returns, in order, the comments of the
    activities anchored to a line whose author's name is the username of the
    credentials and whose text contains the danger ID message, each with
    [ownedByDanger] true and its text as body; the signature postfix is not
    looked for. Without a username it returns none. *)
Theorem inline_comments_are_owned
  (dangerID : string) (this : GitlabAPI)
  (res : Response.t JSON) (j : JSON) (w : World) :
  fetch (get_request this (getPRBasePath this ++ "/activities?fromType=COMMENT"))
        None (world this) = (inr res, w) ->
  Response.ok res = true ->
  Response.json res = inr j ->
  getDangerInlineComments dangerID this =
  (Returned
     (map (fun i => {| Comment.id := GitlabPRComment.id i;
                       Comment.ownedByDanger := true;
                       Comment.body := GitlabPRComment.text i |})
          (filter (fun i =>
                     is_username (GitlabRepoCredentials.username (repoCredentials this))
                                 (GitlabUser.name (GitlabPRComment.author i))
                     && includes (GitlabPRComment.text i) (dangerIDToString dangerID))
                  (anchored_comments (values_as_activities j)))),
   after_request this
     (get_line this (getPRBasePath this ++ "/activities?fromType=COMMENT")) w) /\
  (GitlabRepoCredentials.username (repoCredentials this) = None ->
   fst (getDangerInlineComments dangerID this) = Returned []).
Proof.
  intros Hf Hok Hj.
  assert (E : getDangerInlineComments dangerID this =
    (Returned
       (map (fun i => {| Comment.id := GitlabPRComment.id i;
                         Comment.ownedByDanger := true;
                         Comment.body := GitlabPRComment.text i |})
            (filter (fun i =>
                       is_username (GitlabRepoCredentials.username (repoCredentials this))
                                   (GitlabUser.name (GitlabPRComment.author i))
                       && includes (GitlabPRComment.text i) (dangerIDToString dangerID))
                    (anchored_comments (values_as_activities j)))),
     after_request this
       (get_line this (getPRBasePath this ++ "/activities?fromType=COMMENT")) w)).
  { unfold getDangerInlineComments, mbind.
    rewrite (getPullRequestComments_returns this res j w Hf Hok Hj).
    unfold mret. f_equal. f_equal. fold (anchored_comments (values_as_activities j)).
    apply filter_mapped_flag; [reflexivity|].
    intros i Hi. simpl. now rewrite Hi. }
  split; [exact E|].
  intros Hu. rewrite E, Hu. simpl.
  now rewrite (filter_none (fun _ => false)) by reflexivity.
Qed.

End CommentProofs.

Lemma danger_comments_ignore_the_author_witness :
  fst (@getDangerComments recording recording_collaborators "default"
         (comments_client danger_credentials)) =
  Returned [ comment_by 1 "danger" danger_text;
             comment_by 2 "mallory" danger_text;
             comment_by 4 "danger" danger_text ].
Proof.
  assert (Hne : "danger" <> "") by discriminate.
  rewrite (@danger_comments_ignore_the_author recording recording_collaborators
             "default" (comments_client danger_credentials) "danger"
             (Response.mk 200 "OK" "" (inr (BActivities sample_activities)))
             (BActivities sample_activities)
             ([], [ @get_request recording (comments_client danger_credentials)
                      comments_path ])
             eq_refl Hne eq_refl eq_refl eq_refl).
  reflexivity.
Defined.

Lemma danger_comments_need_a_username_witness :
  fst (@getDangerComments recording recording_collaborators "default"
         (comments_client password_credentials)) = Returned [].
Proof.
  rewrite (@danger_comments_need_a_username recording recording_collaborators
             "default" (comments_client password_credentials)
             (Response.mk 200 "OK" "" (inr (BActivities sample_activities)))
             (BActivities sample_activities)
             ([], [ @get_request recording (comments_client password_credentials)
                      comments_path ])
             eq_refl eq_refl eq_refl eq_refl).
  reflexivity.
Defined.

Lemma inline_comments_are_owned_witness :
  fst (@getDangerInlineComments recording recording_collaborators "default"
         (comments_client danger_credentials)) =
    Returned [ Comment.mk 4 true danger_text ] /\
  fst (@getDangerInlineComments recording recording_collaborators "default"
         (comments_client password_credentials)) = Returned [].
Proof.
  split.
  - rewrite (proj1 (@inline_comments_are_owned recording recording_collaborators
               "default" (comments_client danger_credentials)
               (Response.mk 200 "OK" "" (inr (BActivities sample_activities)))
               (BActivities sample_activities)
               ([], [ @get_request recording (comments_client danger_credentials)
                        comments_path ])
               eq_refl eq_refl eq_refl)).
    reflexivity.
  - exact (proj2 (@inline_comments_are_owned recording recording_collaborators
               "default" (comments_client password_credentials)
               (Response.mk 200 "OK" "" (inr (BActivities sample_activities)))
               (BActivities sample_activities)
               ([], [ @get_request recording (comments_client password_credentials)
                        comments_path ])
               eq_refl eq_refl eq_refl) eq_refl).
Defined.

(** ** Writing methods *)

Section WriteProofs.
Context `{P : Platform} `{C : @Collaborators P}.

(** X20. [deleteComment] sends one DELETE to the comment's path, with the
    comment's version as a query parameter and an empty object as body. On a
    status in 200-299 it returns; on any other status it raises
    [Error("Failed to delete comment " + quote + id)], a message that holds
    neither the status nor the status text of the response. *)
Theorem deleteComment_outcomes
  (c : GitlabPRComment.t) (this : GitlabAPI) (res : Response.t JSON) (w : World) :
  fetch (write_request this "DELETE" (delete_path this c) None EmptyBody) None
        (world this) = (inr res, w) ->
  (Response.ok res = true ->
   deleteComment c this =
   (Returned tt, after_request this (api_line this "DELETE" (delete_path this c)) w)) /\
  (Response.ok res = false ->
   deleteComment c this =
   (Thrown (Error ("Failed to delete comment " ++ double_quote
                     ++ string_of_Z (GitlabPRComment.id c))),
    after_request this (api_line this "DELETE" (delete_path this c)) w)).
Proof.
  intros Hf. unfold deleteComment, delete, mbind. fold (delete_path this c).
  unfold write_request in Hf. rewrite (api_returns _ _ _ _ _ _ _ _ Hf).
  split; intros ->; reflexivity.
Qed.

(** X21. [postPRComment] does not look at the status of the response: it
    returns the deserialized body of whatever response it gets, so a refused
    comment (a status outside 200-299 with a JSON body) is returned like a
    created one and no HTTP error is raised; it raises only when the body is
    not JSON. *)
Theorem postPRComment_ignores_the_status
  (comment : string) (this : GitlabAPI) (res : Response.t JSON) (w : World) :
  fetch (write_request this "POST" (comments_endpoint this) (Some []) (TextBody comment))
        None (world this) = (inr res, w) ->
  postPRComment comment this =
  (match Response.json res with inl e => Thrown e | inr j => Returned j end,
   after_request this (api_line this "POST" (comments_endpoint this)) w).
Proof.
  intros Hf. unfold postPRComment, post, mbind. fold (comments_endpoint this).
  unfold write_request in Hf. rewrite (api_returns _ _ _ _ _ _ _ _ Hf).
  unfold lift. destruct (Response.json res); reflexivity.
Qed.

(** X22. [postBuildStatus] raises the HTTP error on a status outside
    200-299; on status 204 it returns [undefined] without reading the body
    (which may be empty); on any other status in 200-299 it returns the
    deserialized body. *)
Theorem postBuildStatus_outcomes
  (commitId state key name url description : string) (this : GitlabAPI)
  (res : Response.t JSON) (w : World) :
  fetch (write_request this "POST" (build_status_path commitId) (Some [])
           (BuildStatusBody state key name url description))
        None (world this) = (inr res, w) ->
  let this' := after_request this (api_line this "POST" (build_status_path commitId)) w in
  (Response.ok res = false ->
   postBuildStatus commitId state key name url description this =
   (Thrown (http_error res), this')) /\
  (Response.status res = 204 ->
   postBuildStatus commitId state key name url description this =
   (Returned None, this')) /\
  (Response.ok res = true -> Response.status res <> 204 ->
   forall j, Response.json res = inr j ->
   postBuildStatus commitId state key name url description this =
   (Returned (Some j), this')).
Proof.
  intros Hf this'. unfold postBuildStatus, post, mbind.
  fold (build_status_path commitId).
  unfold write_request in Hf. rewrite (api_returns _ _ _ _ _ _ _ _ Hf).
  fold this'. unfold lift. repeat split.
  - intros Hok. now rewrite (throwIfNotOk_not_ok res Hok).
  - intros Hs.
    assert (Hok : Response.ok res = true) by (unfold Response.ok; now rewrite Hs).
    rewrite (throwIfNotOk_ok res Hok), Hs. reflexivity.
  - intros Hok Hs j Hj. apply Z.eqb_neq in Hs.
    rewrite (throwIfNotOk_ok res Hok), Hs, Hj. reflexivity.
Qed.

(** X23. [postInlinePRComment] sends the comment anchored to the
    destination side ("TO") of the file, with the line type looked up in its
    table, and [updateComment] sends the new text with the comment's version;
    each of them, when the response is a success, resolves with the
    deserialized body, and otherwise rejects with the deserialized body
    itself, not with an HTTP error. *)
Theorem postInlinePRComment_outcomes :
  (forall (comment : string) (line : Z) (type filePath : string) (this : GitlabAPI)
          (res : Response.t JSON) (j : JSON) (w : World),
     fetch (write_request this "POST" (comments_endpoint this) (Some [])
              (InlineBody comment line (get_property lineTypes type) "TO" filePath))
           None (world this) = (inr res, w) ->
     Response.json res = inr j ->
     postInlinePRComment comment line type filePath this =
     (Returned (if Response.ok res then Resolved j else RejectedWith j),
      after_request this (api_line this "POST" (comments_endpoint this)) w)) /\
  (forall (c : GitlabPRComment.t) (comment : string) (this : GitlabAPI)
          (res : Response.t JSON) (j : JSON) (w : World),
     fetch (write_request this "PUT" (update_path this c) (Some [])
              (UpdateBody comment (GitlabPRComment.version c)))
           None (world this) = (inr res, w) ->
     Response.json res = inr j ->
     updateComment c comment this =
     (Returned (if Response.ok res then Resolved j else RejectedWith j),
      after_request this (api_line this "PUT" (update_path this c)) w)).
Proof.
  split.
  - intros comment line type filePath this res j w Hf Hj.
    unfold postInlinePRComment, post, mbind. fold (comments_endpoint this).
    unfold write_request in Hf. rewrite (api_returns _ _ _ _ _ _ _ _ Hf).
    unfold lift. rewrite Hj. destruct (Response.ok res); reflexivity.
  - intros c comment this res j w Hf Hj.
    unfold updateComment, put, mbind. fold (update_path this c).
    unfold write_request in Hf. rewrite (api_returns _ _ _ _ _ _ _ _ Hf).
    unfold lift. rewrite Hj. destruct (Response.ok res); reflexivity.
Qed.

End WriteProofs.

(** X24. The table of [postInlinePRComment] inverts the table of the
    structured-diff normalizer: the change type the normalizer gives a line
    of an ADDED, CONTEXT or REMOVED segment is sent back to the platform as
    that segment type; and a change type outside "add", "normal" and "del"
    (not the name of an inherited member) is sent as an undefined line type.
    *)
Theorem line_types_invert_segment_values :
  (forall (segment : GitlabSegment.t) (line : GitlabLine.t),
     known_segment segment = true ->
     exists change_type,
       Change.type (line_change segment line) = Own change_type /\
       get_property lineTypes change_type = Own (GitlabSegment.type segment)) /\
  (forall type,
     String.eqb type "add" || String.eqb type "normal" || String.eqb type "del" = false ->
     existsb (String.eqb type) Object_prototype = false ->
     get_property lineTypes type = Undefined).
Proof.
  split.
  - intros [ty ls] line. unfold known_segment, line_change. simpl.
    destruct (String.eqb ty "ADDED") eqn:EA.
    { apply String.eqb_eq in EA; subst ty. intros _. eexists; split; reflexivity. }
    destruct (String.eqb ty "CONTEXT") eqn:EC.
    { apply String.eqb_eq in EC; subst ty. intros _. eexists; split; reflexivity. }
    destruct (String.eqb ty "REMOVED") eqn:ER; [|discriminate].
    apply String.eqb_eq in ER; subst ty. intros _. eexists; split; reflexivity.
  - intros type H Hp. unfold get_property, lineTypes. cbn [own_property].
    apply orb_false_iff in H as [H Hd]. apply orb_false_iff in H as [Ha Hn].
    now rewrite Ha, Hn, Hd, Hp.
Qed.

Lemma line_types_invert_segment_values_witness :
  (exists change_type,
     Change.type (line_change (GitlabSegment.mk "REMOVED" [])
                              (GitlabLine.mk "y" (Some 3) None)) = Own change_type /\
     get_property lineTypes change_type = Own "REMOVED") /\
  get_property lineTypes "modified" = Undefined.
Proof.
  destruct line_types_invert_segment_values as (Hknown & Hunknown).
  split.
  - exact (Hknown (GitlabSegment.mk "REMOVED" []) (GitlabLine.mk "y" (Some 3) None) eq_refl).
  - exact (Hunknown "modified" eq_refl eq_refl).
Defined.

Lemma deleteComment_outcomes_witness :
  fst (@deleteComment recording recording_collaborators sample_comment
         (writing_client (bodyless_response 204 "No Content"))) = Returned tt /\
  fst (@deleteComment recording recording_collaborators sample_comment
         (writing_client (bodyless_response 409 "Conflict"))) =
    Thrown (Error ("Failed to delete comment " ++ double_quote ++ "42")).
Proof.
  split.
  - rewrite (proj1 (@deleteComment_outcomes recording recording_collaborators
               sample_comment (writing_client (bodyless_response 204 "No Content"))
               (bodyless_response 204 "No Content")
               ([], [ @write_request recording recording_collaborators
                        (writing_client (bodyless_response 204 "No Content")) "DELETE"
                        (@delete_path recording
                           (writing_client (bodyless_response 204 "No Content"))
                           sample_comment)
                        None EmptyBody ])
               eq_refl) eq_refl).
    reflexivity.
  - rewrite (proj2 (@deleteComment_outcomes recording recording_collaborators
               sample_comment (writing_client (bodyless_response 409 "Conflict"))
               (bodyless_response 409 "Conflict")
               ([], [ @write_request recording recording_collaborators
                        (writing_client (bodyless_response 409 "Conflict")) "DELETE"
                        (@delete_path recording
                           (writing_client (bodyless_response 409 "Conflict"))
                           sample_comment)
                        None EmptyBody ])
               eq_refl) eq_refl).
    reflexivity.
Defined.

Lemma postPRComment_ignores_the_status_witness :
  fst (@postPRComment recording recording_collaborators "hello"
         (writing_client (Response.mk 403 "Forbidden" "" (inr (BOther "denied"))))) =
  Returned (BOther "denied").
Proof.
  rewrite (@postPRComment_ignores_the_status recording recording_collaborators "hello"
             (writing_client (Response.mk 403 "Forbidden" "" (inr (BOther "denied"))))
             (Response.mk 403 "Forbidden" "" (inr (BOther "denied")))
             ([], [ @write_request recording recording_collaborators
                      (writing_client (Response.mk 403 "Forbidden" "" (inr (BOther "denied"))))
                      "POST"
                      (@comments_endpoint recording
                         (writing_client
                            (Response.mk 403 "Forbidden" "" (inr (BOther "denied")))))
                      (Some []) (TextBody "hello") ])
             eq_refl).
  reflexivity.
Defined.

Lemma postBuildStatus_outcomes_witness :
  fst (@postBuildStatus recording recording_collaborators "9fceb02"
         "SUCCESSFUL" "danger" "Danger" "https://ci.example/1" "All green"
         (writing_client (bodyless_response 204 "No Content"))) = Returned None /\
  fst (@postBuildStatus recording recording_collaborators "9fceb02"
         "SUCCESSFUL" "danger" "Danger" "https://ci.example/1" "All green"
         (writing_client (bodyless_response 401 "Unauthorized"))) =
    Thrown (Error "401 - Unauthorized (Have you set DANGER_GITLAB_USERNAME and DANGER_GITLAB_PASSWORD or DANGER_GITLAB_TOKEN?)") /\
  fst (@postBuildStatus recording recording_collaborators "9fceb02"
         "SUCCESSFUL" "danger" "Danger" "https://ci.example/1" "All green"
         (writing_client (Response.mk 200 "OK" "" (inr (BOther "created"))))) =
    Returned (Some (BOther "created")).
Proof.
  split; [|split].
  - rewrite (proj1 (proj2 (@postBuildStatus_outcomes recording recording_collaborators
               "9fceb02" "SUCCESSFUL" "danger" "Danger" "https://ci.example/1" "All green"
               (writing_client (bodyless_response 204 "No Content"))
               (bodyless_response 204 "No Content")
               ([], [ @write_request recording recording_collaborators
                        (writing_client (bodyless_response 204 "No Content")) "POST"
                        (build_status_path "9fceb02") (Some [])
                        (BuildStatusBody "SUCCESSFUL" "danger" "Danger"
                           "https://ci.example/1" "All green") ])
               eq_refl)) eq_refl).
    reflexivity.
  - rewrite (proj1 (@postBuildStatus_outcomes recording recording_collaborators
               "9fceb02" "SUCCESSFUL" "danger" "Danger" "https://ci.example/1" "All green"
               (writing_client (bodyless_response 401 "Unauthorized"))
               (bodyless_response 401 "Unauthorized")
               ([], [ @write_request recording recording_collaborators
                        (writing_client (bodyless_response 401 "Unauthorized")) "POST"
                        (build_status_path "9fceb02") (Some [])
                        (BuildStatusBody "SUCCESSFUL" "danger" "Danger"
                           "https://ci.example/1" "All green") ])
               eq_refl) eq_refl).
    reflexivity.
  - assert (Hne : (200 : Z) <> 204) by discriminate.
    rewrite (proj2 (proj2 (@postBuildStatus_outcomes recording recording_collaborators
               "9fceb02" "SUCCESSFUL" "danger" "Danger" "https://ci.example/1" "All green"
               (writing_client (Response.mk 200 "OK" "" (inr (BOther "created"))))
               (Response.mk 200 "OK" "" (inr (BOther "created")))
               ([], [ @write_request recording recording_collaborators
                        (writing_client (Response.mk 200 "OK" "" (inr (BOther "created"))))
                        "POST"
                        (build_status_path "9fceb02") (Some [])
                        (BuildStatusBody "SUCCESSFUL" "danger" "Danger"
                           "https://ci.example/1" "All green") ])
               eq_refl)) eq_refl Hne (BOther "created") eq_refl).
    reflexivity.
Defined.

Lemma postInlinePRComment_outcomes_witness :
  fst (@postInlinePRComment recording recording_collaborators "Typo" 5 "add" "a.ts"
         (writing_client (Response.mk 400 "Bad Request" "" (inr (BOther "no such line"))))) =
    Returned (RejectedWith (BOther "no such line")) /\
  fst (@updateComment recording recording_collaborators sample_comment "Fixed"
         (writing_client (Response.mk 200 "OK" "" (inr (BOther "updated"))))) =
    Returned (Resolved (BOther "updated")).
Proof.
  destruct (@postInlinePRComment_outcomes recording recording_collaborators)
    as (Hpost & Hput).
  split.
  - rewrite (Hpost "Typo" 5 "add" "a.ts"
               (writing_client
                  (Response.mk 400 "Bad Request" "" (inr (BOther "no such line"))))
               (Response.mk 400 "Bad Request" "" (inr (BOther "no such line")))
               (BOther "no such line")
               ([], [ @write_request recording recording_collaborators
                        (writing_client
                           (Response.mk 400 "Bad Request" "" (inr (BOther "no such line"))))
                        "POST"
                        (@comments_endpoint recording
                           (writing_client
                              (Response.mk 400 "Bad Request" ""
                                 (inr (BOther "no such line")))))
                        (Some [])
                        (InlineBody "Typo" 5 (get_property lineTypes "add") "TO" "a.ts") ])
               eq_refl eq_refl).
    reflexivity.
  - rewrite (Hput sample_comment "Fixed"
               (writing_client (Response.mk 200 "OK" "" (inr (BOther "updated"))))
               (Response.mk 200 "OK" "" (inr (BOther "updated")))
               (BOther "updated")
               ([], [ @write_request recording recording_collaborators
                        (writing_client (Response.mk 200 "OK" "" (inr (BOther "updated"))))
                        "PUT"
                        (@update_path recording
                           (writing_client
                              (Response.mk 200 "OK" "" (inr (BOther "updated"))))
                           sample_comment)
                        (Some []) (UpdateBody "Fixed" 1) ])
               eq_refl eq_refl).
    reflexivity.
Defined.

(** ** The DSL assembler *)

Section AssemblerProofs.
Context `{P : Platform} `{C : @Collaborators P}.

(** Serving pages changes neither the metadata nor the credentials of the
    instance. *)
Lemma pages_served_fields (cursor : Z) (pages : list GitlabChanges.t)
  (this this' : GitlabAPI) :
  pages_served cursor pages this this' ->
  repoMetadata this' = repoMetadata this /\
  repoCredentials this' = repoCredentials this.
Proof.
  induction 1 as [cursor page this res j w Hf Hok Hj Hp Hn
                 |cursor next page pages this this' res j w Hf Hok Hj Hp Hn Hs IH].
  - split; reflexivity.
  - exact IH.
Qed.

(** The assembler, step by step. *)
Lemma gitDSLForGitlab_run
  (pages : list GitlabChanges.t) (this this1 : GitlabAPI)
  (res : Response.t JSON) (j : JSON) (w : World) (fuel : nat) :
  pages_served 0 pages this this1 ->
  fetch (get_request this1 (commits_path this1)) None (world this1) = (inr res, w) ->
  Response.ok res = true ->
  Response.json res = inr j ->
  (List.length pages <= fuel)%nat ->
  gitDSLForGitlab fuel this =
  (outcome_of
     (commits <-- normalized_commits this j ;;
      bitBucketServerChangesToGitJSONDSL
        (List.concat (map GitlabChanges.values pages)) commits),
   after_request this1 (get_line this1 (commits_path this1)) w).
Proof.
  intros Hs Hf Hok Hj Hfuel.
  destruct (pages_served_fields _ _ _ _ Hs) as (Hm & Hc).
  unfold gitDSLForGitlab, mbind at 1, getPullRequestChanges.
  rewrite (loop_follows_pages _ _ _ _ Hs fuel [] Hfuel). simpl.
  unfold mbind at 1, getPullRequestCommits, mbind at 1.
  fold (commits_path this1).
  rewrite (get_returns _ _ _ _ _ Hf). unfold mbind, lift.
  rewrite (throwIfNotOk_ok res Hok), Hj. unfold mret.
  unfold normalized_commits. simpl. rewrite Hm, Hc.
  destruct (mapM _ (values_as_commits j)) as [e|commits]; simpl; [reflexivity|].
  destruct (bitBucketServerChangesToGitJSONDSL _ commits); reflexivity.
Qed.

(** X25. [gitDSLForGitlab] first reads every page of changes, then the
    commits, and only then normalizes: when the pages and the commits are
    served successfully, its outcome is that of normalizing the commits, in
    the platform's order, with the instance's metadata and host, and then the
    concatenation of the pages' changes with these commits; an error of
    either normalization is raised after all the requests were made, one per
    page and one for the commits. *)
Theorem gitDSLForGitlab_assembles
  (pages : list GitlabChanges.t) (this this1 : GitlabAPI)
  (res : Response.t JSON) (j : JSON) (w : World) (fuel : nat) :
  pages_served 0 pages this this1 ->
  fetch (get_request this1 (commits_path this1)) None (world this1) = (inr res, w) ->
  Response.ok res = true ->
  Response.json res = inr j ->
  (List.length pages <= fuel)%nat ->
  gitDSLForGitlab fuel this =
  (outcome_of
     (commits <-- normalized_commits this j ;;
      bitBucketServerChangesToGitJSONDSL
        (List.concat (map GitlabChanges.values pages)) commits),
   after_request this1 (get_line this1 (commits_path this1)) w) /\
  requests (after_request this1 (get_line this1 (commits_path this1)) w) =
    (requests this + List.length pages + 1)%nat.
Proof.
  intros Hs Hf Hok Hj Hfuel.
  split; [exact (gitDSLForGitlab_run pages this this1 res j w fuel Hs Hf Hok Hj Hfuel)|].
  destruct (pages_served_log _ _ _ _ Hs) as (Hlog & Hlen & _).
  unfold requests. simpl. rewrite Hlog, !length_app, length_map, Hlen. simpl. lia.
Qed.

(** X26. A change record of unknown type on any page makes
    [gitDSLForGitlab] raise "Unhandled change type", provided the records
    before it are handled and the commits normalize; the error comes after
    every page and the commits have been requested. *)
Theorem gitDSLForGitlab_fails_on_unknown_type
  (pages : list GitlabChanges.t) (this this1 : GitlabAPI)
  (res : Response.t JSON) (j : JSON) (w : World) (fuel : nat)
  (pre post : list GitlabChangesValue.t) (v : GitlabChangesValue.t)
  (commits : list GitCommit.t) :
  pages_served 0 pages this this1 ->
  fetch (get_request this1 (commits_path this1)) None (world this1) = (inr res, w) ->
  Response.ok res = true ->
  Response.json res = inr j ->
  (List.length pages <= fuel)%nat ->
  normalized_commits this j = inr commits ->
  List.concat (map GitlabChanges.values pages) = (pre ++ v :: post)%list ->
  forallb handled pre = true ->
  known_type v = false ->
  gitDSLForGitlab fuel this =
  (Thrown (Error "Unhandled change type"),
   after_request this1 (get_line this1 (commits_path this1)) w).
Proof.
  intros Hs Hf Hok Hj Hfuel Hn Hcat Hpre Hv.
  rewrite (gitDSLForGitlab_run pages this this1 res j w fuel Hs Hf Hok Hj Hfuel).
  rewrite Hn, Hcat. simpl. unfold bitBucketServerChangesToGitJSONDSL.
  rewrite reduce_app, (reduce_changes_handled pre _ Hpre). simpl.
  now rewrite (changes_step_unknown _ v Hv).
Qed.

End AssemblerProofs.

Lemma recording_serves_two_pages (commits : list GitlabCommit.t)
  (first second : GitlabChanges.t) (next : Z) :
  GitlabChanges.nextPageStart first = Some next ->
  GitlabChanges.nextPageStart second = None ->
  @pages_served recording 0 [first; second]
    (assembling_client commits [first; second])
    (assembling_after_pages commits first second next).
Proof.
  intros H1 H2.
  refine (@served_next recording 0 next first [second]
            (assembling_client commits [first; second])
            (assembling_after_pages commits first second next)
            (Response.mk 200 "OK" "" (inr (BChanges first))) (BChanges first)
            _ eq_refl eq_refl eq_refl eq_refl H1 _).
  exact (@served_last recording next second
           (assembling_after_first commits first second)
           (Response.mk 200 "OK" "" (inr (BChanges second))) (BChanges second)
           _ eq_refl eq_refl eq_refl eq_refl H2).
Defined.

Lemma gitDSLForGitlab_assembles_witness :
  @gitDSLForGitlab recording recording_collaborators 2
    (assembling_client [sample_commit] two_pages) =
  (Returned
     {| GitJSONDSL.modified_files := ["b.ts"];
        GitJSONDSL.created_files := ["a.ts"];
        GitJSONDSL.deleted_files := ["c.ts"];
        GitJSONDSL.commits :=
          [ {| GitCommit.sha := "9fceb02";
               GitCommit.parents := ["1a2b3c4"];
               GitCommit.author :=
                 GitCommitAuthor.mk "Ada" "ada@example.org" "2023-11-14T22:13:20.000Z";
               GitCommit.committer :=
                 GitCommitAuthor.mk "Ada" "ada@example.org" "2023-11-14T22:13:20.000Z";
               GitCommit.message := "Fix the parser";
               GitCommit.tree := None;
               GitCommit.url :=
                 "https://gitlab.example/api/v4/group%2Fproject/commits/9fceb02" |} ] |},
   assembling_done [sample_commit]
     (GitlabChanges.mk [change_a; change_b] (Some 1))
     (GitlabChanges.mk [change_c] None) 1) /\
  requests (assembling_done [sample_commit]
              (GitlabChanges.mk [change_a; change_b] (Some 1))
              (GitlabChanges.mk [change_c] None) 1) = 3%nat.
Proof.
  destruct (@gitDSLForGitlab_assembles recording recording_collaborators two_pages
              (assembling_client [sample_commit] two_pages)
              (assembling_after_pages [sample_commit]
                 (GitlabChanges.mk [change_a; change_b] (Some 1))
                 (GitlabChanges.mk [change_c] None) 1)
              (Response.mk 200 "OK" "" (inr (BCommits [sample_commit])))
              (BCommits [sample_commit])
              (world (assembling_done [sample_commit]
                        (GitlabChanges.mk [change_a; change_b] (Some 1))
                        (GitlabChanges.mk [change_c] None) 1))
              2%nat
              (recording_serves_two_pages [sample_commit]
                 (GitlabChanges.mk [change_a; change_b] (Some 1))
                 (GitlabChanges.mk [change_c] None) 1 eq_refl eq_refl)
              eq_refl eq_refl eq_refl (le_n 2))
    as (Hrun & Hreq).
  split; [exact Hrun | exact Hreq].
Defined.

Lemma gitDSLForGitlab_fails_on_unknown_type_witness :
  fst (@gitDSLForGitlab recording recording_collaborators 2
         (assembling_client [sample_commit]
            [GitlabChanges.mk [change_a; change_b] (Some 1); copy_page])) =
    Thrown (Error "Unhandled change type") /\
  requests (snd (@gitDSLForGitlab recording recording_collaborators 2
                   (assembling_client [sample_commit]
                      [GitlabChanges.mk [change_a; change_b] (Some 1); copy_page]))) = 3%nat.
Proof.
  rewrite (@gitDSLForGitlab_fails_on_unknown_type recording recording_collaborators
             [GitlabChanges.mk [change_a; change_b] (Some 1); copy_page]
             (assembling_client [sample_commit]
                [GitlabChanges.mk [change_a; change_b] (Some 1); copy_page])
             (assembling_after_pages [sample_commit]
                (GitlabChanges.mk [change_a; change_b] (Some 1)) copy_page 1)
             (Response.mk 200 "OK" "" (inr (BCommits [sample_commit])))
             (BCommits [sample_commit])
             (world (assembling_done [sample_commit]
                       (GitlabChanges.mk [change_a; change_b] (Some 1)) copy_page 1))
             2%nat
             [change_a; change_b; change_a]
             []
             (GitlabChangesValue.mk "COPY" (GitlabPath.mk "copy.ts") None)
             _
             (recording_serves_two_pages [sample_commit]
                (GitlabChanges.mk [change_a; change_b] (Some 1)) copy_page 1
                eq_refl eq_refl)
             eq_refl eq_refl eq_refl (le_n 2) eq_refl eq_refl eq_refl eq_refl).
  split; reflexivity.
Defined.

(** ** The CI source *)

(** X27. [pullRequestID] is the merge request id of the environment when
    that is set and not empty; otherwise it is "0" when the environment has
    no commit SHA, and "1" when it has one: in this version every commit
    without a merge request id is reported as merge request 1. *)
Theorem pullRequestID_cases (env : object) :
  (forall id,
     own_property env "CI_MERGE_REQUEST_ID" = Some id -> id <> "" ->
     GitlabActions.pullRequestID env = id) /\
  (truthy (own_property env "CI_MERGE_REQUEST_ID") = false ->
   truthy (own_property env "CI_COMMIT_SHA") = false ->
   GitlabActions.pullRequestID env = "0") /\
  (truthy (own_property env "CI_MERGE_REQUEST_ID") = false ->
   truthy (own_property env "CI_COMMIT_SHA") = true ->
   GitlabActions.pullRequestID env = "1").
Proof.
  unfold GitlabActions.pullRequestID. repeat split.
  - intros id -> Hne. unfold truthy. apply String.eqb_neq in Hne. now rewrite Hne.
  - intros -> ->. reflexivity.
  - intros -> ->. reflexivity.
Qed.

Lemma pullRequestID_cases_witness :
  GitlabActions.pullRequestID [ ("CI_MERGE_REQUEST_ID", "12"); ("CI_COMMIT_SHA", "9fceb02") ]
    = "12" /\
  GitlabActions.pullRequestID [ ("GITLAB_CI", "true") ] = "0" /\
  GitlabActions.pullRequestID [ ("CI_MERGE_REQUEST_ID", ""); ("CI_COMMIT_SHA", "9fceb02") ]
    = "1".
Proof.
  assert (Hne : "12" <> "") by discriminate.
  split; [|split].
  - exact (proj1 (pullRequestID_cases
                    [ ("CI_MERGE_REQUEST_ID", "12"); ("CI_COMMIT_SHA", "9fceb02") ])
                 "12" eq_refl Hne).
  - exact (proj1 (proj2 (pullRequestID_cases [ ("GITLAB_CI", "true") ])) eq_refl eq_refl).
  - exact (proj2 (proj2 (pullRequestID_cases
                           [ ("CI_MERGE_REQUEST_ID", ""); ("CI_COMMIT_SHA", "9fceb02") ]))
                 eq_refl eq_refl).
Defined.

(** X28. In an environment without a merge request id, [isPR] holds exactly
    when the keys GITLAB_CI and CI_PROJECT_PATH exist and a commit SHA is
    set: with the runtime's [Number("0") > 0] false and [Number("1") > 0]
    true, every such CI job counts as a pull request. *)
Theorem isPR_without_merge_request_id `{H : CIHelpers} (env : object) :
  Number_is_positive "0" = false ->
  Number_is_positive "1" = true ->
  truthy (own_property env "CI_MERGE_REQUEST_ID") = false ->
  GitlabActions.isPR env =
  ensureEnvKeysExist env ["GITLAB_CI"; "CI_PROJECT_PATH"]
  && truthy (own_property env "CI_COMMIT_SHA").
Proof.
  intros H0 H1 Hmr. unfold GitlabActions.isPR, GitlabActions.pullRequestID.
  rewrite Hmr. destruct (truthy (own_property env "CI_COMMIT_SHA")); simpl.
  - now rewrite H1.
  - now rewrite H0.
Qed.

Lemma isPR_without_merge_request_id_witness :
  @GitlabActions.isPR sample_helpers
    [ ("GITLAB_CI", "true"); ("CI_PROJECT_PATH", "group/project");
      ("CI_COMMIT_SHA", "9fceb02") ] = true /\
  @GitlabActions.isPR sample_helpers
    [ ("GITLAB_CI", "true"); ("CI_PROJECT_PATH", "group/project") ] = false.
Proof.
  split.
  - rewrite (@isPR_without_merge_request_id sample_helpers
               [ ("GITLAB_CI", "true"); ("CI_PROJECT_PATH", "group/project");
                 ("CI_COMMIT_SHA", "9fceb02") ] eq_refl eq_refl eq_refl).
    reflexivity.
  - rewrite (@isPR_without_merge_request_id sample_helpers
               [ ("GITLAB_CI", "true"); ("CI_PROJECT_PATH", "group/project") ]
               eq_refl eq_refl eq_refl).
    reflexivity.
Defined.

(** ** Reading methods *)

Section ReadProofs.
Context `{P : Platform} `{C : @Collaborators P}.

(** X29. The reading methods share one contract for failures:
    [getPullRequestCommits], [getPullRequestComments],
    [getPullRequestActivities], [getIssues] and [getStructuredDiffForFile]
    each send one GET and, when the status of the response is outside
    200-299, raise the HTTP error of that response without reading its body.
    [getIssues] asks for the issues under the same base path as the other
    methods. *)
Theorem reading_methods_raise_http_errors
  (this : GitlabAPI) (path : string) (res : Response.t JSON) (w : World) :
  fetch (get_request this path) None (world this) = (inr res, w) ->
  Response.ok res = false ->
  let failed := after_request this (get_line this path) w in
  (path = commits_path this ->
   getPullRequestCommits this = (Thrown (http_error res), failed)) /\
  (path = comments_activities_path this ->
   getPullRequestComments this = (Thrown (http_error res), failed)) /\
  (path = activities_path this ->
   getPullRequestActivities this = (Thrown (http_error res), failed)) /\
  (path = issues_path this ->
   getIssues this = (Thrown (http_error res), failed)) /\
  (forall base head filename,
     path = diff_path this base head filename ->
     getStructuredDiffForFile base head filename this =
     (Thrown (http_error res), failed)).
Proof.
  intros Hf Hok failed. subst failed.
  assert (Hget : get path None None this
                 = (Returned res, after_request this (get_line this path) w))
    by exact (get_returns _ _ _ _ _ Hf).
  assert (Hthrow : throwIfNotOk res = inl (http_error res))
    by exact (throwIfNotOk_not_ok res Hok).
  repeat split.
  - intros ->. unfold getPullRequestCommits, mbind. fold (commits_path this).
    rewrite Hget. unfold lift. now rewrite Hthrow.
  - intros ->. unfold getPullRequestComments, mbind.
    fold (comments_activities_path this).
    rewrite Hget. unfold lift. now rewrite Hthrow.
  - intros ->. unfold getPullRequestActivities, mbind. fold (activities_path this).
    rewrite Hget. unfold lift. now rewrite Hthrow.
  - intros ->. unfold getIssues, mbind. fold (issues_path this).
    rewrite Hget. unfold lift. now rewrite Hthrow.
  - intros base head filename ->. unfold getStructuredDiffForFile, mbind.
    fold (diff_path this base head filename).
    rewrite Hget. unfold lift. now rewrite Hthrow.
Qed.

(** X30. The structured-diff accessor of the configuration built by
    [bitBucketServerGitDSL] sends one GET for the file between the two
    commits and, on a successful response, returns the normalization of the
    response's diffs: one entry per diff, in order, carrying every line of
    every hunk. *)
Theorem diff_accessor_normalizes_the_response
  (base head filename : string) (this : GitlabAPI)
  (res : Response.t JSON) (j : JSON) (w : World) :
  fetch (get_request this (diff_path this base head filename)) None (world this)
    = (inr res, w) ->
  Response.ok res = true ->
  Response.json res = inr j ->
  exists entries,
    config_getStructuredDiffForFile base head filename this =
    (Returned entries,
     after_request this (get_line this (diff_path this base head filename)) w) /\
    entries = bitBucketServerDiffToGitStructuredDiff (diffs_of j) /\
    List.length entries = List.length (diffs_of j) /\
    map entry_payloads entries = map diff_payloads (diffs_of j).
Proof.
  intros Hf Hok Hj.
  exists (bitBucketServerDiffToGitStructuredDiff (diffs_of j)).
  split; [|split; [reflexivity|split]].
  - unfold config_getStructuredDiffForFile, getStructuredDiffForFile, mbind.
    fold (diff_path this base head filename).
    rewrite (get_returns _ _ _ _ _ Hf). unfold lift.
    now rewrite (throwIfNotOk_ok res Hok), Hj.
  - apply length_map.
  - unfold bitBucketServerDiffToGitStructuredDiff. rewrite map_map.
    apply map_ext. intro diff.
    unfold entry_payloads, diff_payloads. simpl.
    destruct (GitlabDiff.hunks diff) as [hs|]; simpl; [|reflexivity].
    f_equal. rewrite map_map. apply map_ext. intro hunk. apply hunk_chunk_payload.
Qed.

End ReadProofs.

Lemma reading_methods_raise_http_errors_witness :
  fst (@getPullRequestCommits recording recording_collaborators
         (writing_client (bodyless_response 404 "Not Found"))) =
    Thrown (Error "404 - Not Found (Have you set DANGER_GITLAB_USERNAME and DANGER_GITLAB_PASSWORD or DANGER_GITLAB_TOKEN?)") /\
  fst (@getIssues recording
         (writing_client (bodyless_response 502 "Bad Gateway"))) =
    Thrown (Error "502 - Bad Gateway").
Proof.
  split.
  - rewrite (proj1 (@reading_methods_raise_http_errors recording recording_collaborators
               (writing_client (bodyless_response 404 "Not Found"))
               (@commits_path recording (writing_client (bodyless_response 404 "Not Found")))
               (bodyless_response 404 "Not Found")
               ([], [ @get_request recording
                        (writing_client (bodyless_response 404 "Not Found"))
                        (@commits_path recording
                           (writing_client (bodyless_response 404 "Not Found"))) ])
               eq_refl eq_refl) eq_refl).
    reflexivity.
  - rewrite (proj1 (proj2 (proj2 (proj2
               (@reading_methods_raise_http_errors recording recording_collaborators
                  (writing_client (bodyless_response 502 "Bad Gateway"))
                  (@issues_path recording
                     (writing_client (bodyless_response 502 "Bad Gateway")))
                  (bodyless_response 502 "Bad Gateway")
                  ([], [ @get_request recording
                           (writing_client (bodyless_response 502 "Bad Gateway"))
                           (@issues_path recording
                              (writing_client (bodyless_response 502 "Bad Gateway"))) ])
                  eq_refl eq_refl)))) eq_refl).
    reflexivity.
Defined.

Lemma diff_accessor_normalizes_the_response_witness :
  exists entries,
    fst (@config_getStructuredDiffForFile recording recording_collaborators
           "1a2b3c4" "9fceb02" "lib/x.ts" diff_client) = Returned entries /\
    List.length entries = 2%nat /\
    map entry_payloads entries =
      [ Some [ [ ("x", Some 1, Some 2) ] ];
        Some [ [ ("x", None, Some 5); ("y", Some 3, None) ] ] ].
Proof.
  destruct (@diff_accessor_normalizes_the_response recording recording_collaborators
              "1a2b3c4" "9fceb02" "lib/x.ts" diff_client
              (Response.mk 200 "OK" "" (inr (BDiffs [moved_diff; sample_diff])))
              (BDiffs [moved_diff; sample_diff])
              ([], [ @get_request recording diff_client
                       (@diff_path recording diff_client "1a2b3c4" "9fceb02" "lib/x.ts") ])
              eq_refl eq_refl eq_refl)
    as (entries & Hrun & _ & Hlen & Hpay).
  exists entries. split; [now rewrite Hrun|]. split; [exact Hlen | exact Hpay].
Defined.
